(** * Azure AI Foundry plugin for Genkit: translation and streaming layer

    A shallow embedding of [azureaifoundry_plugin.go]: the message
    translator, the request builder, the response converter, the streaming
    aggregator and the three modality routers, followed by the properties
    the specification states about them.

    Conventions.
    - Go [string] and [[]byte] are byte strings: [string] and [list Byte.byte].
    - Go [int] and [int64] are [Z]; every conversion between them in the
      plugin is the identity on the values a 64-bit platform holds.
    - Go [float64] is the kernel's binary64 [float].
    - A call that returns [(T, error)] returns [result T].
    - Calls to the vendor client are recorded in a trace, so that "no vendor
      call was issued" is a statement about the trace.
    - Library functions whose code is not part of the plugin
      (strings.ToLower, encoding/json, encoding/base64, the iteration order
      of a Go map) are the fields of the class [GoRuntime]. *)

From Stdlib Require Import ZArith Floats Ascii Strings.Byte Permutation.
From stdpp Require Import gmap strings list fin_maps.

Local Open Scope string_scope.
Local Open Scope list_scope.
Local Open Scope Z_scope.

(** ** Go values *)

(** A value held in an [interface{}]. [AnyOpaque] stands for every dynamic
    type the plugin never inspects (a channel, a function, a struct). A nil
    map is identified with the empty one: the plugin only stores and
    forwards it. *)
#[warnings="-register-all"]
Inductive any : Type :=
| AnyNil
| AnyBool (b : bool)
| AnyInt (n : Z)
| AnyFloat64 (f : float)
| AnyString (s : string)
| AnySlice (l : list any)
| AnyMap (m : gmap string any)
| AnyOpaque (tag : string).

(** [error] values: one made by a library or by the vendor, one made by
    [fmt.Errorf] from a message alone, and one wrapping another with [%w]. *)
Inductive error : Type :=
| ErrExternal (msg : string)
| Errorf (msg : string)
| ErrWrap (msg : string) (cause : error).

Inductive result (A : Type) : Type :=
| Ok (a : A)
| Err (e : error).
Arguments Ok {A} a.
Arguments Err {A} e.

Definition isErr {A} (r : result A) : bool :=
  match r with Ok _ => false | Err _ => true end.

(** ** The [strings] package, byte level *)

Module Strings.

(** [s == ""]. *)
Definition isEmpty (s : string) : bool :=
  match s with EmptyString => true | String _ _ => false end.

(** [strings.Contains(s, substr)]. *)
Fixpoint Contains (s substr : string) : bool :=
  String.prefix substr s ||
  match s with
  | EmptyString => false
  | String _ s' => Contains s' substr
  end.

(** [strings.Index(s, substr)]: the first byte offset, or -1. *)
Fixpoint Index (s substr : string) : Z :=
  if String.prefix substr s then 0
  else match s with
       | EmptyString => -1
       | String _ s' =>
           let i := Index s' substr in
           if i =? -1 then -1 else i + 1
       end.

(** [s[n:]] for [0 <= n <= len(s)]. *)
Fixpoint dropBytes (n : nat) (s : string) : string :=
  match n, s with
  | O, _ => s
  | S n', String _ s' => dropBytes n' s'
  | S _, EmptyString => EmptyString
  end.

Definition sliceFrom (s : string) (n : Z) : string := dropBytes (Z.to_nat n) s.

(** ASCII lower-casing, the restriction of [strings.ToLower] to ASCII
    identifiers; the example runtime below uses it. *)
Definition asciiLower (c : ascii) : ascii :=
  let n := nat_of_ascii c in
  if (65 <=? n)%nat && (n <=? 90)%nat then ascii_of_nat (n + 32) else c.

Fixpoint asciiToLower (s : string) : string :=
  match s with
  | EmptyString => EmptyString
  | String c s' => String (asciiLower c) (asciiToLower s')
  end.

End Strings.

(** ** Genkit's [ai] package: the types the plugin consumes and produces *)

Module ai.

(** [ai.Role] is a string type; the plugin switches on four constants. *)
Inductive Role : Type :=
| RoleSystem
| RoleUser
| RoleModel
| RoleTool
| RoleOther (name : string).

Record ToolRequest : Type := mkToolRequest {
  ToolRequest_Name : string;
  ToolRequest_Input : any
}.

Record ToolResponse : Type := mkToolResponse {
  ToolResponse_Name : string;
  ToolResponse_Output : any
}.

(** [ai.Part], as its constructors ([NewTextPart], [NewMediaPart], ...)
    build it: the kind tag and the payload that kind carries. *)
Inductive Part : Type :=
| NewTextPart (text : string)
| NewMediaPart (mimeType contents : string)
| NewDataPart (contents : string)
| NewToolRequestPart (r : ToolRequest)
| NewToolResponsePart (r : ToolResponse)
| NewCustomPart (custom : gmap string any)
| NewReasoningPart (text : string).

(** [part.Text]: set by the text, media, data and reasoning constructors. *)
Definition Text (p : Part) : string :=
  match p with
  | NewTextPart t => t
  | NewMediaPart _ c => c
  | NewDataPart c => c
  | NewReasoningPart t => t
  | NewToolRequestPart _ | NewToolResponsePart _ | NewCustomPart _ => ""
  end.

Definition IsText (p : Part) : bool :=
  match p with NewTextPart _ => true | _ => false end.

Definition IsMedia (p : Part) : bool :=
  match p with NewMediaPart _ _ => true | _ => false end.

Definition IsToolRequest (p : Part) : bool :=
  match p with NewToolRequestPart _ => true | _ => false end.

Definition IsToolResponse (p : Part) : bool :=
  match p with NewToolResponsePart _ => true | _ => false end.

Record Message : Type := mkMessage {
  Role_ : Role;
  Content : list Part
}.

Inductive FinishReason : Type :=
| FinishReasonStop
| FinishReasonLength
| FinishReasonBlocked
| FinishReasonInterrupted
| FinishReasonOther
| FinishReasonUnknown.

Record GenerationUsage : Type := mkUsage {
  InputTokens : Z;
  OutputTokens : Z;
  TotalTokens : Z
}.

(** [Usage] is a pointer in Go: [None] is the nil pointer. *)
Record ModelResponse : Type := mkModelResponse {
  Message_ : Message;
  FinishReason_ : FinishReason;
  Usage : option GenerationUsage
}.

Record ModelResponseChunk : Type := mkChunk {
  ChunkContent : list Part
}.

Record ToolDefinition : Type := mkToolDefinition {
  ToolDefinition_Name : string;
  ToolDefinition_Description : string;
  ToolDefinition_InputSchema : option (gmap string any)
}.

Record ModelRequest : Type := mkModelRequest {
  Messages : list Message;
  Tools : list ToolDefinition;
  Config : any
}.

End ai.

(** [fileReader]: the bytes of an upload and the file name sent with it. *)
Record fileReader : Type := mkFileReader {
  Reader : list byte;
  name : string
}.

(** ** The vendor SDK's request and response shapes *)

Module openai.

Inductive ChatCompletionContentPartUnionParam : Type :=
| OfText (text : string)
| OfImageURL (url : string).

Inductive ChatCompletionUserMessageParamContentUnion : Type :=
| OfString (s : string)
| OfArrayOfContentParts (parts : list ChatCompletionContentPartUnionParam).

Record ChatCompletionMessageFunctionToolCallParam : Type := mkToolCallParam {
  ToolCallParam_ID : string;
  ToolCallParam_Type : string;
  ToolCallParam_Name : string;
  ToolCallParam_Arguments : string
}.

Inductive ChatCompletionMessageParamUnion : Type :=
| OfSystem (content : string)
| OfUser (content : ChatCompletionUserMessageParamContentUnion)
| OfAssistant (content : string)
              (toolCalls : list ChatCompletionMessageFunctionToolCallParam)
| OfTool (content : string) (toolCallID : string).

Record FunctionDefinitionParam : Type := mkFunctionDefinition {
  Function_Name : string;
  Function_Description : option string;
  Function_Parameters : option (gmap string any)
}.

(** Optional request fields ([openai.Int], [openai.Float], ...) are options;
    [ToolChoice] holds the [OfAuto] string when set. *)
Record ChatCompletionNewParams : Type := mkParams {
  Params_Model : string;
  Params_Messages : list ChatCompletionMessageParamUnion;
  Params_MaxTokens : option Z;
  Params_Temperature : option float;
  Params_TopP : option float;
  Params_Tools : list FunctionDefinitionParam;
  Params_ToolChoice : option string
}.

(** A tool call of a response as [toolCall.AsFunction()] reads it. *)
Record ChatCompletionMessageFunctionToolCall : Type := mkToolCall {
  ToolCall_ID : string;
  ToolCall_Name : string;
  ToolCall_Arguments : string
}.

Record ChatCompletionMessage : Type := mkCompletionMessage {
  Message_Content : string;
  Message_ToolCalls : list ChatCompletionMessageFunctionToolCall
}.

Record ChatCompletionChoice : Type := mkChoice {
  Choice_Message : ChatCompletionMessage;
  Choice_FinishReason : string
}.

Record CompletionUsage : Type := mkCompletionUsage {
  PromptTokens : Z;
  CompletionTokens : Z;
  TotalTokens : Z
}.

Record ChatCompletion : Type := mkChatCompletion {
  Choices : list ChatCompletionChoice;
  Usage : CompletionUsage
}.

Record ChatCompletionChunkChoiceDeltaToolCall : Type := mkDeltaToolCall {
  Index : Z;
  ID : string;
  Function_Name_ : string;
  Function_Arguments : string
}.

Record ChatCompletionChunkChoiceDelta : Type := mkDelta {
  Delta_Content : string;
  Delta_ToolCalls : list ChatCompletionChunkChoiceDeltaToolCall
}.

Record ChatCompletionChunkChoice : Type := mkChunkChoice {
  Delta : ChatCompletionChunkChoiceDelta;
  ChunkChoice_FinishReason : string
}.

Record ChatCompletionChunk : Type := mkCompletionChunk {
  Chunk_Choices : list ChatCompletionChunkChoice;
  Chunk_Usage : CompletionUsage
}.

(** A stream, seen from its consumer: the chunks [Next]/[Current] deliver
    before [Next] returns false, and what [Err] reports afterwards. The
    plugin discards what the deferred [Close] returns. *)
Record Stream : Type := mkStream {
  Stream_Chunks : list ChatCompletionChunk;
  Stream_Err : option error
}.

Record ImageGenerateParams : Type := mkImageParams {
  Image_Prompt : string;
  Image_Model : string;
  Image_N : option Z;
  Image_Size : option string;
  Image_Quality : option string;
  Image_Style : option string;
  Image_ResponseFormat : option string
}.

Record Image : Type := mkImage {
  Image_URL : string;
  Image_B64JSON : string;
  Image_RevisedPrompt : string
}.

Record ImagesResponse : Type := mkImagesResponse {
  Data : list Image
}.

Record AudioSpeechNewParams : Type := mkSpeechParams {
  Speech_Model : string;
  Speech_Input : string;
  Speech_Voice : string;
  Speech_ResponseFormat : option string;
  Speech_Speed : option float
}.

(** An HTTP response body: what [io.ReadAll] returns and what [Close]
    returns. *)
Record ResponseBody : Type := mkBody {
  Body_Bytes : list byte;
  Body_ReadErr : option error;
  Body_CloseErr : option error
}.

Record AudioTranscriptionNewParams : Type := mkTranscriptionParams {
  Transcription_Model : string;
  Transcription_File : fileReader;
  Transcription_Language : option string;
  Transcription_Prompt : option string;
  Transcription_ResponseFormat : option string;
  Transcription_Temperature : option float
}.

Record Transcription : Type := mkTranscription {
  Transcription_Text : string;
  Transcription_Lang : string;
  Transcription_Duration : float
}.

(** The client handle: one function per vendor operation the plugin uses. *)
Record Client : Type := mkClient {
  Chat_Completions_New : ChatCompletionNewParams -> result ChatCompletion;
  Chat_Completions_NewStreaming : ChatCompletionNewParams -> Stream;
  Images_Generate : ImageGenerateParams -> result ImagesResponse;
  Audio_Speech_New : AudioSpeechNewParams -> result ResponseBody;
  Audio_Transcriptions_New : AudioTranscriptionNewParams -> result Transcription
}.

End openai.

(** ** Library functions the plugin calls *)

(** [json_Unmarshal s] is [json.Unmarshal([]byte(s), &args)] for a fresh
    [var args map[string]interface{}]: [Ok m] carries what is left in
    [args]. [mapRange m] is the order in which one [for ... range m] visits
    a map; Go leaves it unspecified, so only [mapRange_perm] is known. *)
Class GoRuntime : Type := {
  strings_ToLower : string -> string;
  json_Marshal : any -> result string;
  json_Unmarshal : string -> result (gmap string any);
  base64_DecodeString : string -> result (list byte);
  base64_EncodeToString : list byte -> string;
  mapRange : forall {A : Type}, gmap Z A -> list (Z * A);
  mapRange_perm : forall (A : Type) (m : gmap Z A), mapRange m ≡ₚ map_to_list m
}.

(** ** Vendor calls as a trace *)

Inductive VendorCall : Type :=
| CallChatCompletionsNew (p : openai.ChatCompletionNewParams)
| CallChatCompletionsNewStreaming (p : openai.ChatCompletionNewParams)
| CallImagesGenerate (p : openai.ImageGenerateParams)
| CallAudioSpeechNew (p : openai.AudioSpeechNewParams)
| CallAudioTranscriptionsNew (p : openai.AudioTranscriptionNewParams).

(** A plugin operation: the vendor calls it issued, in order, and what it
    returned. *)
Definition M (A : Type) : Type := (list VendorCall * result A)%type.

Definition ret {A} (a : A) : M A := ([], Ok a).

Definition throw {A} (e : error) : M A := ([], Err e).

Definition bind {A B} (m : M A) (k : A -> M B) : M B :=
  match m with
  | (t, Ok a) => let '(t', r) := k a in (t ++ t', r)
  | (t, Err e) => (t, Err e)
  end.

(** Issue a vendor call: log it, and continue with its outcome. *)
Definition call {A} (c : VendorCall) (r : result A) : M A := ([c], r).

(** [if err != nil { return nil, fmt.Errorf("msg: %w", err) }]. *)
Definition wrapErr {A} (msg : string) (m : M A) : M A :=
  match m with
  | (t, Ok a) => (t, Ok a)
  | (t, Err e) => (t, Err (ErrWrap msg e))
  end.

Notation "x <- m ;; k" := (bind m (fun x => k))
  (at level 100, m at next level, right associativity).

(** The plugin object: the mutex only guards [initted] and [client]. *)
Record AzureAIFoundry : Type := mkPlugin {
  initted : bool;
  client : openai.Client
}.

(** ** The plugin's own request and response types *)

Record ImageGenerationRequest : Type := mkImageRequest {
  Image_Prompt : string;
  Image_N : Z;
  Image_Size : string;
  Image_Quality : string;
  Image_Style : string;
  Image_ResponseFormat : string
}.

Record GeneratedImage : Type := mkGeneratedImage {
  URL : string;
  B64JSON : string;
  RevisedPrompt : string
}.

Record ImageGenerationResponse : Type := mkImageResponse {
  Images : list GeneratedImage;
  Response_RevisedPrompt : string
}.

Record TTSRequest : Type := mkTTSRequest {
  TTS_Input : string;
  TTS_Voice : string;
  TTS_ResponseFormat : string;
  TTS_Speed : float
}.

Record TTSResponse : Type := mkTTSResponse {
  Audio : list byte
}.

Record STTRequest : Type := mkSTTRequest {
  STT_Audio : list byte;
  STT_Filename : string;
  STT_Language : string;
  STT_Prompt : string;
  STT_ResponseFormat : string;
  STT_Temperature : float
}.

Record STTResponse : Type := mkSTTResponse {
  STT_Text : string;
  STT_Lang : string;
  STT_Duration : float
}.

(** [req.F = v] for each field the routers assign. *)
Definition set_N (n : Z) (r : ImageGenerationRequest) : ImageGenerationRequest :=
  mkImageRequest (Image_Prompt r) n (Image_Size r) (Image_Quality r)
                 (Image_Style r) (Image_ResponseFormat r).
Definition set_Size (s : string) (r : ImageGenerationRequest) : ImageGenerationRequest :=
  mkImageRequest (Image_Prompt r) (Image_N r) s (Image_Quality r)
                 (Image_Style r) (Image_ResponseFormat r).
Definition set_Quality (s : string) (r : ImageGenerationRequest) : ImageGenerationRequest :=
  mkImageRequest (Image_Prompt r) (Image_N r) (Image_Size r) s
                 (Image_Style r) (Image_ResponseFormat r).
Definition set_Style (s : string) (r : ImageGenerationRequest) : ImageGenerationRequest :=
  mkImageRequest (Image_Prompt r) (Image_N r) (Image_Size r) (Image_Quality r)
                 s (Image_ResponseFormat r).
Definition set_ResponseFormat (s : string) (r : ImageGenerationRequest) : ImageGenerationRequest :=
  mkImageRequest (Image_Prompt r) (Image_N r) (Image_Size r) (Image_Quality r)
                 (Image_Style r) s.

(** ** Reading the untyped configuration bag *)

(** [input.Config != nil] and [input.Config.(map[string]interface{})]
    succeeds. *)
Definition asConfigMap (cfg : any) : option (gmap string any) :=
  match cfg with AnyMap m => Some m | _ => None end.

(** [configMap[key].(int)], [.(string)] and [.(float64)]: a missing key
    reads as the nil interface, on which every assertion fails. *)
Definition asInt (v : option any) : option Z :=
  match v with Some (AnyInt n) => Some n | _ => None end.
Definition asString (v : option any) : option string :=
  match v with Some (AnyString s) => Some s | _ => None end.
Definition asFloat64 (v : option any) : option float :=
  match v with Some (AnyFloat64 f) => Some f | _ => None end.

(** [if v, ok := configMap[key].(T); ok { req.F = v }]. *)
Definition override {T Req : Type} (v : option T) (set : T -> Req -> Req)
    (req : Req) : Req :=
  match v with Some x => set x req | None => req end.

(** [if s != "" { params.F = s }], and the same test on numbers. *)
Definition optString (s : string) : option string :=
  if Strings.isEmpty s then None else Some s.
Definition optPositiveInt (n : Z) : option Z :=
  if 0 <? n then Some n else None.
Definition optPositiveFloat (f : float) : option float :=
  if PrimFloat.ltb PrimFloat.zero f then Some f else None.

(** The loop that opens [generateImages] and [generateSpeech]: the text of
    every text part of every message, in order. *)
Definition collectText (messages : list ai.Message) : string :=
  fold_left
    (fun prompt msg =>
       fold_left
         (fun prompt part =>
            if ai.IsText part then prompt +:+ ai.Text part else prompt)
         (ai.Content msg) prompt)
    messages "".

Definition textResponse (content : list ai.Part) : ai.ModelResponse :=
  ai.mkModelResponse (ai.mkMessage ai.RoleModel content) ai.FinishReasonStop None.

Section Plugin.
Context {runtime : GoRuntime}.

(** ** Modality routers *)

Definition notInitialized {A} : M A :=
  throw (Errorf "azureaifoundry: client not initialized").

Definition generateImagesInternal (a : AzureAIFoundry) (modelName : string)
    (req : ImageGenerationRequest) : M ImageGenerationResponse :=
  if negb (initted a) then notInitialized else
  let params :=
    openai.mkImageParams (Image_Prompt req) modelName
      (optPositiveInt (Image_N req))
      (optString (Image_Size req))
      (optString (Image_Quality req))
      (optString (Image_Style req))
      (optString (Image_ResponseFormat req)) in
  resp <- wrapErr "image generation failed"
            (call (CallImagesGenerate params)
                  (openai.Images_Generate (client a) params)) ;;
  let images :=
    fold_left
      (fun images img =>
         images ++ [mkGeneratedImage (openai.Image_URL img)
                                     (openai.Image_B64JSON img)
                                     (openai.Image_RevisedPrompt img)])
      (openai.Data resp) [] in
  ret (mkImageResponse images "").

(** The request [generateImages] builds before it calls the vendor: the
    defaults, then one override per recognised key. *)
Definition imageRequest (input : ai.ModelRequest) : ImageGenerationRequest :=
  let prompt := collectText (ai.Messages input) in
  let req := mkImageRequest prompt 1 "1024x1024" "standard" "vivid" "url" in
  match asConfigMap (ai.Config input) with
  | Some configMap =>
      let req := override (asInt (configMap !! "n")) set_N req in
      let req := override (asString (configMap !! "size")) set_Size req in
      let req := override (asString (configMap !! "quality")) set_Quality req in
      let req := override (asString (configMap !! "style")) set_Style req in
      let req := override (asString (configMap !! "response_format"))
                          set_ResponseFormat req in
      req
  | None => req
  end.

Definition generateImages (a : AzureAIFoundry) (modelName : string)
    (input : ai.ModelRequest) : M ai.ModelResponse :=
  let req := imageRequest input in
  resp <- generateImagesInternal a modelName req ;;
  let content :=
    fold_left
      (fun content img =>
         if negb (Strings.isEmpty (URL img)) then
           content ++ [ai.NewTextPart (URL img)]
         else if negb (Strings.isEmpty (B64JSON img)) then
           content ++ [ai.NewTextPart (B64JSON img)]
         else content)
      (Images resp) [] in
  ret (textResponse content).

Definition generateSpeechInternal (a : AzureAIFoundry) (modelName : string)
    (req : TTSRequest) : M TTSResponse :=
  if negb (initted a) then notInitialized else
  let params :=
    openai.mkSpeechParams modelName (TTS_Input req) (TTS_Voice req)
      (optString (TTS_ResponseFormat req))
      (optPositiveFloat (TTS_Speed req)) in
  resp <- wrapErr "speech generation failed"
            (call (CallAudioSpeechNew params)
                  (openai.Audio_Speech_New (client a) params)) ;;
  match openai.Body_CloseErr resp, openai.Body_ReadErr resp with
  | Some closeErr, _ => throw (ErrWrap "failed to close response body" closeErr)
  | None, Some err => throw (ErrWrap "failed to read audio data" err)
  | None, None => ret (mkTTSResponse (openai.Body_Bytes resp))
  end.

Definition speechRequest (input : ai.ModelRequest) : TTSRequest :=
  let text := collectText (ai.Messages input) in
  let req := mkTTSRequest text "alloy" "mp3" 1%float in
  match asConfigMap (ai.Config input) with
  | Some configMap =>
      let req := override (asString (configMap !! "voice"))
                   (fun v r => mkTTSRequest (TTS_Input r) v (TTS_ResponseFormat r) (TTS_Speed r))
                   req in
      let req := override (asString (configMap !! "response_format"))
                   (fun v r => mkTTSRequest (TTS_Input r) (TTS_Voice r) v (TTS_Speed r))
                   req in
      let req := override (asFloat64 (configMap !! "speed"))
                   (fun v r => mkTTSRequest (TTS_Input r) (TTS_Voice r) (TTS_ResponseFormat r) v)
                   req in
      req
  | None => req
  end.

Definition generateSpeech (a : AzureAIFoundry) (modelName : string)
    (input : ai.ModelRequest) : M ai.ModelResponse :=
  let req := speechRequest input in
  resp <- generateSpeechInternal a modelName req ;;
  let audioBase64 := base64_EncodeToString (Audio resp) in
  ret (textResponse [ai.NewTextPart audioBase64]).

Definition transcribeAudioInternal (a : AzureAIFoundry) (modelName : string)
    (req : STTRequest) : M STTResponse :=
  if negb (initted a) then notInitialized else
  let filename :=
    if Strings.isEmpty (STT_Filename req) then "audio.mp3" else STT_Filename req in
  let file := mkFileReader (STT_Audio req) filename in
  let params :=
    openai.mkTranscriptionParams modelName file
      (optString (STT_Language req))
      (optString (STT_Prompt req))
      (optString (STT_ResponseFormat req))
      (optPositiveFloat (STT_Temperature req)) in
  resp <- wrapErr "audio transcription failed"
            (call (CallAudioTranscriptionsNew params)
                  (openai.Audio_Transcriptions_New (client a) params)) ;;
  ret (mkSTTResponse (openai.Transcription_Text resp)
                     (openai.Transcription_Lang resp)
                     (openai.Transcription_Duration resp)).

(** The file name chosen from the media type named in the data URI. *)
Definition audioFilename (mediaText : string) : string :=
  if Strings.Contains mediaText "audio/mp3" || Strings.Contains mediaText "audio/mpeg"
  then "audio.mp3"
  else if Strings.Contains mediaText "audio/wav" then "audio.wav"
  else if Strings.Contains mediaText "audio/opus" then "audio.opus"
  else "audio.mp3".

(** One pass of the inner loop of [transcribeAudioFromRequest]; the state is
    [(audioData, filename)], and a decoding error leaves the function. *)
Definition scanAudioPart (st : result (list byte * string)) (part : ai.Part)
    : result (list byte * string) :=
  match st with
  | Err e => Err e
  | Ok (audioData, filename) =>
      if ai.IsMedia part then
        let mediaText := ai.Text part in
        let idx := Strings.Index mediaText "base64," in
        if negb (idx =? -1) then
          let b64Data := Strings.sliceFrom mediaText (idx + 7) in
          match base64_DecodeString b64Data with
          | Err err => Err (ErrWrap "failed to decode audio" err)
          | Ok audioData' => Ok (audioData', audioFilename mediaText)
          end
        else Ok (audioData, filename)
      else Ok (audioData, filename)
  end.

Definition scanAudio (messages : list ai.Message) : result (list byte * string) :=
  fold_left
    (fun st msg => fold_left scanAudioPart (ai.Content msg) st)
    messages (Ok ([], "")).

Definition sttRequest (audioData : list byte) (filename : string)
    (input : ai.ModelRequest) : STTRequest :=
  let req := mkSTTRequest audioData filename "" "" "json" PrimFloat.zero in
  match asConfigMap (ai.Config input) with
  | Some configMap =>
      let req := override (asString (configMap !! "language"))
                   (fun v r => mkSTTRequest (STT_Audio r) (STT_Filename r) v (STT_Prompt r)
                                            (STT_ResponseFormat r) (STT_Temperature r))
                   req in
      let req := override (asString (configMap !! "prompt"))
                   (fun v r => mkSTTRequest (STT_Audio r) (STT_Filename r) (STT_Language r) v
                                            (STT_ResponseFormat r) (STT_Temperature r))
                   req in
      let req := override (asString (configMap !! "response_format"))
                   (fun v r => mkSTTRequest (STT_Audio r) (STT_Filename r) (STT_Language r)
                                            (STT_Prompt r) v (STT_Temperature r))
                   req in
      let req := override (asFloat64 (configMap !! "temperature"))
                   (fun v r => mkSTTRequest (STT_Audio r) (STT_Filename r) (STT_Language r)
                                            (STT_Prompt r) (STT_ResponseFormat r) v)
                   req in
      req
  | None => req
  end.

Definition transcribeAudioFromRequest (a : AzureAIFoundry) (modelName : string)
    (input : ai.ModelRequest) : M ai.ModelResponse :=
  match scanAudio (ai.Messages input) with
  | Err e => throw e
  | Ok (audioData, filename) =>
      match audioData with
      | [] => throw (Errorf "no audio data found in request")
      | _ :: _ =>
          let req := sttRequest audioData filename input in
          resp <- transcribeAudioInternal a modelName req ;;
          ret (textResponse [ai.NewTextPart (STT_Text resp)])
      end
  end.

(** ** Message translator *)

Definition hasMultimodalContent (msg : ai.Message) : bool :=
  let '(hasText, hasMedia) :=
    fold_left
      (fun '(hasText, hasMedia) part =>
         (if ai.IsText part then true else hasText,
          if ai.IsMedia part then true else hasMedia))
      (ai.Content msg) (false, false) in
  hasMedia || (hasText && (1 <? Z.of_nat (length (ai.Content msg)))).

(** [msg.Content[0].Text]; only read when the content is not empty. *)
Definition firstText (content : list ai.Part) : string :=
  match content with
  | part :: _ => ai.Text part
  | [] => ""
  end.

(** Body of the loop of the multimodal user case. *)
Definition appendContentPart
    (contentParts : list openai.ChatCompletionContentPartUnionParam)
    (part : ai.Part) : list openai.ChatCompletionContentPartUnionParam :=
  if ai.IsText part then contentParts ++ [openai.OfText (ai.Text part)]
  else if ai.IsMedia part then contentParts ++ [openai.OfImageURL (ai.Text part)]
  else contentParts.

(** Body of the loop of the model case; the state is
    [(textContent, toolCalls)]. *)
Definition appendModelPart
    (st : string * list openai.ChatCompletionMessageFunctionToolCallParam)
    (part : ai.Part)
    : string * list openai.ChatCompletionMessageFunctionToolCallParam :=
  let '(textContent, toolCalls) := st in
  match part with
  | ai.NewTextPart text => (textContent +:+ text, toolCalls)
  | ai.NewToolRequestPart toolReq =>
      match json_Marshal (ai.ToolRequest_Input toolReq) with
      | Err _ => (textContent, toolCalls)
      | Ok argsJSON =>
          (textContent,
           toolCalls ++
             [openai.mkToolCallParam ("call_" +:+ ai.ToolRequest_Name toolReq)
                "function" (ai.ToolRequest_Name toolReq) argsJSON])
      end
  | _ => (textContent, toolCalls)
  end.

(** Body of the loop of the tool case. *)
Definition appendToolPart
    (openAIMessages : list openai.ChatCompletionMessageParamUnion)
    (part : ai.Part) : list openai.ChatCompletionMessageParamUnion :=
  match part with
  | ai.NewToolResponsePart toolResp =>
      match json_Marshal (ai.ToolResponse_Output toolResp) with
      | Err _ => openAIMessages
      | Ok outputJSON =>
          openAIMessages ++
            [openai.OfTool outputJSON ("call_" +:+ ai.ToolResponse_Name toolResp)]
      end
  | _ => openAIMessages
  end.

(** Body of the outer loop of [convertMessagesToOpenAI]. *)
Definition appendMessage
    (openAIMessages : list openai.ChatCompletionMessageParamUnion)
    (msg : ai.Message) : list openai.ChatCompletionMessageParamUnion :=
  match ai.Content msg with
  | [] => openAIMessages
  | _ :: _ =>
      match ai.Role_ msg with
      | ai.RoleSystem =>
          openAIMessages ++ [openai.OfSystem (firstText (ai.Content msg))]
      | ai.RoleUser =>
          if hasMultimodalContent msg then
            let contentParts := fold_left appendContentPart (ai.Content msg) [] in
            openAIMessages ++
              [openai.OfUser (openai.OfArrayOfContentParts contentParts)]
          else
            openAIMessages ++
              [openai.OfUser (openai.OfString (firstText (ai.Content msg)))]
      | ai.RoleModel =>
          let '(textContent, toolCalls) :=
            fold_left appendModelPart (ai.Content msg) ("", []) in
          openAIMessages ++ [openai.OfAssistant textContent toolCalls]
      | ai.RoleTool => fold_left appendToolPart (ai.Content msg) openAIMessages
      | ai.RoleOther _ => openAIMessages
      end
  end.

Definition convertMessagesToOpenAI (messages : list ai.Message)
    : list openai.ChatCompletionMessageParamUnion :=
  fold_left appendMessage messages [].

(** ** Request builder *)

Record modelConfig : Type := mkModelConfig {
  maxTokens : option Z;
  temperature : option float;
  topP : option float;
  toolChoice : string
}.

Definition extractConfigFromRequest (input : ai.ModelRequest) : modelConfig :=
  let config := mkModelConfig None None None "" in
  match asConfigMap (ai.Config input) with
  | None => config
  | Some configMap =>
      let config := override (asInt (configMap !! "maxOutputTokens"))
                      (fun v c => mkModelConfig (Some v) (temperature c) (topP c) (toolChoice c))
                      config in
      let config := override (asFloat64 (configMap !! "temperature"))
                      (fun v c => mkModelConfig (maxTokens c) (Some v) (topP c) (toolChoice c))
                      config in
      let config := override (asFloat64 (configMap !! "topP"))
                      (fun v c => mkModelConfig (maxTokens c) (temperature c) (Some v) (toolChoice c))
                      config in
      let config := override (asString (configMap !! "toolChoice"))
                      (fun v c => mkModelConfig (maxTokens c) (temperature c) (topP c) v)
                      config in
      config
  end.

Definition toolChoiceParam (choice : string) : option string :=
  if String.eqb choice "auto" then Some "auto"
  else if String.eqb choice "required" then Some "required"
  else if String.eqb choice "none" then Some "none"
  else None.

Definition buildChatCompletionParams (input : ai.ModelRequest) (modelName : string)
    : openai.ChatCompletionNewParams :=
  let messages := convertMessagesToOpenAI (ai.Messages input) in
  let config := extractConfigFromRequest input in
  match ai.Tools input with
  | [] =>
      openai.mkParams modelName messages (maxTokens config) (temperature config)
        (topP config) [] None
  | _ :: _ =>
      let tools :=
        fold_left
          (fun tools tool =>
             tools ++
               [openai.mkFunctionDefinition (ai.ToolDefinition_Name tool)
                  (optString (ai.ToolDefinition_Description tool))
                  (ai.ToolDefinition_InputSchema tool)])
          (ai.Tools input) [] in
      openai.mkParams modelName messages (maxTokens config) (temperature config)
        (topP config) tools (toolChoiceParam (toolChoice config))
  end.

(** ** Response converter *)

Definition convertFinishReason (reason : string) : ai.FinishReason :=
  if String.eqb reason "stop" then ai.FinishReasonStop
  else if String.eqb reason "length" then ai.FinishReasonLength
  else if String.eqb reason "content_filter" then ai.FinishReasonBlocked
  else if String.eqb reason "tool_calls" || String.eqb reason "function_call"
  then ai.FinishReasonStop
  else ai.FinishReasonOther.

(** Body of the tool-call loop of [convertResponse]. *)
Definition appendToolCall (content : list ai.Part)
    (toolCall : openai.ChatCompletionMessageFunctionToolCall) : list ai.Part :=
  if negb (Strings.isEmpty (openai.ToolCall_ID toolCall)) then
    match json_Unmarshal (openai.ToolCall_Arguments toolCall) with
    | Err _ => content
    | Ok args =>
        content ++
          [ai.NewToolRequestPart
             (ai.mkToolRequest (openai.ToolCall_Name toolCall) (AnyMap args))]
    end
  else content.

Definition convertResponse (resp : openai.ChatCompletion)
    (originalInput : ai.ModelRequest) : ai.ModelResponse :=
  match openai.Choices resp with
  | [] =>
      ai.mkModelResponse (ai.mkMessage ai.RoleModel []) ai.FinishReasonUnknown None
  | choice :: _ =>
      let message := openai.Choice_Message choice in
      let content :=
        if negb (Strings.isEmpty (openai.Message_Content message))
        then [ai.NewTextPart (openai.Message_Content message)]
        else [] in
      let content :=
        fold_left appendToolCall (openai.Message_ToolCalls message) content in
      let finishReason := convertFinishReason (openai.Choice_FinishReason choice) in
      let usage :=
        if 0 <? openai.PromptTokens (openai.Usage resp) then
          ai.mkUsage (openai.PromptTokens (openai.Usage resp))
                     (openai.CompletionTokens (openai.Usage resp))
                     (openai.TotalTokens (openai.Usage resp))
        else ai.mkUsage 0 0 0 in
      ai.mkModelResponse (ai.mkMessage ai.RoleModel content) finishReason (Some usage)
  end.

Definition generateTextSync (a : AzureAIFoundry)
    (params : openai.ChatCompletionNewParams) (originalInput : ai.ModelRequest)
    : M ai.ModelResponse :=
  resp <- wrapErr ("chat completion failed for model '" +:+ openai.Params_Model params +:+ "'")
            (call (CallChatCompletionsNew params)
                  (openai.Chat_Completions_New (client a) params)) ;;
  ret (convertResponse resp originalInput).

(** ** Streaming aggregator *)

(** [arguments] is a [strings.Builder]: its contents so far. *)
Record toolCallAccumulator : Type := mkAccumulator {
  acc_id : string;
  acc_name : string;
  acc_arguments : string
}.

(** The sink callback, as the aggregator sees it: given every chunk handed
    to it so far (the current one last), the error it returns, if any. *)
Definition Callback : Type := list ai.ModelResponseChunk -> option error.

(** Body of the loop over [delta.ToolCalls]. The map holds pointers, so an
    assignment through [toolCallsMap[idx]] is an [alter]. *)
Definition accumulateDelta (toolCallsMap : gmap Z toolCallAccumulator)
    (toolCallDelta : openai.ChatCompletionChunkChoiceDeltaToolCall)
    : gmap Z toolCallAccumulator :=
  let idx := openai.Index toolCallDelta in
  let toolCallsMap :=
    match toolCallsMap !! idx with
    | None => <[idx := mkAccumulator (openai.ID toolCallDelta) "" ""]> toolCallsMap
    | Some _ => toolCallsMap
    end in
  let toolCallsMap :=
    if negb (Strings.isEmpty (openai.Function_Name_ toolCallDelta)) then
      alter (fun acc => mkAccumulator (acc_id acc)
                          (openai.Function_Name_ toolCallDelta) (acc_arguments acc))
            idx toolCallsMap
    else toolCallsMap in
  if negb (Strings.isEmpty (openai.Function_Arguments toolCallDelta)) then
    alter (fun acc => mkAccumulator (acc_id acc) (acc_name acc)
                        (acc_arguments acc +:+ openai.Function_Arguments toolCallDelta))
          idx toolCallsMap
  else toolCallsMap.

(** The variables the streaming loop updates. *)
Record streamState : Type := mkStreamState {
  fullText : string;
  toolCallsMap : gmap Z toolCallAccumulator;
  delivered : list ai.ModelResponseChunk
}.

(** One iteration of [for stream.Next()]; [Err] is the early return on a
    callback failure. *)
Definition streamStep (cb : option Callback) (st : streamState)
    (chunk : openai.ChatCompletionChunk) : result streamState :=
  match openai.Chunk_Choices chunk with
  | [] => Ok st
  | choice :: _ =>
      let delta := openai.Delta choice in
      let afterContent :=
        if negb (Strings.isEmpty (openai.Delta_Content delta)) then
          let text := fullText st +:+ openai.Delta_Content delta in
          match cb with
          | Some sink =>
              let chunkResponse :=
                ai.mkChunk [ai.NewTextPart (openai.Delta_Content delta)] in
              let sent := delivered st ++ [chunkResponse] in
              match sink sent with
              | Some err => Err (ErrWrap "streaming callback error" err)
              | None => Ok (mkStreamState text (toolCallsMap st) sent)
              end
          | None => Ok (mkStreamState text (toolCallsMap st) (delivered st))
          end
        else Ok st in
      match afterContent with
      | Err e => Err e
      | Ok st' =>
          Ok (mkStreamState (fullText st')
                (fold_left accumulateDelta (openai.Delta_ToolCalls delta)
                           (toolCallsMap st'))
                (delivered st'))
      end
  end.

Fixpoint streamLoop (cb : option Callback) (st : streamState)
    (chunks : list openai.ChatCompletionChunk) : result streamState :=
  match chunks with
  | [] => Ok st
  | chunk :: rest =>
      match streamStep cb st chunk with
      | Err e => Err e
      | Ok st' => streamLoop cb st' rest
      end
  end.

(** The loop of [convertToolCallsToParts] over the accumulators in the
    order the map yields them. *)
Fixpoint convertToolCallsLoop (toolCalls : list toolCallAccumulator)
    (parts : list ai.Part) : result (list ai.Part) :=
  match toolCalls with
  | [] => Ok parts
  | toolCall :: rest =>
      if Strings.isEmpty (acc_name toolCall) then convertToolCallsLoop rest parts
      else
        let decoded :=
          if negb (Strings.isEmpty (acc_arguments toolCall)) then
            match json_Unmarshal (acc_arguments toolCall) with
            | Err err =>
                Err (ErrWrap ("failed to unmarshal tool arguments for '"
                                +:+ acc_name toolCall +:+ "'") err)
            | Ok args => Ok args
            end
          else Ok ∅ in
        match decoded with
        | Err e => Err e
        | Ok args =>
            convertToolCallsLoop rest
              (parts ++ [ai.NewToolRequestPart
                           (ai.mkToolRequest (acc_name toolCall) (AnyMap args))])
        end
  end.

Definition convertToolCallsToParts (toolCallsMap : gmap Z toolCallAccumulator)
    : result (list ai.Part) :=
  convertToolCallsLoop (map snd (mapRange toolCallsMap)) [].

Definition generateTextStream (a : AzureAIFoundry)
    (params : openai.ChatCompletionNewParams) (originalInput : ai.ModelRequest)
    (cb : option Callback) : M ai.ModelResponse :=
  stream <- call (CallChatCompletionsNewStreaming params)
              (Ok (openai.Chat_Completions_NewStreaming (client a) params)) ;;
  match streamLoop cb (mkStreamState "" ∅ []) (openai.Stream_Chunks stream) with
  | Err e => throw e
  | Ok st =>
      match openai.Stream_Err stream with
      | Some err => throw (ErrWrap "stream error" err)
      | None =>
          let content :=
            if negb (Strings.isEmpty (fullText st))
            then [ai.NewTextPart (fullText st)] else [] in
          match convertToolCallsToParts (toolCallsMap st) with
          | Err err => throw (ErrWrap "failed to convert tool calls" err)
          | Ok toolParts =>
              ret (ai.mkModelResponse
                     (ai.mkMessage ai.RoleModel (content ++ toolParts))
                     ai.FinishReasonStop None)
          end
      end
  end.

(** ** Routing *)

Definition generateText (a : AzureAIFoundry) (modelName : string)
    (input : ai.ModelRequest) (cb : option Callback) : M ai.ModelResponse :=
  let modelLower := strings_ToLower modelName in
  if Strings.Contains modelLower "dall-e" || Strings.Contains modelLower "gpt-image"
  then generateImages a modelName input
  else if Strings.Contains modelLower "tts-" || Strings.Contains modelLower "tts"
  then generateSpeech a modelName input
  else if Strings.Contains modelLower "whisper" || Strings.Contains modelLower "transcribe"
  then transcribeAudioFromRequest a modelName input
  else
    let params := buildChatCompletionParams input modelName in
    match cb with
    | Some _ => generateTextStream a params input cb
    | None => generateTextSync a params input
    end.

End Plugin.

(** ** Capability inference, exported model names, embeddings *)

Record ModelSupports : Type := mkModelSupports {
  Multiturn : bool;
  Tools_ : bool;
  SystemRole : bool;
  Media : bool
}.

Record ModelInfo : Type := mkModelInfo {
  Label : string;
  Supports : ModelSupports;
  Versions : list string
}.

Definition ModelDallE2 : string := "dall-e-2".
Definition ModelDallE3 : string := "dall-e-3".
Definition ModelGPTImageBeta : string := "gpt-image-1".

Definition ModelTTS1 : string := "tts-1".
Definition ModelTTS1HD : string := "tts-1-hd".
Definition ModelGPT4oMiniTTS : string := "gpt-4o-mini-tts".

Definition ModelWhisper1 : string := "whisper-1".
Definition ModelGPT4oMiniTranscribe : string := "gpt-4o-mini-transcribe".
Definition ModelGPT4oTranscribe : string := "gpt-4o-transcribe".
Definition ModelGPT4oTranscribeDiarize : string := "gpt-4o-transcribe-diarize".

(** [ai.Document], [openai.EmbeddingNewParams] with its [OfString] input,
    and the embedding vectors of a [CreateEmbeddingResponse]. *)
Record Document : Type := mkDocument {
  Document_Content : list ai.Part
}.

Record EmbeddingNewParams : Type := mkEmbeddingParams {
  Embedding_Model : string;
  Embedding_Input : string
}.

Record CreateEmbeddingResponse : Type := mkEmbeddingResponse {
  Embedding_Data : list (list float)
}.

Section Registration.
Context {runtime : GoRuntime}.

Definition inferModelCapabilities (modelName : string) (supportsMedia : bool)
    : ModelInfo :=
  let supportsTools := Strings.Contains (strings_ToLower modelName) "gpt" in
  mkModelInfo modelName (mkModelSupports true supportsTools true supportsMedia) [].

End Registration.

Section Embeddings.

(** [float32] values and the conversion [float32(val)]; the vendor
    operation [a.client.Embeddings.New], which [embed] calls on the client
    handle without testing [initted]. *)
Variable float32 : Type.
Variable toFloat32 : float -> float32.
Variable Embeddings_New : EmbeddingNewParams -> result CreateEmbeddingResponse.

(** The text of a document: the inner loop of [embed]. *)
Definition documentText (doc : Document) : string :=
  fold_left
    (fun inputText part =>
       if ai.IsText part then inputText +:+ ai.Text part else inputText)
    (Document_Content doc) "".

(** The loop of [embed] from [docs] on, [embeddings] being the vectors
    collected so far; the first component lists the vendor calls issued. *)
Fixpoint embedLoop (modelName : string) (docs : list Document)
    (embeddings : list (list float32))
    : list EmbeddingNewParams * result (list (list float32)) :=
  match docs with
  | [] => ([], Ok embeddings)
  | doc :: rest =>
      let inputText := documentText doc in
      if Strings.isEmpty inputText then embedLoop modelName rest embeddings
      else
        let params := mkEmbeddingParams modelName inputText in
        match Embeddings_New params with
        | Err err =>
            ([params],
             Err (ErrWrap ("embedding generation failed for model '"
                             +:+ modelName +:+ "'") err))
        | Ok resp =>
            let embeddings :=
              match Embedding_Data resp with
              | [] => embeddings
              | first :: _ => embeddings ++ [map toFloat32 first]
              end in
            let '(calls, r) := embedLoop modelName rest embeddings in
            (params :: calls, r)
        end
  end.

Definition embed (modelName : string) (req : list Document)
    : list EmbeddingNewParams * result (list (list float32)) :=
  embedLoop modelName req [].

End Embeddings.

(** ** Initialisation and model registration *)

(** A call that may panic. *)
Inductive outcome (A : Type) : Type :=
| Returns (a : A)
| Panics (msg : string).
Arguments Returns {A} a.
Arguments Panics {A} msg.

Definition provider : string := "azureaifoundry".

Record ModelDefinition : Type := mkModelDefinition {
  Name : string;
  Type_ : string;
  MaxTokens : Z;
  SupportsMedia : bool
}.

Record ModelOptions : Type := mkModelOptions {
  Options_Label : string;
  Options_Supports : ModelSupports;
  Options_Versions : list string
}.

Section Lifecycle.
Context {runtime : GoRuntime}.

(** [azcore.TokenCredential]; [openai.NewClient]; the outcome of
    [azidentity.NewDefaultAzureCredential(nil)]; an error printed with
    [%v]. *)
Variable TokenCredential : Type.

Inductive RequestOption : Type :=
| WithEndpoint (endpoint apiVersion : string)
| WithAPIKey (key : string)
| WithTokenCredential (credential : TokenCredential).

(** The exported fields of the plugin object, which [Init] reads. *)
Record Settings : Type := mkSettings {
  Endpoint : string;
  APIKey : string;
  APIVersion : string;
  Credential : option TokenCredential
}.

Variable NewClient : list RequestOption -> openai.Client.
Variable NewDefaultAzureCredential : result TokenCredential.
Variable errorText : error -> string.

Definition Init (s : Settings) (a : AzureAIFoundry) : outcome AzureAIFoundry :=
  if initted a then Panics "azureaifoundry: Init already called"
  else if Strings.isEmpty (Endpoint s) then
    Panics "azureaifoundry: Endpoint is required"
  else
    let apiVersion :=
      if Strings.isEmpty (APIVersion s) then "2025-03-01-preview"
      else APIVersion s in
    let opts := [WithEndpoint (Endpoint s) apiVersion] in
    let withAuth :=
      if negb (Strings.isEmpty (APIKey s)) then
        Returns (opts ++ [WithAPIKey (APIKey s)])
      else
        match Credential s with
        | Some credential => Returns (opts ++ [WithTokenCredential credential])
        | None =>
            match NewDefaultAzureCredential with
            | Err err =>
                Panics ("azureaifoundry: failed to create default credential: "
                          +:+ errorText err)
            | Ok cred => Returns (opts ++ [WithTokenCredential cred])
            end
        end in
    match withAuth with
    | Panics msg => Panics msg
    | Returns opts => Returns (mkPlugin true (NewClient opts))
    end.

(** [DefineModel]: the options and the model function it hands to the
    registry under the name [(provider, model.Name)]. *)
Definition DefineModel (a : AzureAIFoundry) (model : ModelDefinition)
    (info : option ModelInfo)
    : outcome (ModelOptions *
               (ai.ModelRequest -> option Callback -> M ai.ModelResponse)) :=
  if negb (initted a) then Panics "azureaifoundry: Init not called"
  else
    let info :=
      match info with
      | Some info => info
      | None => inferModelCapabilities (Name model) (SupportsMedia model)
      end in
    let meta :=
      mkModelOptions (provider +:+ "-" +:+ Name model) (Supports info)
                     (Versions info) in
    Returns (meta, fun input cb => generateText a (Name model) input cb).

End Lifecycle.

(** ** A runtime to run the model on concrete inputs

    Every theorem below holds for an arbitrary [GoRuntime]. The instance
    [exampleRuntime] exists to evaluate the model in examples: ASCII
    lower-casing, standard base64, maps visited in [map_to_list] order, and
    a JSON codec that knows the handful of documents the examples use and
    rejects everything else. *)

Module Example.

Definition quote : string := String (ascii_of_nat 34) EmptyString.

(** The document [{"query":"kyiv"}], and its three-chunk split. *)
Definition fragment1 : string := "{" +:+ quote +:+ "query" +:+ quote.
Definition fragment2 : string := ":" +:+ quote.
Definition fragment3 : string := "kyiv" +:+ quote +:+ "}".
Definition queryJSON : string := fragment1 +:+ fragment2 +:+ fragment3.
Definition queryArgs : gmap string any := {[ "query" := AnyString "kyiv" ]}.

Definition unmarshal (s : string) : result (gmap string any) :=
  if String.eqb s queryJSON then Ok queryArgs
  else if String.eqb s "{}" then Ok ∅
  else if String.eqb s "null" then Ok ∅
  else Err (ErrExternal "invalid character looking for beginning of value").

Definition marshal (v : any) : result string :=
  match v with
  | AnyNil => Ok "null"
  | AnyBool true => Ok "true"
  | AnyBool false => Ok "false"
  | AnyString s => Ok (quote +:+ s +:+ quote)
  | AnyMap m =>
      match map_to_list m with
      | [] => Ok "{}"
      | [(k, AnyString s)] =>
          Ok ("{" +:+ quote +:+ k +:+ quote +:+ ":" +:+ quote +:+ s +:+ quote +:+ "}")
      | _ => Err (ErrExternal "json: document outside the example codec")
      end
  | AnyOpaque tag => Err (ErrExternal ("json: unsupported type: " +:+ tag))
  | _ => Err (ErrExternal "json: document outside the example codec")
  end.

Definition alphabet : list ascii :=
  String.list_ascii_of_string
    "ABCDEFGHIJKLMNOPQRSTUVWXYZabcdefghijklmnopqrstuvwxyz0123456789+/".

Definition pad : ascii := ascii_of_nat 61.

Definition sextet (n : N) : ascii := nth (N.to_nat n) alphabet pad.

Fixpoint position (c : ascii) (l : list ascii) (i : N) : option N :=
  match l with
  | [] => None
  | x :: l' => if Ascii.eqb c x then Some i else position c l' (N.succ i)
  end.

Definition octet (n : N) : byte :=
  match Byte.of_N (n mod 256) with Some b => b | None => x00 end.

Fixpoint encodeBytes (bs : list N) : list ascii :=
  match bs with
  | [] => []
  | [a] => [sextet (a / 4); sextet ((a mod 4) * 16); pad; pad]
  | [a; b] =>
      [sextet (a / 4); sextet ((a mod 4) * 16 + b / 16);
       sextet ((b mod 16) * 4); pad]
  | a :: b :: c :: rest =>
      [sextet (a / 4); sextet ((a mod 4) * 16 + b / 16);
       sextet ((b mod 16) * 4 + c / 64); sextet (c mod 64)] ++ encodeBytes rest
  end%N.

Definition EncodeToString (bs : list byte) : string :=
  String.string_of_list_ascii (encodeBytes (map Byte.to_N bs)).

Definition illegal : result (list byte) :=
  Err (ErrExternal "illegal base64 data").

Fixpoint decodeChars (cs : list ascii) : result (list byte) :=
  match cs with
  | [] => Ok []
  | a :: b :: c :: d :: rest =>
      match position a alphabet 0%N, position b alphabet 0%N with
      | Some x, Some y =>
          let first := octet (x * 4 + y / 16)%N in
          if Ascii.eqb c pad && Ascii.eqb d pad then
            match rest with [] => Ok [first] | _ => illegal end
          else
            match position c alphabet 0%N with
            | Some z =>
                let second := octet ((y mod 16) * 16 + z / 4)%N in
                if Ascii.eqb d pad then
                  match rest with [] => Ok [first; second] | _ => illegal end
                else
                  match position d alphabet 0%N, decodeChars rest with
                  | Some w, Ok tail =>
                      Ok (first :: second :: octet ((z mod 4) * 64 + w)%N :: tail)
                  | _, _ => illegal
                  end
            | None => illegal
            end
      | _, _ => illegal
      end
  | _ => illegal
  end.

Definition DecodeString (s : string) : result (list byte) :=
  decodeChars (String.list_ascii_of_string s).

#[export] Instance exampleRuntime : GoRuntime := {|
  strings_ToLower := Strings.asciiToLower;
  json_Marshal := marshal;
  json_Unmarshal := unmarshal;
  base64_DecodeString := DecodeString;
  base64_EncodeToString := EncodeToString;
  mapRange := fun A m => map_to_list m;
  mapRange_perm := fun A m => Permutation_refl (map_to_list m)
|}.


(** *** Inputs of the examples *)

(** A completion with one tool call that decodes and one that does not. *)
Definition searchCall : openai.ChatCompletionMessageFunctionToolCall :=
  openai.mkToolCall "call_1" "search" queryJSON.

Definition garbledCall : openai.ChatCompletionMessageFunctionToolCall :=
  openai.mkToolCall "call_2" "lookup" "not valid json".

Definition completion (calls : list openai.ChatCompletionMessageFunctionToolCall)
    (usage : openai.CompletionUsage) : openai.ChatCompletion :=
  openai.mkChatCompletion
    [openai.mkChoice (openai.mkCompletionMessage "Let me check." calls) "tool_calls"]
    usage.

(** One tool call at index 0 split over three chunks, the name and the id
    on the first only. *)
Definition delta1 : openai.ChatCompletionChunkChoiceDeltaToolCall :=
  openai.mkDeltaToolCall 0 "call_abc" "search" fragment1.
Definition delta2 : openai.ChatCompletionChunkChoiceDeltaToolCall :=
  openai.mkDeltaToolCall 0 "" "" fragment2.
Definition delta3 : openai.ChatCompletionChunkChoiceDeltaToolCall :=
  openai.mkDeltaToolCall 0 "" "" fragment3.

Definition chunkOf (text : string)
    (deltas : list openai.ChatCompletionChunkChoiceDeltaToolCall)
    (reason : string) : openai.ChatCompletionChunk :=
  openai.mkCompletionChunk
    [openai.mkChunkChoice (openai.mkDelta text deltas) reason]
    (openai.mkCompletionUsage 3 5 8).

Definition queryStream : openai.Stream :=
  openai.mkStream
    [chunkOf "" [delta1] ""; chunkOf "" [delta2] "";
     chunkOf "" [delta3] "tool_calls"]
    None.

Definition garbledDelta : openai.ChatCompletionChunkChoiceDeltaToolCall :=
  openai.mkDeltaToolCall 0 "call_x" "lookup" "not valid json".

Definition garbledStream : openai.Stream :=
  openai.mkStream [chunkOf "Hi" [garbledDelta] "tool_calls"] None.

Definition textStream : openai.Stream :=
  openai.mkStream [chunkOf "Hel" [] ""; chunkOf "lo" [] "length"] None.

Definition clientWith (stream : openai.Stream) : openai.Client :=
  openai.mkClient
    (fun _ => Ok (completion [] (openai.mkCompletionUsage 3 5 8)))
    (fun _ => stream)
    (fun _ => Ok (openai.mkImagesResponse
                    [openai.mkImage "https://images.example/cat.png" "" ""]))
    (fun _ => Ok (openai.mkBody [x52; x49; x46; x46] None None))
    (fun _ => Ok (openai.mkTranscription "hello" "en" PrimFloat.zero)).

Definition plugin (stream : openai.Stream) : AzureAIFoundry :=
  mkPlugin true (clientWith stream).

Definition params : openai.ChatCompletionNewParams :=
  openai.mkParams "gpt-4o" [] None None None [] None.

Definition request (messages : list ai.Message) (config : any) : ai.ModelRequest :=
  ai.mkModelRequest messages [] config.

Definition sink : option Callback := Some (fun _ => None).

(** Messages. *)
Definition question : ai.Message :=
  ai.mkMessage ai.RoleUser [ai.NewTextPart "What is in this picture?"].

Definition pictureQuestion : ai.Message :=
  ai.mkMessage ai.RoleUser
    [ai.NewTextPart "What is in this picture?";
     ai.NewMediaPart "image/jpeg" "https://images.example/boardwalk.jpg"].

Definition twoDataParts : ai.Message :=
  ai.mkMessage ai.RoleUser [ai.NewDataPart "{}"; ai.NewDataPart "null"].

Definition pictureAnswer : ai.Message :=
  ai.mkMessage ai.RoleModel
    [ai.NewMediaPart "image/png" "https://images.example/cat.png"].

Definition unencodable : any := AnyOpaque "chan int".

Definition brokenRequest : ai.ToolRequest := ai.mkToolRequest "lookup" unencodable.

Definition brokenResponse : ai.ToolResponse := ai.mkToolResponse "lookup" unencodable.

Definition brokenTurn : ai.Message :=
  ai.mkMessage ai.RoleModel [ai.NewToolRequestPart brokenRequest].

Definition searchResponse : ai.ToolResponse :=
  ai.mkToolResponse "search" (AnyString "sunny").



(** *** Inputs of the further examples *)

Definition offline : AzureAIFoundry := mkPlugin false (clientWith textStream).

Definition zeroImages : any := AnyMap {[ "n" := AnyInt 0 ]}.

Definition wavClip : ai.Part :=
  ai.NewMediaPart "audio/wav" "data:audio/wav;base64,UklGRg==".

Definition oldClip : ai.Part :=
  ai.NewMediaPart "audio/mpeg" "data:audio/mpeg;base64,UklG".

Definition brokenClip : ai.Part :=
  ai.NewMediaPart "audio/wav" "data:audio/wav;base64,@@@".

Definition linkedClip : ai.Part :=
  ai.NewMediaPart "audio/wav" "https://audio.example/clip.wav".

Definition clips (parts : list ai.Part) : ai.ModelRequest :=
  request [ai.mkMessage ai.RoleUser parts] AnyNil.

Definition searchRequest : ai.ToolRequest :=
  ai.mkToolRequest "search" (AnyMap queryArgs).

Definition searchTurn : list ai.Part :=
  [ai.NewTextPart "Let me "; ai.NewToolRequestPart searchRequest;
   ai.NewTextPart "check."].

Definition searchTool : ai.ToolDefinition :=
  ai.mkToolDefinition "search" "" None.

Definition toolRequest (tools : list ai.ToolDefinition) (config : any)
    : ai.ModelRequest :=
  ai.mkModelRequest [question] tools config.

(** A sink that rejects its second delivery. *)
Definition impatient : Callback :=
  fun sent => if (1 <? Z.of_nat (length sent)) then Some (ErrExternal "enough") else None.

Definition failingStream : openai.Stream :=
  openai.mkStream [chunkOf "Hel" [] ""] (Some (ErrExternal "connection reset")).

Definition bareCall : openai.ChatCompletionChunkChoiceDeltaToolCall :=
  openai.mkDeltaToolCall 1 "" "ping" "".

Definition bareStream : openai.Stream :=
  openai.mkStream [chunkOf "" [bareCall] "tool_calls"] None.

(** Embeddings: the example vectors are exactly representable in float32,
    on which the conversion is the identity. *)
Definition narrow (f : float) : float := f.

Definition hello : Document := mkDocument [ai.NewTextPart "hello"].
Definition blank : Document := mkDocument [ai.NewMediaPart "image/png" "x"].
Definition boom : Document := mkDocument [ai.NewTextPart "boom"].

Definition embeddings (p : EmbeddingNewParams) : result CreateEmbeddingResponse :=
  if String.eqb (Embedding_Input p) "boom" then Err (ErrExternal "rate limited")
  else Ok (mkEmbeddingResponse [[0.5%float; 0.25%float]]).

(** Initialisation: credentials are plain strings here. *)
Definition newClient (opts : list (RequestOption string)) : openai.Client :=
  clientWith textStream.

Definition keySettings : Settings string :=
  mkSettings string "https://example.openai.azure.com" "secret" "" (Some "token").

Definition gpt4o : ModelDefinition := mkModelDefinition "gpt-4o" "chat" 0 true.


End Example.


(** * Vocabulary of the properties *)

Section Vocabulary.
Context {runtime : GoRuntime}.

(** How one defaulted field follows the configuration bag [cfg] at [key]:
    the default when there is no bag or no such key, the supplied value
    when it has the field's type, and the default again when it has
    another type. [typed v] reads [v] at the field's type. *)
Definition followsKey {T : Type} (cfg : any) (key : string)
    (typed : any -> option T) (default field : T) : Prop :=
  ((forall m, cfg <> AnyMap m) -> field = default) /\
  (forall m, cfg = AnyMap m -> m !! key = None -> field = default) /\
  (forall m v x, cfg = AnyMap m -> m !! key = Some v -> typed v = Some x ->
     field = x) /\
  (forall m v, cfg = AnyMap m -> m !! key = Some v -> typed v = None ->
     field = default).

Definition stringOf (v : any) : option string :=
  match v with AnyString s => Some s | _ => None end.

Definition intOf (v : any) : option Z :=
  match v with AnyInt n => Some n | _ => None end.

(** What one message contributes to the translated sequence. *)
Definition contribution (msg : ai.Message)
    : list openai.ChatCompletionMessageParamUnion :=
  convertMessagesToOpenAI [msg].

Definition emitsArray (msg : ai.Message) : Prop :=
  exists parts,
    contribution msg = [openai.OfUser (openai.OfArrayOfContentParts parts)].

Definition emitsString (msg : ai.Message) : Prop :=
  exists s, contribution msg = [openai.OfUser (openai.OfString s)].

Definition hasMediaPart (msg : ai.Message) : Prop :=
  exists part, part ∈ ai.Content msg /\ ai.IsMedia part = true.

Definition hasTextPart (msg : ai.Message) : Prop :=
  exists part, part ∈ ai.Content msg /\ ai.IsText part = true.

Definition severalParts (msg : ai.Message) : Prop :=
  (1 < length (ai.Content msg))%nat.

(** The user-content rule with "more than one part of any kind" as its
    second arm. *)
Definition arrayWhenMediaOrSeveral (msg : ai.Message) : Prop :=
  (emitsArray msg <-> hasMediaPart msg \/ severalParts msg) /\
  (~ (hasMediaPart msg \/ severalParts msg) -> emitsString msg).

(** The fragment a part becomes in an array-of-parts content. *)
Definition fragmentOf (part : ai.Part)
    : list openai.ChatCompletionContentPartUnionParam :=
  match part with
  | ai.NewTextPart text => [openai.OfText text]
  | ai.NewMediaPart _ url => [openai.OfImageURL url]
  | _ => []
  end.

(** The parts of a message that its role's branch of the translator reads:
    text for a system message, text and media for a user message, text and
    tool requests that encode for a model message, tool responses that
    encode for a tool message. *)
Definition kept (role : ai.Role) (part : ai.Part) : bool :=
  match role, part with
  | ai.RoleSystem, ai.NewTextPart _ => true
  | ai.RoleUser, (ai.NewTextPart _ | ai.NewMediaPart _ _) => true
  | ai.RoleModel, ai.NewTextPart _ => true
  | ai.RoleModel, ai.NewToolRequestPart r =>
      negb (isErr (json_Marshal (ai.ToolRequest_Input r)))
  | ai.RoleTool, ai.NewToolResponsePart r =>
      negb (isErr (json_Marshal (ai.ToolResponse_Output r)))
  | _, _ => false
  end.

Definition keptParts (msg : ai.Message) : list ai.Part :=
  filter (fun part => kept (ai.Role_ msg) part = true) (ai.Content msg).

(** "A message that produces no content after filtering is omitted." *)
Definition omittedWhenNothingKept (msg : ai.Message) : Prop :=
  keptParts msg = [] -> contribution msg = [].


(** The tool-call deltas the aggregator reads from a chunk (those of its
    first choice), and from a whole stream, in arrival order. *)
Definition chunkDeltas (chunk : openai.ChatCompletionChunk)
    : list openai.ChatCompletionChunkChoiceDeltaToolCall :=
  match openai.Chunk_Choices chunk with
  | [] => []
  | choice :: _ => openai.Delta_ToolCalls (openai.Delta choice)
  end.

Definition streamDeltas (chunks : list openai.ChatCompletionChunk)
    : list openai.ChatCompletionChunkChoiceDeltaToolCall :=
  flat_map chunkDeltas chunks.

(** The accumulators after a sequence of deltas. *)
Definition accumulated
    (deltas : list openai.ChatCompletionChunkChoiceDeltaToolCall)
    : gmap Z toolCallAccumulator :=
  fold_left accumulateDelta deltas ∅.

(** The deltas addressed to one positional index, in arrival order. *)
Definition deltasAt (idx : Z)
    (deltas : list openai.ChatCompletionChunkChoiceDeltaToolCall)
    : list openai.ChatCompletionChunkChoiceDeltaToolCall :=
  filter (fun d => openai.Index d = idx) deltas.

Definition nonEmpty (s : string) : Prop := s <> "".

#[export] Instance nonEmpty_dec (s : string) : Decision (nonEmpty s).
Proof. unfold nonEmpty. apply _. Defined.

(** The last non-empty string of a list, or "" when there is none. *)
Definition lastNonEmpty (names : list string) : string :=
  default "" (last (filter nonEmpty names)).

(** The strings of a list, one after the other. *)
Definition joined (fragments : list string) : string :=
  foldr String.append "" fragments.

(** What one delta does to the accumulator of its index. *)
Definition updateAccumulator (current : option toolCallAccumulator)
    (d : openai.ChatCompletionChunkChoiceDeltaToolCall) : toolCallAccumulator :=
  let acc := match current with
             | Some acc => acc
             | None => mkAccumulator (openai.ID d) "" ""
             end in
  mkAccumulator (acc_id acc)
    (if Strings.isEmpty (openai.Function_Name_ d) then acc_name acc
     else openai.Function_Name_ d)
    (acc_arguments acc +:+ openai.Function_Arguments d).

(** The tool name a part requests, "" for a part of another kind. *)
Definition partName (part : ai.Part) : string :=
  match part with
  | ai.NewToolRequestPart r => ai.ToolRequest_Name r
  | _ => ""
  end.

(** A chunk with the finish reasons and the usage the vendor reported in
    it blanked out. *)
Definition withoutReport (chunk : openai.ChatCompletionChunk)
    : openai.ChatCompletionChunk :=
  openai.mkCompletionChunk
    (map (fun choice => openai.mkChunkChoice (openai.Delta choice) "")
         (openai.Chunk_Choices chunk))
    (openai.mkCompletionUsage 0 0 0).

(** The text and the tool calls of the assistant message built from the
    parts of a model message. *)
Definition assistantFields (content : list ai.Part)
    : string * list openai.ChatCompletionMessageFunctionToolCallParam :=
  fold_left appendModelPart content ("", []).


(** The parts of a message sequence, in order, and the text of the text
    parts among a list of parts. *)
Definition allParts (messages : list ai.Message) : list ai.Part :=
  flat_map ai.Content messages.

Definition textOf (parts : list ai.Part) : string :=
  joined (map ai.Text (filter (fun part => ai.IsText part = true) parts)).

(** What an image of the vendor's answer becomes in the response: its URL
    when it has one, else its base64 payload when it has one, else
    nothing. *)
Definition imageText (img : GeneratedImage) : list ai.Part :=
  if negb (Strings.isEmpty (URL img)) then [ai.NewTextPart (URL img)]
  else if negb (Strings.isEmpty (B64JSON img)) then [ai.NewTextPart (B64JSON img)]
  else [].

Definition generatedImage (img : openai.Image) : GeneratedImage :=
  mkGeneratedImage (openai.Image_URL img) (openai.Image_B64JSON img)
                   (openai.Image_RevisedPrompt img).

(** The parameters of the image-generation call an operation issued, when
    it issued exactly that one call. *)
Definition issuedImageParams (m : M ai.ModelResponse)
    : option openai.ImageGenerateParams :=
  match m.1 with
  | [CallImagesGenerate p] => Some p
  | _ => None
  end.

Definition notInitializedError : error :=
  Errorf "azureaifoundry: client not initialized".


(** [configMap[key]] on the configuration bag of a request; a request
    without a bag has no key. *)
Definition configLookup (cfg : any) (key : string) : option any :=
  match asConfigMap cfg with
  | Some configMap => configMap !! key
  | None => None
  end.

Definition floatOf (v : any) : option float :=
  match v with AnyFloat64 f => Some f | _ => None end.

(** The parameters of the speech call an operation issued, when it issued
    exactly that one call. *)
Definition issuedSpeechParams (m : M ai.ModelResponse)
    : option openai.AudioSpeechNewParams :=
  match m.1 with
  | [CallAudioSpeechNew p] => Some p
  | _ => None
  end.


(** The base64 text a part hands to the decoder: what follows the marker
    in the text of a media part, when the marker occurs. *)
Definition audioPayload (part : ai.Part) : option string :=
  if ai.IsMedia part then
    let idx := Strings.Index (ai.Text part) "base64," in
    if idx =? -1 then None else Some (Strings.sliceFrom (ai.Text part) (idx + 7))
  else None.

(** A part whose payload, if it has one, decodes. *)
Definition decodable (part : ai.Part) : Prop :=
  forall b, audioPayload part = Some b -> isErr (base64_DecodeString b) = false.

(** The parameters of the transcription call an operation issued, when it
    issued exactly that one call. *)
Definition issuedTranscription (m : M ai.ModelResponse)
    : option openai.AudioTranscriptionNewParams :=
  match m.1 with
  | [CallAudioTranscriptionsNew p] => Some p
  | _ => None
  end.


(** The tool call built from a part of a model message, and the vendor
    message built from a part of a tool message: none unless the part is
    of the right kind and its value encodes. *)
Definition toolCallOf (part : ai.Part)
    : list openai.ChatCompletionMessageFunctionToolCallParam :=
  match part with
  | ai.NewToolRequestPart r =>
      match json_Marshal (ai.ToolRequest_Input r) with
      | Ok argsJSON =>
          [openai.mkToolCallParam ("call_" +:+ ai.ToolRequest_Name r) "function"
             (ai.ToolRequest_Name r) argsJSON]
      | Err _ => []
      end
  | _ => []
  end.

Definition toolMessageOf (part : ai.Part)
    : list openai.ChatCompletionMessageParamUnion :=
  match part with
  | ai.NewToolResponsePart r =>
      match json_Marshal (ai.ToolResponse_Output r) with
      | Ok outputJSON =>
          [openai.OfTool outputJSON ("call_" +:+ ai.ToolResponse_Name r)]
      | Err _ => []
      end
  | _ => []
  end.


(** The function definition a tool definition is translated to. *)
Definition functionOf (tool : ai.ToolDefinition) : openai.FunctionDefinitionParam :=
  openai.mkFunctionDefinition (ai.ToolDefinition_Name tool)
    (if Strings.isEmpty (ai.ToolDefinition_Description tool) then None
     else Some (ai.ToolDefinition_Description tool))
    (ai.ToolDefinition_InputSchema tool).

(** The three tool-choice policies the request builder recognises. *)
Definition knownToolChoice (choice : string) : Prop :=
  choice = "auto" \/ choice = "required" \/ choice = "none".


(** The tool calls of a completion that carry an id. *)
Definition identified (calls : list openai.ChatCompletionMessageFunctionToolCall)
    : list openai.ChatCompletionMessageFunctionToolCall :=
  filter (fun call => nonEmpty (openai.ToolCall_ID call)) calls.

(** The text the aggregator reads from a chunk (that of its first choice),
    and from a whole stream, in arrival order. *)
Definition chunkText (chunk : openai.ChatCompletionChunk) : list string :=
  match openai.Chunk_Choices chunk with
  | [] => []
  | choice :: _ => [openai.Delta_Content (openai.Delta choice)]
  end.

Definition streamTexts (chunks : list openai.ChatCompletionChunk) : list string :=
  flat_map chunkText chunks.

(** What the sink is handed for a piece of text. *)
Definition textChunk (text : string) : ai.ModelResponseChunk :=
  ai.mkChunk [ai.NewTextPart text].

(** The deliveries a stream gives rise to: one per non-empty text. *)
Definition deliveries (chunks : list openai.ChatCompletionChunk)
    : list ai.ModelResponseChunk :=
  map textChunk (filter nonEmpty (streamTexts chunks)).


(** The model names the plugin exports, by the modality their comments
    give them, and the names [DefineCommonModels] registers. *)
Definition imageModelNames : list string :=
  [ModelDallE2; ModelDallE3; ModelGPTImageBeta].

Definition speechModelNames : list string :=
  [ModelTTS1; ModelTTS1HD; ModelGPT4oMiniTTS].

Definition transcriptionModelNames : list string :=
  [ModelWhisper1; ModelGPT4oMiniTranscribe; ModelGPT4oTranscribe;
   ModelGPT4oTranscribeDiarize].

Definition commonModelNames : list string :=
  ["gpt-5"; "gpt-5-mini"; "gpt-4o"; "gpt-4o-mini"; "gpt-4-turbo"; "gpt-4";
   "gpt-35-turbo"].

(** The embedding call a document gives rise to, and the vector it adds to
    the result when the call succeeds: none for a document without text,
    and no vector for an answer without data. *)
Definition embeddingCall (modelName : string) (doc : Document)
    : list EmbeddingNewParams :=
  if Strings.isEmpty (documentText doc) then []
  else [mkEmbeddingParams modelName (documentText doc)].

Definition embeddingOf {float32 : Type} (toFloat32 : float -> float32)
    (Embeddings_New : EmbeddingNewParams -> result CreateEmbeddingResponse)
    (modelName : string) (doc : Document) : list (list float32) :=
  if Strings.isEmpty (documentText doc) then []
  else match Embeddings_New (mkEmbeddingParams modelName (documentText doc)) with
       | Ok resp =>
           match Embedding_Data resp with
           | first :: _ => [map toFloat32 first]
           | [] => []
           end
       | Err _ => []
       end.

(** A document that is skipped or whose embedding call succeeds. *)
Definition embeds (Embeddings_New : EmbeddingNewParams -> result CreateEmbeddingResponse)
    (modelName : string) (doc : Document) : Prop :=
  documentText doc = "" \/
  isErr (Embeddings_New (mkEmbeddingParams modelName (documentText doc))) = false.


(** An accumulator whose arguments, if it is named and has any, decode. *)
Definition decodes (acc : toolCallAccumulator) : Prop :=
  acc_name acc <> "" -> acc_arguments acc <> "" ->
  isErr (json_Unmarshal (acc_arguments acc)) = false.

(** The input of the tool request an accumulator is converted to: the
    empty map without arguments, what the arguments decode to otherwise. *)
Definition inputOf (acc : toolCallAccumulator) (args : gmap string any) : Prop :=
  (acc_arguments acc = "" -> args = ∅) /\
  (acc_arguments acc <> "" -> json_Unmarshal (acc_arguments acc) = Ok args).


(** The API version [Init] hands to the client. *)
Definition effectiveVersion {TokenCredential : Type}
    (s : Settings TokenCredential) : string :=
  if Strings.isEmpty (APIVersion _ s) then "2025-03-01-preview"
  else APIVersion _ s.


End Vocabulary.

(** * Properties *)

(** ** Loops that only append *)

Lemma fold_left_appending {A B : Type} (step : list B -> A -> list B) :
  (forall acc x, step acc x = acc ++ step [] x) ->
  forall l acc, fold_left step l acc = acc ++ flat_map (step []) l.
Proof.
  intros Hstep l.
  induction l as [|x l IH]; intros acc; simpl.
  - by rewrite app_nil_r.
  - rewrite IH, (Hstep acc x). by rewrite <- app_assoc.
Qed.

Lemma isEmpty_true (s : string) : Strings.isEmpty s = true <-> s = "".
Proof. destruct s; simpl; split; congruence. Qed.

Lemma isEmpty_false (s : string) : Strings.isEmpty s = false <-> s <> "".
Proof. destruct s; simpl; split; congruence. Qed.

Section Properties.
Context {runtime : GoRuntime}.

(** ** Finish reasons and usage *)

(** C6. Finish-reason normalisation is a total function of the vendor's
    reason string alone: "stop" gives stop, "length" gives length,
    "content_filter" gives blocked, "tool_calls" and "function_call" give
    stop, and every other string gives other. *)
Theorem convertFinishReason_table :
  convertFinishReason "stop" = ai.FinishReasonStop /\
  convertFinishReason "length" = ai.FinishReasonLength /\
  convertFinishReason "content_filter" = ai.FinishReasonBlocked /\
  convertFinishReason "tool_calls" = ai.FinishReasonStop /\
  convertFinishReason "function_call" = ai.FinishReasonStop /\
  forall reason : string,
    reason <> "stop" -> reason <> "length" -> reason <> "content_filter" ->
    reason <> "tool_calls" -> reason <> "function_call" ->
    convertFinishReason reason = ai.FinishReasonOther.
Proof.
  repeat split; try reflexivity.
  intros reason H1 H2 H3 H4 H5. unfold convertFinishReason.
  repeat match goal with
         | |- context [String.eqb reason ?k] =>
             destruct (String.eqb_spec reason k); [congruence|]
         end.
  reflexivity.
Qed.

(** C9. The non-streaming converter fills the usage counters only from a
    positive prompt-token count: when the vendor's prompt-token count is not
    greater than zero, whatever usage record the response carries has all
    three counters at zero, whatever the vendor's completion and total
    counts are (and a response with at least one choice does carry a
    record); when it is positive, the three counters are the vendor's. *)
Theorem convertResponse_usage (resp : openai.ChatCompletion)
    (originalInput : ai.ModelRequest) :
  (openai.PromptTokens (openai.Usage resp) <= 0 ->
     (forall usage, ai.Usage (convertResponse resp originalInput) = Some usage ->
        ai.InputTokens usage = 0 /\ ai.OutputTokens usage = 0 /\
        ai.TotalTokens usage = 0) /\
     (openai.Choices resp <> [] ->
        ai.Usage (convertResponse resp originalInput) = Some (ai.mkUsage 0 0 0))) /\
  (0 < openai.PromptTokens (openai.Usage resp) -> openai.Choices resp <> [] ->
     ai.Usage (convertResponse resp originalInput) =
       Some (ai.mkUsage (openai.PromptTokens (openai.Usage resp))
                        (openai.CompletionTokens (openai.Usage resp))
                        (openai.TotalTokens (openai.Usage resp)))).
Proof.
  unfold convertResponse.
  destruct (openai.Choices resp) as [|choice rest] eqn:Hchoices.
  - split.
    + intros _. split.
      * intros usage H. simpl in H. discriminate.
      * intros H. congruence.
    + intros _ H. congruence.
  - split.
    + intros Hle.
      assert (Hlt : (0 <? openai.PromptTokens (openai.Usage resp)) = false)
        by (apply Z.ltb_ge; exact Hle).
      simpl. rewrite Hlt. split.
      * intros usage [= <-]. simpl. auto.
      * reflexivity.
    + intros Hpos _.
      assert (Hlt : (0 <? openai.PromptTokens (openai.Usage resp)) = true)
        by (apply Z.ltb_lt; exact Hpos).
      simpl. by rewrite Hlt.
Qed.

(** ** Configuration overrides *)

Lemma override_follows {T : Type} (cfg : any) (key : string)
    (typed : any -> option T) (read : option any -> option T)
    (default field : T) :
  (forall v, read (Some v) = typed v) -> read None = None ->
  field = match asConfigMap cfg with
          | Some m => match read (m !! key) with Some x => x | None => default end
          | None => default
          end ->
  followsKey cfg key typed default field.
Proof.
  intros Hsome Hnone ->. unfold followsKey.
  repeat split.
  - intros Hno. destruct cfg; simpl; try reflexivity. by destruct (Hno m).
  - intros m -> Hkey. simpl. by rewrite Hkey, Hnone.
  - intros m v x -> Hkey Hty. simpl. by rewrite Hkey, Hsome, Hty.
  - intros m v -> Hkey Hty. simpl. by rewrite Hkey, Hsome, Hty.
Qed.

(** C8. In the request [generateImages] builds, the quality is "standard"
    when the bag has no "quality" key, the supplied string when "quality"
    maps to a string, and "standard" when it maps to a value of another
    type; n (default 1, an int), size (default "1024x1024"), style (default
    "vivid") and response_format (default "url") follow the same rule, each
    from its own key. *)
Theorem imageRequest_overrides (input : ai.ModelRequest) :
  let cfg := ai.Config input in
  let req := imageRequest input in
  followsKey cfg "quality" stringOf "standard" (Image_Quality req) /\
  followsKey cfg "n" intOf 1 (Image_N req) /\
  followsKey cfg "size" stringOf "1024x1024" (Image_Size req) /\
  followsKey cfg "style" stringOf "vivid" (Image_Style req) /\
  followsKey cfg "response_format" stringOf "url" (Image_ResponseFormat req).
Proof.
  intros cfg req. subst cfg req. unfold imageRequest.
  repeat split_and;
    (apply (override_follows _ _ _ asString) || apply (override_follows _ _ _ asInt));
    try reflexivity; try (intros []; reflexivity);
    destruct (asConfigMap (ai.Config input)) as [configMap|]; try reflexivity;
    unfold override;
    repeat match goal with
           | |- context [asInt ?o] => destruct (asInt o)
           | |- context [asString ?o] => destruct (asString o)
           end; reflexivity.
Qed.


(** ** Routing *)

Lemma prefix_append_l (p q s : string) :
  String.prefix (p +:+ q) s = true -> String.prefix p s = true.
Proof.
  revert s. induction p as [|c p IH]; intros s; simpl.
  - by destruct s.
  - destruct s as [|d s]; [done|]. simpl.
    destruct (ascii_dec c d); [apply IH | done].
Qed.

Lemma Contains_nil (substr : string) :
  Strings.Contains "" substr = String.prefix substr "" || false.
Proof. reflexivity. Qed.

Lemma Contains_cons (c : ascii) (s substr : string) :
  Strings.Contains (String c s) substr =
    String.prefix substr (String c s) || Strings.Contains s substr.
Proof. reflexivity. Qed.

Lemma Contains_append_l (s p q : string) :
  Strings.Contains s (p +:+ q) = true -> Strings.Contains s p = true.
Proof.
  induction s as [|c s IH]; intros H.
  - rewrite Contains_nil in *.
    apply orb_true_iff in H as [H|H]; [|done].
    apply prefix_append_l in H. by rewrite H.
  - rewrite Contains_cons in *.
    apply orb_true_iff in H as [H|H].
    + apply prefix_append_l in H. by rewrite H.
    + rewrite (IH H). apply orb_true_r.
Qed.

(** C5. [generateText] routes on the lower-cased model identifier by
    substring, in a fixed order: "dall-e" or "gpt-image" selects image
    generation; otherwise "tts" selects speech synthesis; otherwise
    "whisper" or "transcribe" selects transcription; every other identifier
    goes to chat completion (streaming when a sink is supplied). *)
Theorem generateText_routing (a : AzureAIFoundry) (modelName : string)
    (input : ai.ModelRequest) (cb : option Callback) :
  let has := Strings.Contains (strings_ToLower modelName) in
  (has "dall-e" = true \/ has "gpt-image" = true ->
     generateText a modelName input cb = generateImages a modelName input) /\
  (has "dall-e" = false -> has "gpt-image" = false -> has "tts" = true ->
     generateText a modelName input cb = generateSpeech a modelName input) /\
  (has "dall-e" = false -> has "gpt-image" = false -> has "tts" = false ->
   has "whisper" = true \/ has "transcribe" = true ->
     generateText a modelName input cb =
       transcribeAudioFromRequest a modelName input) /\
  (has "dall-e" = false -> has "gpt-image" = false -> has "tts" = false ->
   has "whisper" = false -> has "transcribe" = false ->
     generateText a modelName input cb =
       let params := buildChatCompletionParams input modelName in
       match cb with
       | Some _ => generateTextStream a params input cb
       | None => generateTextSync a params input
       end).
Proof.
  intros has. subst has. unfold generateText.
  assert (Hdash : Strings.Contains (strings_ToLower modelName) "tts" = false ->
                  Strings.Contains (strings_ToLower modelName) "tts-" = false).
  { intros Hno. destruct (Strings.Contains _ "tts-") eqn:Hd; [|done].
    apply (Contains_append_l _ "tts" "-") in Hd. congruence. }
  repeat split_and.
  - intros [-> | ->]; [done | by rewrite orb_true_r].
  - intros -> -> ->. simpl. by rewrite orb_true_r.
  - intros -> -> Htts Hw. rewrite (Hdash Htts), Htts. simpl.
    destruct Hw as [-> | ->]; [done | by rewrite orb_true_r].
  - intros -> -> Htts -> ->. rewrite (Hdash Htts), Htts. reflexivity.
Qed.

(** ** Transcription without audio *)

Lemma scanAudioPart_no_media (st : list byte * string) (parts : list ai.Part) :
  (forall part, part ∈ parts -> ai.IsMedia part = false) ->
  fold_left scanAudioPart parts (Ok st) = Ok st.
Proof.
  induction parts as [|part parts IH]; intros Hno; [done|].
  simpl. destruct st as [audioData filename].
  rewrite (Hno part) by apply list_elem_of_here.
  apply IH. intros p Hp. apply Hno. by apply list_elem_of_further.
Qed.

Lemma scanAudio_no_media (messages : list ai.Message) :
  (forall msg part, msg ∈ messages -> part ∈ ai.Content msg ->
     ai.IsMedia part = false) ->
  scanAudio messages = Ok ([], "").
Proof.
  unfold scanAudio. generalize (([], "") : list byte * string).
  induction messages as [|msg messages IH]; intros st Hno; [done|].
  simpl. rewrite scanAudioPart_no_media.
  - apply IH. intros m p Hm. apply Hno. by apply list_elem_of_further.
  - intros p Hp. apply (Hno msg); [apply list_elem_of_here | done].
Qed.

(** C7. A transcription request none of whose messages holds a media part
    fails with "no audio data found in request", and the trace of vendor
    calls is empty. *)
Theorem transcribe_without_media (a : AzureAIFoundry) (modelName : string)
    (input : ai.ModelRequest) :
  (forall msg part, msg ∈ ai.Messages input -> part ∈ ai.Content msg ->
     ai.IsMedia part = false) ->
  transcribeAudioFromRequest a modelName input =
    ([], Err (Errorf "no audio data found in request")).
Proof.
  intros Hno. unfold transcribeAudioFromRequest.
  by rewrite (scanAudio_no_media _ Hno).
Qed.


(** ** Message translator *)

Lemma appendContentPart_fragment
    (acc : list openai.ChatCompletionContentPartUnionParam) (part : ai.Part) :
  appendContentPart acc part = acc ++ fragmentOf part.
Proof. destruct part; unfold appendContentPart; simpl; by rewrite ?app_nil_r. Qed.

Lemma contentParts_fragments (content : list ai.Part)
    (acc : list openai.ChatCompletionContentPartUnionParam) :
  fold_left appendContentPart content acc = acc ++ flat_map fragmentOf content.
Proof.
  revert acc. induction content as [|part content IH]; intros acc; simpl.
  - by rewrite app_nil_r.
  - by rewrite IH, appendContentPart_fragment, <- app_assoc.
Qed.

Lemma hasMultimodalContent_existsb (msg : ai.Message) :
  hasMultimodalContent msg =
    existsb ai.IsMedia (ai.Content msg) ||
    (existsb ai.IsText (ai.Content msg) &&
     (1 <? Z.of_nat (length (ai.Content msg)))).
Proof.
  unfold hasMultimodalContent.
  assert (Hscan : forall content hasText hasMedia,
    fold_left
      (fun '(hasText, hasMedia) part =>
         (if ai.IsText part then true else hasText,
          if ai.IsMedia part then true else hasMedia))
      content (hasText, hasMedia) =
    (hasText || existsb ai.IsText content, hasMedia || existsb ai.IsMedia content)).
  { induction content as [|part content IH]; intros hasText hasMedia; simpl.
    - by rewrite !orb_false_r.
    - rewrite IH. by destruct (ai.IsText part), (ai.IsMedia part), hasText, hasMedia. }
  by rewrite Hscan.
Qed.

Lemma existsb_elem_of {A : Type} (f : A -> bool) (l : list A) :
  existsb f l = true <-> exists x, x ∈ l /\ f x = true.
Proof.
  rewrite existsb_exists. split; intros (x & Hx & Hf); exists x; split; try done.
  - by apply list_elem_of_In.
  - by apply list_elem_of_In.
Qed.

Lemma hasMultimodalContent_true (msg : ai.Message) :
  hasMultimodalContent msg = true <->
  hasMediaPart msg \/ (hasTextPart msg /\ severalParts msg).
Proof.
  rewrite hasMultimodalContent_existsb, orb_true_iff, andb_true_iff.
  unfold hasMediaPart, hasTextPart, severalParts.
  rewrite !existsb_elem_of, Z.ltb_lt. split.
  - intros [H | [H1 H2]]; [by left | right; split; [done | lia]].
  - intros [H | [H1 H2]]; [by left | right; split; [done | lia]].
Qed.

Lemma contribution_user (msg : ai.Message) :
  ai.Role_ msg = ai.RoleUser -> ai.Content msg <> [] ->
  contribution msg =
    if hasMultimodalContent msg
    then [openai.OfUser (openai.OfArrayOfContentParts
                           (flat_map fragmentOf (ai.Content msg)))]
    else [openai.OfUser (openai.OfString (firstText (ai.Content msg)))].
Proof.
  intros Hrole Hne. unfold contribution, convertMessagesToOpenAI. simpl.
  unfold appendMessage. rewrite Hrole.
  destruct (ai.Content msg) as [|part content] eqn:Hc; [done|].
  rewrite contentParts_fragments. simpl.
  by destruct (hasMultimodalContent msg).
Qed.


Lemma appendToolPart_app (acc : list openai.ChatCompletionMessageParamUnion)
    (part : ai.Part) :
  appendToolPart acc part = acc ++ appendToolPart [] part.
Proof.
  destruct part; simpl; rewrite ?app_nil_r; try done.
  destruct (json_Marshal _); simpl; by rewrite ?app_nil_r.
Qed.

Lemma appendMessage_app (acc : list openai.ChatCompletionMessageParamUnion)
    (msg : ai.Message) :
  appendMessage acc msg = acc ++ appendMessage [] msg.
Proof.
  unfold appendMessage.
  destruct (ai.Content msg) as [|part content]; [by rewrite app_nil_r|].
  destruct (ai.Role_ msg); try done.
  - by destruct (hasMultimodalContent msg).
  - by destruct (fold_left appendModelPart _ _).
  - by rewrite !(fold_left_appending appendToolPart appendToolPart_app).
  - by rewrite app_nil_r.
Qed.

Lemma convertMessagesToOpenAI_contributions (messages : list ai.Message) :
  convertMessagesToOpenAI messages = flat_map contribution messages.
Proof.
  unfold convertMessagesToOpenAI.
  by rewrite (fold_left_appending appendMessage appendMessage_app).
Qed.

Lemma convertMessagesToOpenAI_app (before after : list ai.Message) :
  convertMessagesToOpenAI (before ++ after) =
    convertMessagesToOpenAI before ++ convertMessagesToOpenAI after.
Proof. by rewrite !convertMessagesToOpenAI_contributions, flat_map_app. Qed.

Lemma toolParts_length (content : list ai.Part)
    (acc : list openai.ChatCompletionMessageParamUnion) :
  length (fold_left appendToolPart content acc) =
    (length acc + length (filter (fun part => kept ai.RoleTool part = true) content))%nat.
Proof.
  revert acc. induction content as [|part content IH]; intros acc;
    cbn [fold_left].
  - rewrite filter_nil. simpl. lia.
  - rewrite IH, filter_cons.
    destruct part; simpl; try reflexivity.
    destruct (json_Marshal _); simpl; rewrite ?length_app; simpl; lia.
Qed.

(** C4, amended. Each message contributes to the translated sequence on
    its own. A message with an empty content list contributes nothing; so
    does a message whose role is none of the four. A tool message
    contributes one vendor message per tool response that encodes, hence
    nothing when none is kept. A system, user or model message with
    non-empty content contributes exactly one vendor message, whatever its
    parts are. *)
Theorem message_contributions :
  (forall messages,
     convertMessagesToOpenAI messages = flat_map contribution messages) /\
  forall msg,
    (ai.Content msg = [] -> contribution msg = []) /\
    (forall name, ai.Role_ msg = ai.RoleOther name -> contribution msg = []) /\
    (ai.Role_ msg = ai.RoleTool ->
       length (contribution msg) = length (keptParts msg) /\
       omittedWhenNothingKept msg) /\
    (ai.Content msg <> [] ->
     ai.Role_ msg = ai.RoleSystem \/ ai.Role_ msg = ai.RoleUser \/
     ai.Role_ msg = ai.RoleModel ->
       length (contribution msg) = 1%nat).
Proof.
  split; [apply convertMessagesToOpenAI_contributions|].
  intros msg.
  assert (Htool : ai.Role_ msg = ai.RoleTool ->
                  length (contribution msg) = length (keptParts msg)).
  { intros Hrole. unfold contribution, convertMessagesToOpenAI, keptParts. simpl.
    unfold appendMessage. rewrite Hrole.
    destruct (ai.Content msg) as [|part content] eqn:Hc.
    - by rewrite filter_nil.
    - by rewrite toolParts_length. }
  repeat split_and.
  - intros Hc. unfold contribution, convertMessagesToOpenAI. simpl.
    unfold appendMessage. by rewrite Hc.
  - intros name Hrole. unfold contribution, convertMessagesToOpenAI. simpl.
    unfold appendMessage. rewrite Hrole. by destruct (ai.Content msg).
  - intros Hrole. split; [by apply Htool|].
    intros Hnone. specialize (Htool Hrole). rewrite Hnone in Htool.
    by apply nil_length_inv.
  - intros Hne Hrole. unfold contribution, convertMessagesToOpenAI. simpl.
    unfold appendMessage.
    destruct (ai.Content msg) as [|part content] eqn:Hc; [done|].
    destruct Hrole as [-> | [-> | ->]].
    + done.
    + by destruct (hasMultimodalContent msg).
    + by destruct (fold_left appendModelPart _ _).
Qed.


(** ** Streaming aggregator *)

Lemma string_app_nil_l (s : string) : "" +:+ s = s.
Proof. reflexivity. Qed.

Lemma string_app_nil_r (s : string) : s +:+ "" = s.
Proof.
  induction s as [|c s IH]; [reflexivity|].
  change (String c (s +:+ "") = String c s). by rewrite IH.
Qed.

Lemma string_app_assoc (s t u : string) : (s +:+ t) +:+ u = s +:+ (t +:+ u).
Proof.
  induction s as [|c s IH]; [reflexivity|].
  change (String c ((s +:+ t) +:+ u) = String c (s +:+ (t +:+ u))).
  by rewrite IH.
Qed.

Lemma joined_filter (fragments : list string) :
  joined (filter nonEmpty fragments) = joined fragments.
Proof.
  induction fragments as [|s fragments IH]; [done|].
  rewrite filter_cons. case_decide as Hs; simpl; rewrite IH; [done|].
  destruct s; [done|]. exfalso. by apply Hs.
Qed.

Lemma accumulateDelta_lookup (m : gmap Z toolCallAccumulator)
    (d : openai.ChatCompletionChunkChoiceDeltaToolCall) (idx : Z) :
  accumulateDelta m d !! idx =
    if decide (openai.Index d = idx) then Some (updateAccumulator (m !! idx) d)
    else m !! idx.
Proof.
  unfold accumulateDelta, updateAccumulator.
  case_decide as Hidx.
  - subst idx.
    destruct (m !! openai.Index d) as [acc|] eqn:Hm;
      destruct (openai.Function_Name_ d) as [|c1 n];
      destruct (openai.Function_Arguments d) as [|c2 args]; simpl;
      rewrite ?lookup_alter_eq, ?lookup_insert_eq, ?Hm; simpl;
      rewrite ?lookup_alter_eq, ?lookup_insert_eq, ?Hm; simpl;
      rewrite ?string_app_nil_r, ?string_app_nil_l; try done; by destruct acc.
  - destruct (m !! openai.Index d) as [acc|] eqn:Hm;
      destruct (Strings.isEmpty (openai.Function_Name_ d));
      destruct (Strings.isEmpty (openai.Function_Arguments d)); simpl;
      rewrite ?lookup_alter_ne, ?lookup_insert_ne by done; done.
Qed.

Lemma accumulate_lookup
    (deltas : list openai.ChatCompletionChunkChoiceDeltaToolCall)
    (m : gmap Z toolCallAccumulator) (idx : Z) :
  fold_left accumulateDelta deltas m !! idx =
    fold_left (fun current d => Some (updateAccumulator current d))
              (deltasAt idx deltas) (m !! idx).
Proof.
  revert m. induction deltas as [|d deltas IH]; intros m; [done|].
  cbn [fold_left]. rewrite IH, accumulateDelta_lookup.
  unfold deltasAt. rewrite filter_cons.
  by case_decide.
Qed.

Lemma fold_update_Some
    (deltas : list openai.ChatCompletionChunkChoiceDeltaToolCall)
    (acc : toolCallAccumulator) :
  fold_left (fun current d => Some (updateAccumulator current d)) deltas (Some acc) =
    Some (mkAccumulator (acc_id acc)
            (default (acc_name acc)
               (last (filter nonEmpty (map openai.Function_Name_ deltas))))
            (acc_arguments acc +:+ joined (map openai.Function_Arguments deltas))).
Proof.
  revert acc. induction deltas as [|d deltas IH]; intros acc.
  - simpl. rewrite string_app_nil_r. by destruct acc.
  - cbn [fold_left map]. rewrite IH. simpl. rewrite string_app_assoc.
    f_equal. f_equal. rewrite filter_cons.
    case_decide as Hn.
    + rewrite last_cons.
      destruct (openai.Function_Name_ d); [by destruct Hn|]. simpl.
      by destruct (last _).
    + destruct (openai.Function_Name_ d); [done|]. exfalso. by apply Hn.
Qed.

Lemma accumulated_at (deltas : list openai.ChatCompletionChunkChoiceDeltaToolCall)
    (idx : Z) :
  (deltasAt idx deltas = [] -> accumulated deltas !! idx = None) /\
  (forall first rest, deltasAt idx deltas = first :: rest ->
     exists acc,
       accumulated deltas !! idx = Some acc /\
       acc_id acc = openai.ID first /\
       acc_name acc = lastNonEmpty (map openai.Function_Name_ (first :: rest)) /\
       acc_arguments acc =
         joined (filter nonEmpty (map openai.Function_Arguments (first :: rest)))).
Proof.
  unfold accumulated. rewrite accumulate_lookup, lookup_empty. split.
  - by intros ->.
  - intros first rest ->.
    assert (Hfirst :
      fold_left (fun current d => Some (updateAccumulator current d))
                (first :: rest) None =
      fold_left (fun current d => Some (updateAccumulator current d))
                (first :: rest) (Some (mkAccumulator (openai.ID first) "" "")))
      by reflexivity.
    rewrite Hfirst, fold_update_Some. eexists. split; [reflexivity|].
    simpl. by rewrite joined_filter.
Qed.

Lemma streamLoop_toolCalls (cb : option Callback)
    (chunks : list openai.ChatCompletionChunk) (st st' : streamState) :
  streamLoop cb st chunks = Ok st' ->
  toolCallsMap st' =
    fold_left accumulateDelta (streamDeltas chunks) (toolCallsMap st).
Proof.
  revert st. induction chunks as [|chunk chunks IH]; intros st Hloop.
  - simpl in Hloop. by injection Hloop as <-.
  - simpl in Hloop. unfold streamDeltas. cbn [flat_map].
    rewrite fold_left_app. fold (streamDeltas chunks).
    destruct (streamStep cb st chunk) as [st1|e] eqn:Hstep; [|done].
    rewrite (IH _ Hloop). f_equal.
    unfold streamStep, chunkDeltas in *.
    destruct (openai.Chunk_Choices chunk) as [|choice rest].
    + by injection Hstep as <-.
    + destruct (Strings.isEmpty (openai.Delta_Content (openai.Delta choice)));
        simpl in Hstep.
      * by injection Hstep as <-.
      * destruct cb as [sink|]; [destruct (sink _)|]; simpl in Hstep; try done;
          by injection Hstep as <-.
Qed.

Lemma convertToolCallsLoop_names (toolCalls : list toolCallAccumulator)
    (acc parts : list ai.Part) :
  convertToolCallsLoop toolCalls acc = Ok parts ->
  exists added,
    parts = acc ++ added /\
    Forall (fun part => ai.IsToolRequest part = true) added /\
    map partName added = filter nonEmpty (map acc_name toolCalls).
Proof.
  revert acc. induction toolCalls as [|toolCall toolCalls IH]; intros acc Hloop.
  - simpl in Hloop. injection Hloop as <-. exists []. by rewrite app_nil_r.
  - cbn [convertToolCallsLoop] in Hloop. cbn [map]. rewrite filter_cons.
    destruct (acc_name toolCall) as [|c n] eqn:Hname; cbn [Strings.isEmpty] in Hloop.
    + case_decide as Hn; [by destruct Hn|]. by apply IH.
    + case_decide as Hn; [|by destruct Hn].
      destruct (negb (Strings.isEmpty (acc_arguments toolCall)));
        [destruct (json_Unmarshal _); [|done]|];
        apply IH in Hloop as (added & -> & Hforall & Hnames);
        eexists (_ :: added); rewrite <- app_assoc;
        (split; [reflexivity|]); (split; [by constructor|]);
        simpl; by rewrite Hnames.
Qed.

(** C2. The aggregator's map, after a stream, is the accumulation of the
    tool-call deltas of its chunks in arrival order. For each positional
    index: no accumulator exists when no delta named the index; otherwise
    the accumulator holds the call id of the first delta for that index, as
    name the last non-empty name seen for it, and as arguments the
    non-empty argument fragments for it joined in arrival order. At
    finalisation every part is a tool request and the names requested are
    exactly the non-empty accumulated names: an accumulator with an empty
    name yields no part. *)
Theorem tool_call_accumulation :
  (forall cb chunks st,
     streamLoop cb (mkStreamState "" ∅ []) chunks = Ok st ->
     toolCallsMap st = accumulated (streamDeltas chunks)) /\
  (forall deltas idx,
     (deltasAt idx deltas = [] -> accumulated deltas !! idx = None) /\
     (forall first rest, deltasAt idx deltas = first :: rest ->
        exists acc,
          accumulated deltas !! idx = Some acc /\
          acc_id acc = openai.ID first /\
          acc_name acc = lastNonEmpty (map openai.Function_Name_ (first :: rest)) /\
          acc_arguments acc =
            joined (filter nonEmpty
                      (map openai.Function_Arguments (first :: rest))))) /\
  (forall (accumulators : gmap Z toolCallAccumulator) parts,
     convertToolCallsToParts accumulators = Ok parts ->
     Forall (fun part => ai.IsToolRequest part = true) parts /\
     map partName parts ≡ₚ
       filter nonEmpty (map (fun entry => acc_name entry.2)
                            (map_to_list accumulators))).
Proof.
  repeat split_and.
  - intros cb chunks st Hloop. by apply streamLoop_toolCalls in Hloop.
  - apply accumulated_at.
  - intros accumulators parts Hparts. unfold convertToolCallsToParts in Hparts.
    apply convertToolCallsLoop_names in Hparts as (added & -> & Hforall & Hnames).
    simpl. split; [done|]. rewrite Hnames, map_map.
    apply filter_Permutation, Permutation_map, mapRange_perm.
Qed.


Lemma streamStep_withoutReport (cb : option Callback) (st : streamState)
    (chunk : openai.ChatCompletionChunk) :
  streamStep cb st (withoutReport chunk) = streamStep cb st chunk.
Proof.
  unfold streamStep, withoutReport. simpl.
  by destruct (openai.Chunk_Choices chunk).
Qed.

Lemma streamLoop_withoutReport (cb : option Callback)
    (chunks : list openai.ChatCompletionChunk) (st : streamState) :
  streamLoop cb st (map withoutReport chunks) = streamLoop cb st chunks.
Proof.
  revert st. induction chunks as [|chunk chunks IH]; intros st; [done|].
  cbn [map streamLoop]. rewrite streamStep_withoutReport.
  destruct (streamStep cb st chunk); [apply IH | done].
Qed.

(** C10. A streaming chat call that succeeds returns a response whose
    finish reason is stop and whose usage is absent. The loop never reads
    what the vendor reported: blanking the finish reason of every choice
    and the usage of every chunk leaves its outcome unchanged, so neither
    the finish-reason table nor the usage accounting of the non-streaming
    converter plays a part. *)
Theorem streaming_finish_and_usage :
  (forall a params originalInput cb trace resp,
     generateTextStream a params originalInput cb = (trace, Ok resp) ->
     ai.FinishReason_ resp = ai.FinishReasonStop /\ ai.Usage resp = None) /\
  (forall cb st chunks,
     streamLoop cb st (map withoutReport chunks) = streamLoop cb st chunks).
Proof.
  split; [|intros; apply streamLoop_withoutReport].
  intros a params originalInput cb trace resp.
  unfold generateTextStream, call, bind, throw, ret.
  destruct (streamLoop _ _ _) as [st|e]; [|intros [= _ ?]; done].
  destruct (openai.Stream_Err _); [intros [= _ ?]; done|].
  destruct (convertToolCallsToParts _); [|intros [= _ ?]; done].
  intros [= _ <-]. done.
Qed.

(** ** Translation failures *)

Lemma appendToolCall_app (content : list ai.Part)
    (toolCall : openai.ChatCompletionMessageFunctionToolCall) :
  appendToolCall content toolCall = content ++ appendToolCall [] toolCall.
Proof.
  unfold appendToolCall.
  destruct (negb _); [destruct (json_Unmarshal _)|]; simpl; by rewrite ?app_nil_r.
Qed.

Lemma toolCalls_skip_undecodable (before after : list openai.ChatCompletionMessageFunctionToolCall)
    (bad : openai.ChatCompletionMessageFunctionToolCall) (e : error)
    (content : list ai.Part) :
  json_Unmarshal (openai.ToolCall_Arguments bad) = Err e ->
  fold_left appendToolCall (before ++ bad :: after) content =
    fold_left appendToolCall (before ++ after) content.
Proof.
  intros Hbad. rewrite !fold_left_app. cbn [fold_left]. f_equal.
  generalize (fold_left appendToolCall before content). intros parts.
  unfold appendToolCall. rewrite Hbad. by destruct (negb _).
Qed.

Lemma toolCalls_keep_decodable (calls : list openai.ChatCompletionMessageFunctionToolCall)
    (call : openai.ChatCompletionMessageFunctionToolCall)
    (args : gmap string any) (content : list ai.Part) :
  call ∈ calls -> openai.ToolCall_ID call <> "" ->
  json_Unmarshal (openai.ToolCall_Arguments call) = Ok args ->
  ai.NewToolRequestPart (ai.mkToolRequest (openai.ToolCall_Name call) (AnyMap args))
    ∈ fold_left appendToolCall calls content.
Proof.
  intros Hin Hid Hargs.
  rewrite (fold_left_appending appendToolCall appendToolCall_app).
  apply elem_of_app. right. apply list_elem_of_In, in_flat_map.
  exists call. split; [by apply list_elem_of_In|].
  unfold appendToolCall. rewrite Hargs.
  apply isEmpty_false in Hid. rewrite Hid. simpl. by left.
Qed.

Lemma convertToolCallsLoop_fails (toolCalls : list toolCallAccumulator)
    (acc : toolCallAccumulator) (e : error) (parts : list ai.Part) :
  acc ∈ toolCalls -> acc_name acc <> "" -> acc_arguments acc <> "" ->
  json_Unmarshal (acc_arguments acc) = Err e ->
  exists err, convertToolCallsLoop toolCalls parts = Err err.
Proof.
  intros Hin Hname Hargs Hbad. revert parts.
  induction toolCalls as [|toolCall toolCalls IH]; intros parts.
  - by apply elem_of_nil in Hin.
  - cbn [convertToolCallsLoop].
    apply elem_of_cons in Hin as [<- | Hin].
    + apply isEmpty_false in Hname, Hargs. rewrite Hname, Hargs, Hbad. simpl.
      by eexists.
    + destruct (Strings.isEmpty (acc_name toolCall)); [by apply IH|].
      destruct (negb _);
        [destruct (json_Unmarshal (acc_arguments toolCall))|]; simpl;
        try by apply IH. by eexists.
Qed.

Lemma modelParts_skip_unencodable (before after : list ai.Part)
    (r : ai.ToolRequest) (e : error)
    (st : string * list openai.ChatCompletionMessageFunctionToolCallParam) :
  json_Marshal (ai.ToolRequest_Input r) = Err e ->
  fold_left appendModelPart (before ++ ai.NewToolRequestPart r :: after) st =
    fold_left appendModelPart (before ++ after) st.
Proof.
  intros Hbad. rewrite !fold_left_app. cbn [fold_left]. f_equal.
  generalize (fold_left appendModelPart before st). intros [text calls].
  unfold appendModelPart. by rewrite Hbad.
Qed.

Lemma toolParts_skip_unencodable (before after : list ai.Part)
    (r : ai.ToolResponse) (e : error)
    (acc : list openai.ChatCompletionMessageParamUnion) :
  json_Marshal (ai.ToolResponse_Output r) = Err e ->
  fold_left appendToolPart (before ++ ai.NewToolResponsePart r :: after) acc =
    fold_left appendToolPart (before ++ after) acc.
Proof.
  intros Hbad. rewrite !fold_left_app. cbn [fold_left]. f_equal.
  generalize (fold_left appendToolPart before acc). intros messages.
  unfold appendToolPart. by rewrite Hbad.
Qed.


Lemma contribution_model (content : list ai.Part) :
  content <> [] ->
  contribution (ai.mkMessage ai.RoleModel content) =
    [openai.OfAssistant (assistantFields content).1 (assistantFields content).2].
Proof.
  intros Hne. unfold contribution, convertMessagesToOpenAI, assistantFields.
  cbn [fold_left]. unfold appendMessage. cbn [ai.Content ai.Role_].
  destruct content as [|part content]; [done|].
  by destruct (fold_left appendModelPart _ _).
Qed.

Lemma contribution_tool (content : list ai.Part) :
  contribution (ai.mkMessage ai.RoleTool content) =
    fold_left appendToolPart content [].
Proof.
  unfold contribution, convertMessagesToOpenAI.
  cbn [fold_left]. unfold appendMessage. cbn [ai.Content ai.Role_].
  by destruct content.
Qed.

Lemma convertMessagesToOpenAI_middle (before after : list ai.Message)
    (msg : ai.Message) :
  convertMessagesToOpenAI (before ++ msg :: after) =
    convertMessagesToOpenAI before ++ contribution msg ++
    convertMessagesToOpenAI after.
Proof.
  rewrite !convertMessagesToOpenAI_contributions, flat_map_app. reflexivity.
Qed.

(** C1. Failures of the JSON translation are handled per path.
    Non-streaming: a tool call whose arguments do not decode is left out,
    the response being the one the converter gives without that call; the
    text, when not empty, still heads the content and every tool call
    that has an id and decodes is still in it. Streaming: when an
    accumulator with a non-empty name and non-empty arguments does not
    decode, the call returns an error and no response, whatever the sink
    does. Outbound: a tool request of a model message, or a tool response
    of a tool message, whose value does not encode is skipped; the
    translation is the one obtained from the remaining parts, and the
    translator has no error result at all. *)
Theorem translation_failure_policy :
  (forall text before bad after reason others usage originalInput e,
     json_Unmarshal (openai.ToolCall_Arguments bad) = Err e ->
     let resp calls :=
       openai.mkChatCompletion
         (openai.mkChoice (openai.mkCompletionMessage text calls) reason :: others)
         usage in
     convertResponse (resp (before ++ bad :: after)) originalInput =
       convertResponse (resp (before ++ after)) originalInput) /\
  (forall resp originalInput choice others,
     openai.Choices resp = choice :: others ->
     let message := openai.Choice_Message choice in
     let content := ai.Content (ai.Message_ (convertResponse resp originalInput)) in
     (openai.Message_Content message <> "" ->
        head content = Some (ai.NewTextPart (openai.Message_Content message))) /\
     (forall call args,
        call ∈ openai.Message_ToolCalls message ->
        openai.ToolCall_ID call <> "" ->
        json_Unmarshal (openai.ToolCall_Arguments call) = Ok args ->
        ai.NewToolRequestPart
          (ai.mkToolRequest (openai.ToolCall_Name call) (AnyMap args)) ∈ content)) /\
  (forall a params originalInput cb idx acc e,
     accumulated
       (streamDeltas
          (openai.Stream_Chunks
             (openai.Chat_Completions_NewStreaming (client a) params)))
       !! idx = Some acc ->
     acc_name acc <> "" -> acc_arguments acc <> "" ->
     json_Unmarshal (acc_arguments acc) = Err e ->
     exists err, (generateTextStream a params originalInput cb).2 = Err err) /\
  (forall msgsBefore msgsAfter before after r e,
     json_Marshal (ai.ToolRequest_Input r) = Err e ->
     convertMessagesToOpenAI
       (msgsBefore ++
        ai.mkMessage ai.RoleModel (before ++ ai.NewToolRequestPart r :: after)
        :: msgsAfter) =
       convertMessagesToOpenAI msgsBefore ++
       [openai.OfAssistant (assistantFields (before ++ after)).1
                           (assistantFields (before ++ after)).2] ++
       convertMessagesToOpenAI msgsAfter) /\
  (forall msgsBefore msgsAfter before after r e,
     json_Marshal (ai.ToolResponse_Output r) = Err e ->
     convertMessagesToOpenAI
       (msgsBefore ++
        ai.mkMessage ai.RoleTool (before ++ ai.NewToolResponsePart r :: after)
        :: msgsAfter) =
     convertMessagesToOpenAI
       (msgsBefore ++ ai.mkMessage ai.RoleTool (before ++ after) :: msgsAfter)).
Proof.
  repeat split_and.
  - intros text before bad after reason others usage originalInput e Hbad resp.
    subst resp. unfold convertResponse. simpl.
    by rewrite (toolCalls_skip_undecodable _ _ _ e).
  - intros resp originalInput choice others Hchoices message content.
    subst message content. unfold convertResponse. rewrite Hchoices. simpl.
    split.
    + intros Htext. apply isEmpty_false in Htext. rewrite Htext. simpl.
      by rewrite (fold_left_appending appendToolCall appendToolCall_app).
    + intros call args Hin Hid Hargs. by apply toolCalls_keep_decodable.
  - intros a params originalInput cb idx acc e Hacc Hname Hargs Hbad.
    unfold generateTextStream, call, bind, throw, ret.
    destruct (streamLoop _ _ _) as [st|e0] eqn:Hloop; [|by eexists].
    destruct (openai.Stream_Err _); [by eexists|].
    apply streamLoop_toolCalls in Hloop. simpl in Hloop.
    fold (accumulated
            (streamDeltas
               (openai.Stream_Chunks
                  (openai.Chat_Completions_NewStreaming (client a) params))))
      in Hloop.
    assert (Hfail : exists err, convertToolCallsToParts (toolCallsMap st) = Err err).
    { unfold convertToolCallsToParts.
      apply (convertToolCallsLoop_fails _ acc e); try done.
      apply list_elem_of_In, in_map_iff. exists (idx, acc). split; [done|].
      apply list_elem_of_In. rewrite mapRange_perm, Hloop.
      by apply elem_of_map_to_list. }
    destruct Hfail as [err ->]. by eexists.
  - intros msgsBefore msgsAfter before after r e Hbad.
    rewrite convertMessagesToOpenAI_middle, contribution_model
      by (by destruct before).
    unfold assistantFields.
    by rewrite (modelParts_skip_unencodable _ _ _ e).
  - intros msgsBefore msgsAfter before after r e Hbad.
    rewrite !convertMessagesToOpenAI_middle, !contribution_tool.
    by rewrite (toolParts_skip_unencodable _ _ _ e).
Qed.


(** * Further properties of the plugin *)

(** ** Prompt text *)

Lemma joined_app (l1 l2 : list string) :
  joined (l1 ++ l2) = joined l1 +:+ joined l2.
Proof.
  induction l1 as [|s l1 IH]; [reflexivity|].
  change (s +:+ joined (l1 ++ l2) = (s +:+ joined l1) +:+ joined l2).
  by rewrite IH, string_app_assoc.
Qed.

Lemma textOf_app (parts1 parts2 : list ai.Part) :
  textOf (parts1 ++ parts2) = textOf parts1 +:+ textOf parts2.
Proof. unfold textOf. by rewrite filter_app, map_app, joined_app. Qed.

Lemma textOf_cons (part : ai.Part) (parts : list ai.Part) :
  textOf (part :: parts) =
    if ai.IsText part then ai.Text part +:+ textOf parts else textOf parts.
Proof.
  unfold textOf. rewrite filter_cons.
  destruct (ai.IsText part); case_decide; try done.
Qed.

Lemma collect_parts (parts : list ai.Part) (prompt : string) :
  fold_left
    (fun prompt part => if ai.IsText part then prompt +:+ ai.Text part else prompt)
    parts prompt = prompt +:+ textOf parts.
Proof.
  revert prompt. induction parts as [|part parts IH]; intros prompt.
  - by rewrite string_app_nil_r.
  - cbn [fold_left]. rewrite IH, textOf_cons.
    destruct (ai.IsText part); [by rewrite string_app_assoc | done].
Qed.

Lemma collect_messages (messages : list ai.Message) (prompt : string) :
  fold_left
    (fun prompt msg =>
       fold_left
         (fun prompt part =>
            if ai.IsText part then prompt +:+ ai.Text part else prompt)
         (ai.Content msg) prompt)
    messages prompt = prompt +:+ textOf (allParts messages).
Proof.
  revert prompt. induction messages as [|msg messages IH]; intros prompt.
  - by rewrite string_app_nil_r.
  - cbn [fold_left]. rewrite IH, collect_parts. unfold allParts. cbn [flat_map].
    by rewrite textOf_app, string_app_assoc.
Qed.

Lemma collectText_textOf (messages : list ai.Message) :
  collectText messages = textOf (allParts messages).
Proof. unfold collectText. by rewrite collect_messages. Qed.

(** X1. The prompt of an image or speech request is the text of the text
    parts of all messages, joined in order; parts of any other kind add
    nothing, and the prompt of two message sequences put end to end is the
    two prompts put end to end. *)
Theorem collectText_joined :
  (forall messages, collectText messages = textOf (allParts messages)) /\
  (forall messages1 messages2,
     collectText (messages1 ++ messages2) =
       collectText messages1 +:+ collectText messages2) /\
  (forall messages,
     Forall (fun part => ai.IsText part = false) (allParts messages) ->
     collectText messages = "").
Proof.
  repeat split_and.
  - exact collectText_textOf.
  - intros messages1 messages2. rewrite !collectText_textOf. unfold allParts.
    by rewrite flat_map_app, textOf_app.
  - intros messages Hnone. rewrite collectText_textOf.
    induction Hnone as [|part parts Hpart _ IH]; [done|].
    by rewrite textOf_cons, Hpart.
Qed.


(** ** Modality routers: calls and outcomes *)

Lemma images_converted (data : list openai.Image) (acc : list GeneratedImage) :
  fold_left
    (fun images img =>
       images ++ [mkGeneratedImage (openai.Image_URL img)
                                   (openai.Image_B64JSON img)
                                   (openai.Image_RevisedPrompt img)])
    data acc = acc ++ map generatedImage data.
Proof.
  revert acc. induction data as [|img data IH]; intros acc; simpl.
  - by rewrite app_nil_r.
  - rewrite IH. by rewrite <- app_assoc.
Qed.

Lemma images_content (images : list GeneratedImage) (acc : list ai.Part) :
  fold_left
    (fun content img =>
       if negb (Strings.isEmpty (URL img)) then
         content ++ [ai.NewTextPart (URL img)]
       else if negb (Strings.isEmpty (B64JSON img)) then
         content ++ [ai.NewTextPart (B64JSON img)]
       else content)
    images acc = acc ++ flat_map imageText images.
Proof.
  revert acc. induction images as [|img images IH]; intros acc; simpl.
  - by rewrite app_nil_r.
  - rewrite IH. unfold imageText.
    destruct (negb (Strings.isEmpty (URL img)));
      [|destruct (negb (Strings.isEmpty (B64JSON img)))];
      simpl; by rewrite <- ?app_assoc.
Qed.

Lemma flat_map_length_le {A B : Type} (f : A -> list B) (l : list A) :
  (forall x, length (f x) <= 1)%nat ->
  (length (flat_map f l) <= length l)%nat.
Proof.
  intros Hf. induction l as [|x l IH]; simpl; [lia|].
  rewrite length_app. specialize (Hf x). lia.
Qed.

(** X2. With an initialised plugin, an image request issues exactly one
    vendor call, carrying the joined text of the messages as prompt and
    the requested model; a vendor failure comes back wrapped as "image
    generation failed"; on success the response holds, per image and in
    order, its URL if it has one, else its base64 payload if it has one,
    and nothing for an image with neither, so never more parts than
    images. *)
Theorem generateImages_outcome (a : AzureAIFoundry) (modelName : string)
    (input : ai.ModelRequest) :
  initted a = true ->
  exists p,
    (generateImages a modelName input).1 = [CallImagesGenerate p] /\
    openai.Image_Prompt p = textOf (allParts (ai.Messages input)) /\
    openai.Image_Model p = modelName /\
    (forall e, openai.Images_Generate (client a) p = Err e ->
       (generateImages a modelName input).2 =
         Err (ErrWrap "image generation failed" e)) /\
    (forall resp, openai.Images_Generate (client a) p = Ok resp ->
       (generateImages a modelName input).2 =
         Ok (textResponse
               (flat_map imageText (map generatedImage (openai.Data resp)))) /\
       (length (flat_map imageText (map generatedImage (openai.Data resp)))
        <= length (openai.Data resp))%nat).
Proof.
  intros Hinit. unfold generateImages, generateImagesInternal.
  rewrite Hinit. cbn [negb]. eexists. unfold bind, wrapErr, call, ret.
  split_and!.
  - by destruct (openai.Images_Generate _ _).
  - cbn [openai.Image_Prompt]. unfold imageRequest.
    destruct (asConfigMap (ai.Config input)) as [configMap|]; unfold override;
      repeat match goal with
             | |- context [asInt ?o] => destruct (asInt o)
             | |- context [asString ?o] => destruct (asString o)
             end; cbn; by rewrite collectText_textOf.
  - reflexivity.
  - intros e He. by rewrite He.
  - intros resp Hresp. rewrite Hresp. cbn.
    rewrite images_converted, images_content. cbn. split; [done|].
    transitivity (length (map generatedImage (openai.Data resp)));
      [|by rewrite length_map].
    apply flat_map_length_le. intros img. unfold imageText.
    destruct (negb _); [|destruct (negb _)]; simpl; lia.
Qed.

(** X3. While the plugin is not initialised, the three modality routers
    issue no vendor call and return an error: image generation and speech
    synthesis the "client not initialized" error, transcription that error
    or the one its own input earned. *)
Theorem uninitialised_routers (a : AzureAIFoundry) (modelName : string)
    (input : ai.ModelRequest) :
  initted a = false ->
  generateImages a modelName input = ([], Err notInitializedError) /\
  generateSpeech a modelName input = ([], Err notInitializedError) /\
  (transcribeAudioFromRequest a modelName input).1 = [] /\
  isErr (transcribeAudioFromRequest a modelName input).2 = true.
Proof.
  intros Hinit.
  unfold generateImages, generateImagesInternal, generateSpeech,
    generateSpeechInternal, transcribeAudioFromRequest, transcribeAudioInternal.
  rewrite Hinit. cbn [negb]. split_and!; try reflexivity.
  - destruct (scanAudio _) as [[[|b audioData] filename]|e]; reflexivity.
  - destruct (scanAudio _) as [[[|b audioData] filename]|e]; reflexivity.
Qed.

Lemma generateImages_calls (a : AzureAIFoundry) (modelName : string)
    (input : ai.ModelRequest) :
  (length (generateImages a modelName input).1 <= 1)%nat.
Proof.
  unfold generateImages, generateImagesInternal, bind, wrapErr, call, ret.
  destruct (negb (initted a)); [simpl; lia|].
  destruct (openai.Images_Generate _ _); simpl; lia.
Qed.

Lemma generateSpeech_calls (a : AzureAIFoundry) (modelName : string)
    (input : ai.ModelRequest) :
  (length (generateSpeech a modelName input).1 <= 1)%nat.
Proof.
  unfold generateSpeech, generateSpeechInternal, bind, wrapErr, call, ret, throw.
  destruct (negb (initted a)); [simpl; lia|].
  destruct (openai.Audio_Speech_New _ _) as [body|e]; [|simpl; lia].
  destruct (openai.Body_CloseErr body), (openai.Body_ReadErr body); simpl; lia.
Qed.

Lemma transcribe_calls (a : AzureAIFoundry) (modelName : string)
    (input : ai.ModelRequest) :
  (length (transcribeAudioFromRequest a modelName input).1 <= 1)%nat.
Proof.
  unfold transcribeAudioFromRequest, transcribeAudioInternal, bind, wrapErr,
    call, ret, throw.
  destruct (scanAudio _) as [[[|b audioData] filename]|e]; try (simpl; lia).
  destruct (negb (initted a)); [simpl; lia|].
  destruct (openai.Audio_Transcriptions_New _ _); simpl; lia.
Qed.

Lemma generateTextSync_calls (a : AzureAIFoundry)
    (params : openai.ChatCompletionNewParams) (input : ai.ModelRequest) :
  (generateTextSync a params input).1 = [CallChatCompletionsNew params].
Proof.
  unfold generateTextSync, bind, wrapErr, call, ret.
  by destruct (openai.Chat_Completions_New _ _).
Qed.

Lemma generateTextStream_calls (a : AzureAIFoundry)
    (params : openai.ChatCompletionNewParams) (input : ai.ModelRequest)
    (cb : option Callback) :
  (generateTextStream a params input cb).1 =
    [CallChatCompletionsNewStreaming params].
Proof.
  unfold generateTextStream, bind, call, ret, throw.
  destruct (streamLoop _ _ _); [|done].
  destruct (openai.Stream_Err _); [done|].
  by destruct (convertToolCallsToParts _).
Qed.

(** X4. One generation request issues at most one vendor call, whatever
    the model, the input and the sink: nothing is retried and no route
    calls the vendor twice. On the chat routes the call is always issued,
    also by a plugin that was never initialised. *)
Theorem generateText_one_call (a : AzureAIFoundry) (modelName : string)
    (input : ai.ModelRequest) (cb : option Callback) :
  (length (generateText a modelName input cb).1 <= 1)%nat /\
  (forall params,
     (generateTextSync a params input).1 = [CallChatCompletionsNew params] /\
     (generateTextStream a params input cb).1 =
       [CallChatCompletionsNewStreaming params]).
Proof.
  split.
  - unfold generateText.
    destruct (_ || _); [apply generateImages_calls|].
    destruct (_ || _); [apply generateSpeech_calls|].
    destruct (_ || _); [apply transcribe_calls|].
    destruct cb.
    + by rewrite generateTextStream_calls.
    + by rewrite generateTextSync_calls.
  - intros params. split;
      [apply generateTextSync_calls | apply generateTextStream_calls].
Qed.


Lemma imageRequest_closed_form (input : ai.ModelRequest) :
  let cfg := ai.Config input in
  imageRequest input =
    mkImageRequest (collectText (ai.Messages input))
      (default 1 (asInt (configLookup cfg "n")))
      (default "1024x1024" (asString (configLookup cfg "size")))
      (default "standard" (asString (configLookup cfg "quality")))
      (default "vivid" (asString (configLookup cfg "style")))
      (default "url" (asString (configLookup cfg "response_format"))).
Proof.
  intros cfg. subst cfg. unfold imageRequest, configLookup, override.
  destruct (asConfigMap (ai.Config input)) as [configMap|]; [|reflexivity].
  repeat match goal with
         | |- context [asInt ?o] => destruct (asInt o)
         | |- context [asString ?o] => destruct (asString o)
         end; reflexivity.
Qed.

Lemma issuedImageParams_request (a : AzureAIFoundry) (modelName : string)
    (input : ai.ModelRequest) (p : openai.ImageGenerateParams) :
  issuedImageParams (generateImages a modelName input) = Some p ->
  let req := imageRequest input in
  p = openai.mkImageParams (Image_Prompt req) modelName
        (optPositiveInt (Image_N req)) (optString (Image_Size req))
        (optString (Image_Quality req)) (optString (Image_Style req))
        (optString (Image_ResponseFormat req)).
Proof.
  unfold issuedImageParams, generateImages, generateImagesInternal, bind,
    wrapErr, call, ret.
  destruct (negb (initted a)); [done|].
  destruct (openai.Images_Generate _ _); cbn; by intros [= <-].
Qed.

(** X5. In the image-generation call the plugin issues, a configured
    count that is not positive is not sent at all (it does not fall back
    to the default of 1), and a configured size, quality, style or
    response format that is the empty string is not sent either; without
    a configuration bag the five defaults are sent. *)
Theorem image_params_edges (a : AzureAIFoundry) (modelName : string)
    (input : ai.ModelRequest) (p : openai.ImageGenerateParams) :
  issuedImageParams (generateImages a modelName input) = Some p ->
  (asConfigMap (ai.Config input) = None ->
     openai.Image_N p = Some 1 /\ openai.Image_Size p = Some "1024x1024" /\
     openai.Image_Quality p = Some "standard" /\
     openai.Image_Style p = Some "vivid" /\
     openai.Image_ResponseFormat p = Some "url") /\
  (forall configMap n,
     ai.Config input = AnyMap configMap -> configMap !! "n" = Some (AnyInt n) ->
     openai.Image_N p = if 0 <? n then Some n else None) /\
  (forall configMap s,
     ai.Config input = AnyMap configMap ->
     (configMap !! "size" = Some (AnyString s) ->
        openai.Image_Size p = if Strings.isEmpty s then None else Some s) /\
     (configMap !! "quality" = Some (AnyString s) ->
        openai.Image_Quality p = if Strings.isEmpty s then None else Some s) /\
     (configMap !! "style" = Some (AnyString s) ->
        openai.Image_Style p = if Strings.isEmpty s then None else Some s) /\
     (configMap !! "response_format" = Some (AnyString s) ->
        openai.Image_ResponseFormat p =
          if Strings.isEmpty s then None else Some s)).
Proof.
  intros Hissued. apply issuedImageParams_request in Hissued. cbn zeta in Hissued.
  rewrite imageRequest_closed_form in Hissued. cbn in Hissued. subst p.
  unfold configLookup. cbn.
  split_and!.
  - by intros ->.
  - intros configMap n -> Hn. cbn. by rewrite Hn.
  - intros configMap s ->. cbn. split_and!; by intros ->.
Qed.

(** X6. With an initialised plugin, a speech request issues exactly one
    vendor call, with the joined text of the messages as input. A vendor
    failure is wrapped as "speech generation failed". When the body fails
    to close, that failure is what is reported, even if reading failed
    too; a read failure is reported otherwise; and only when both succeed
    is the audio returned, as one text part holding its base64 encoding. *)
Theorem generateSpeech_outcome (a : AzureAIFoundry) (modelName : string)
    (input : ai.ModelRequest) :
  initted a = true ->
  exists p,
    (generateSpeech a modelName input).1 = [CallAudioSpeechNew p] /\
    openai.Speech_Input p = textOf (allParts (ai.Messages input)) /\
    openai.Speech_Model p = modelName /\
    (forall e, openai.Audio_Speech_New (client a) p = Err e ->
       (generateSpeech a modelName input).2 =
         Err (ErrWrap "speech generation failed" e)) /\
    (forall body, openai.Audio_Speech_New (client a) p = Ok body ->
       (forall closeErr, openai.Body_CloseErr body = Some closeErr ->
          (generateSpeech a modelName input).2 =
            Err (ErrWrap "failed to close response body" closeErr)) /\
       (forall readErr,
          openai.Body_CloseErr body = None ->
          openai.Body_ReadErr body = Some readErr ->
          (generateSpeech a modelName input).2 =
            Err (ErrWrap "failed to read audio data" readErr)) /\
       (openai.Body_CloseErr body = None -> openai.Body_ReadErr body = None ->
          (generateSpeech a modelName input).2 =
            Ok (textResponse
                  [ai.NewTextPart
                     (base64_EncodeToString (openai.Body_Bytes body))]))).
Proof.
  intros Hinit. unfold generateSpeech, generateSpeechInternal.
  rewrite Hinit. cbn [negb]. eexists. unfold bind, wrapErr, call, ret, throw.
  split_and!.
  - destruct (openai.Audio_Speech_New _ _) as [body|e]; [|done].
    by destruct (openai.Body_CloseErr body), (openai.Body_ReadErr body).
  - cbn [openai.Speech_Input]. unfold speechRequest.
    destruct (asConfigMap (ai.Config input)) as [configMap|]; unfold override;
      repeat match goal with
             | |- context [asFloat64 ?o] => destruct (asFloat64 o)
             | |- context [asString ?o] => destruct (asString o)
             end; cbn; by rewrite collectText_textOf.
  - reflexivity.
  - intros e He. by rewrite He.
  - intros body Hbody. rewrite Hbody. split_and!.
    + intros closeErr ->. by destruct (openai.Body_ReadErr body).
    + by intros readErr -> ->.
    + by intros -> ->.
Qed.

(** X7. The speech and transcription requests follow the configuration
    bag key by key like the image request: voice (default "alloy"),
    response_format (default "mp3") and speed (default 1.0, a float64) for
    speech; language and prompt (default empty), response_format (default
    "json") and temperature (default 0, a float64) for transcription. A
    value of another type, such as an integer speed, leaves the default in
    place. The audio bytes and the file name of a transcription request
    are never taken from the bag. *)
Theorem speech_transcription_overrides (input : ai.ModelRequest)
    (audioData : list byte) (filename : string) :
  let cfg := ai.Config input in
  let tts := speechRequest input in
  let stt := sttRequest audioData filename input in
  followsKey cfg "voice" stringOf "alloy" (TTS_Voice tts) /\
  followsKey cfg "response_format" stringOf "mp3" (TTS_ResponseFormat tts) /\
  followsKey cfg "speed" floatOf 1%float (TTS_Speed tts) /\
  followsKey cfg "language" stringOf "" (STT_Language stt) /\
  followsKey cfg "prompt" stringOf "" (STT_Prompt stt) /\
  followsKey cfg "response_format" stringOf "json" (STT_ResponseFormat stt) /\
  followsKey cfg "temperature" floatOf PrimFloat.zero (STT_Temperature stt) /\
  STT_Audio stt = audioData /\ STT_Filename stt = filename.
Proof.
  intros cfg tts stt. subst cfg tts stt. unfold speechRequest, sttRequest.
  repeat split_and;
    try (apply (override_follows _ _ _ asString)
         || apply (override_follows _ _ _ asFloat64));
    try reflexivity; try (intros []; reflexivity);
    destruct (asConfigMap (ai.Config input)) as [configMap|]; try reflexivity;
    unfold override;
    repeat match goal with
           | |- context [asFloat64 ?o] => destruct (asFloat64 o)
           | |- context [asString ?o] => destruct (asString o)
           end; reflexivity.
Qed.


(** ** Transcription input *)

Lemma string_app_cons (c : ascii) (s t : string) :
  String c s +:+ t = String c (s +:+ t).
Proof. reflexivity. Qed.

Lemma prefix_split (p s : string) :
  String.prefix p s = true -> s = p +:+ Strings.dropBytes (String.length p) s.
Proof.
  revert s. induction p as [|c p IH]; intros s Hp.
  - reflexivity.
  - destruct s as [|d s]; [done|]. cbn in Hp.
    destruct (ascii_dec c d) as [->|]; [|done].
    rewrite string_app_cons. cbn [String.length Strings.dropBytes].
    f_equal. by apply IH.
Qed.

Lemma Index_range (s substr : string) :
  Strings.Index s substr = -1 \/ 0 <= Strings.Index s substr.
Proof.
  induction s as [|c s IH]; cbn [Strings.Index].
  - destruct (String.prefix substr ""); lia.
  - destruct (String.prefix substr (String c s)); [lia|].
    destruct (Z.eqb_spec (Strings.Index s substr) (-1)); lia.
Qed.

Lemma Index_none (s substr : string) :
  Strings.Index s substr = -1 <-> Strings.Contains s substr = false.
Proof.
  induction s as [|c s IH].
  - rewrite Contains_nil. cbn [Strings.Index].
    destruct (String.prefix substr ""); cbn; split; (done || lia).
  - rewrite Contains_cons. cbn [Strings.Index].
    destruct (String.prefix substr (String c s)); cbn [orb]; [split; (done || lia)|].
    destruct (Z.eqb_spec (Strings.Index s substr) (-1)) as [Heq|Hne].
    + split; [intros _; by apply IH | done].
    + destruct (Index_range s substr); [done|].
      split; [lia | intros Hc; apply IH in Hc; done].
Qed.

Lemma Index_found (s substr : string) :
  0 <= Strings.Index s substr ->
  exists pre,
    Z.of_nat (String.length pre) = Strings.Index s substr /\
    s = pre +:+ substr +:+
        Strings.sliceFrom s
          (Strings.Index s substr + Z.of_nat (String.length substr)) /\
    forall j, (j < String.length pre)%nat ->
      String.prefix substr (Strings.dropBytes j s) = false.
Proof.
  induction s as [|c s IH]; cbn [Strings.Index].
  - destruct (String.prefix substr "") eqn:Hp; [|lia]. intros _. exists "".
    split_and!; [done| |cbn; lia].
    unfold Strings.sliceFrom. rewrite Z.add_0_l, Nat2Z.id.
    by apply prefix_split.
  - destruct (String.prefix substr (String c s)) eqn:Hp.
    + intros _. exists "". split_and!; [done| |cbn; lia].
      unfold Strings.sliceFrom. rewrite Z.add_0_l, Nat2Z.id.
      by apply prefix_split.
    + destruct (Z.eqb_spec (Strings.Index s substr) (-1)) as [Heq|Hne]; [lia|].
      intros _. destruct (Index_range s substr) as [|Hpos]; [done|].
      destruct (IH Hpos) as (pre & Hlen & Hs & Hfirst).
      exists (String c pre). split_and!.
      * cbn [String.length]. lia.
      * rewrite string_app_cons. f_equal.
        unfold Strings.sliceFrom in *.
        replace (Z.to_nat (Strings.Index s substr + 1 +
                           Z.of_nat (String.length substr)))
          with (S (Z.to_nat (Strings.Index s substr +
                             Z.of_nat (String.length substr)))) by lia.
        cbn [Strings.dropBytes]. exact Hs.
      * intros [|j] Hj; [exact Hp|].
        cbn [Strings.dropBytes]. apply Hfirst. cbn [String.length] in Hj. lia.
Qed.

(** X8. The text handed to the base64 decoder for a media part is exactly
    what follows the first occurrence of "base64," in the part's text: no
    occurrence starts earlier, and nothing of the text before the marker
    or of the marker itself is decoded. A media part has no payload
    precisely when its text does not contain the marker. *)
Theorem audio_payload_after_marker (part : ai.Part) :
  (forall b, audioPayload part = Some b ->
     exists pre,
       ai.Text part = pre +:+ "base64," +:+ b /\
       forall j, (j < String.length pre)%nat ->
         String.prefix "base64," (Strings.dropBytes j (ai.Text part)) = false) /\
  (ai.IsMedia part = true ->
     (audioPayload part = None <->
      Strings.Contains (ai.Text part) "base64," = false)).
Proof.
  unfold audioPayload. split.
  - intros b. destruct (ai.IsMedia part); [|done].
    destruct (Z.eqb_spec (Strings.Index (ai.Text part) "base64,") (-1))
      as [Heq|Hne]; [done|].
    intros [= <-].
    destruct (Index_range (ai.Text part) "base64,") as [|Hpos]; [done|].
    destruct (Index_found _ _ Hpos) as (pre & _ & Hsplit & Hfirst).
    exists pre. split; [exact Hsplit | exact Hfirst].
  - intros ->. rewrite <- Index_none.
    destruct (Z.eqb_spec (Strings.Index (ai.Text part) "base64,") (-1)); split;
      done.
Qed.


Lemma fold_left_flat_map {A B C : Type} (f : A -> B -> A) (g : C -> list B)
    (l : list C) (a : A) :
  fold_left f (flat_map g l) a = fold_left (fun a x => fold_left f (g x) a) l a.
Proof.
  revert a. induction l as [|x l IH]; intros a; [done|].
  cbn [flat_map fold_left]. by rewrite fold_left_app, IH.
Qed.

Lemma scanAudio_allParts (messages : list ai.Message) :
  scanAudio messages =
    fold_left scanAudioPart (allParts messages) (Ok ([], "")).
Proof. unfold scanAudio, allParts. by rewrite fold_left_flat_map. Qed.

Lemma scanAudioPart_payload (st : list byte * string) (part : ai.Part) :
  scanAudioPart (Ok st) part =
    match audioPayload part with
    | None => Ok st
    | Some b =>
        match base64_DecodeString b with
        | Err err => Err (ErrWrap "failed to decode audio" err)
        | Ok audioData => Ok (audioData, audioFilename (ai.Text part))
        end
    end.
Proof.
  unfold scanAudioPart, audioPayload. destruct st as [audioData filename].
  destruct (ai.IsMedia part); [|done].
  by destruct (Strings.Index (ai.Text part) "base64," =? -1).
Qed.

Lemma scanAudio_failed (parts : list ai.Part) (e : error) :
  fold_left scanAudioPart parts (Err e) = Err e.
Proof. induction parts as [|part parts IH]; [done|]. exact IH. Qed.

Lemma scanAudio_decodable (parts : list ai.Part) (st : list byte * string) :
  Forall decodable parts ->
  exists st', fold_left scanAudioPart parts (Ok st) = Ok st'.
Proof.
  intros Hall. revert st.
  induction Hall as [|part parts Hpart _ IH]; intros st; [by eexists|].
  cbn [fold_left]. rewrite scanAudioPart_payload.
  destruct (audioPayload part) as [b|] eqn:Hb; [|apply IH].
  specialize (Hpart b Hb).
  destruct (base64_DecodeString b); [apply IH | done].
Qed.

Lemma scanAudio_no_payload (parts : list ai.Part) (st : list byte * string) :
  Forall (fun part => audioPayload part = None) parts ->
  fold_left scanAudioPart parts (Ok st) = Ok st.
Proof.
  intros Hall. induction Hall as [|part parts Hpart _ IH]; [done|].
  cbn [fold_left]. by rewrite scanAudioPart_payload, Hpart.
Qed.

Lemma audioFilename_names (mediaText : string) :
  audioFilename mediaText = "audio.mp3" \/ audioFilename mediaText = "audio.wav" \/
  audioFilename mediaText = "audio.opus".
Proof.
  unfold audioFilename.
  destruct (_ || _); [by left|].
  destruct (Strings.Contains mediaText "audio/wav"); [by right; left|].
  destruct (Strings.Contains mediaText "audio/opus"); [by right; right | by left].
Qed.

Lemma sttRequest_audio (audioData : list byte) (filename : string)
    (input : ai.ModelRequest) :
  STT_Audio (sttRequest audioData filename input) = audioData /\
  STT_Filename (sttRequest audioData filename input) = filename.
Proof.
  unfold sttRequest.
  destruct (asConfigMap (ai.Config input)) as [configMap|]; [|done].
  unfold override.
  repeat match goal with
         | |- context [asFloat64 ?o] => destruct (asFloat64 o)
         | |- context [asString ?o] => destruct (asString o)
         end; done.
Qed.

(** X9. A media part whose payload does not decode makes the whole
    transcription request fail with "failed to decode audio", wrapping the
    decoder's error, and no vendor call is issued, provided the parts
    before it decode; whatever follows the part, audio included, is not
    looked at. *)
Theorem transcribe_decode_failure (a : AzureAIFoundry) (modelName : string)
    (input : ai.ModelRequest) (before after : list ai.Part) (part : ai.Part)
    (b : string) (e : error) :
  allParts (ai.Messages input) = before ++ part :: after ->
  Forall decodable before ->
  audioPayload part = Some b -> base64_DecodeString b = Err e ->
  transcribeAudioFromRequest a modelName input =
    ([], Err (ErrWrap "failed to decode audio" e)).
Proof.
  intros Hparts Hbefore Hpayload Hdecode.
  unfold transcribeAudioFromRequest.
  rewrite scanAudio_allParts, Hparts, fold_left_app. cbn [fold_left].
  destruct (scanAudio_decodable before ([], "") Hbefore) as [st ->].
  by rewrite scanAudioPart_payload, Hpayload, Hdecode, scanAudio_failed.
Qed.

(** X10. When every payload decodes, the audio transcribed is that of the
    last media part that has a payload; earlier audio is discarded. If its
    bytes are empty the request fails with "no audio data found" and no
    call; otherwise an initialised plugin issues exactly one transcription
    call for the requested model, uploading those bytes under a file name
    that is one of audio.mp3, audio.wav and audio.opus, chosen from the
    text of that part; a vendor failure is wrapped as "audio transcription
    failed", and on success the transcript is the single text part of the
    response. *)
Theorem transcribe_last_audio (a : AzureAIFoundry) (modelName : string)
    (input : ai.ModelRequest) (before after : list ai.Part) (part : ai.Part)
    (b : string) (data : list byte) :
  allParts (ai.Messages input) = before ++ part :: after ->
  Forall decodable before ->
  audioPayload part = Some b -> base64_DecodeString b = Ok data ->
  Forall (fun later => audioPayload later = None) after ->
  (data = [] ->
     transcribeAudioFromRequest a modelName input =
       ([], Err (Errorf "no audio data found in request"))) /\
  (data <> [] -> initted a = true ->
     exists p,
       issuedTranscription (transcribeAudioFromRequest a modelName input) = Some p /\
       openai.Transcription_Model p = modelName /\
       openai.Transcription_File p =
         mkFileReader data (audioFilename (ai.Text part)) /\
       (name (openai.Transcription_File p) = "audio.mp3" \/
        name (openai.Transcription_File p) = "audio.wav" \/
        name (openai.Transcription_File p) = "audio.opus") /\
       (forall err, openai.Audio_Transcriptions_New (client a) p = Err err ->
          (transcribeAudioFromRequest a modelName input).2 =
            Err (ErrWrap "audio transcription failed" err)) /\
       (forall r, openai.Audio_Transcriptions_New (client a) p = Ok r ->
          (transcribeAudioFromRequest a modelName input).2 =
            Ok (textResponse [ai.NewTextPart (openai.Transcription_Text r)]))).
Proof.
  intros Hparts Hbefore Hpayload Hdecode Hafter.
  assert (Hscan : scanAudio (ai.Messages input) =
                  Ok (data, audioFilename (ai.Text part))).
  { rewrite scanAudio_allParts, Hparts, fold_left_app. cbn [fold_left].
    destruct (scanAudio_decodable before ([], "") Hbefore) as [st ->].
    by rewrite scanAudioPart_payload, Hpayload, Hdecode, scanAudio_no_payload. }
  unfold transcribeAudioFromRequest. rewrite Hscan. split.
  - by intros ->.
  - intros Hdata Hinit. destruct data as [|byte data]; [done|].
    unfold issuedTranscription, transcribeAudioInternal.
    rewrite Hinit. cbn [negb].
    destruct (sttRequest_audio (byte :: data) (audioFilename (ai.Text part)) input)
      as [-> ->].
    assert (Hname : Strings.isEmpty (audioFilename (ai.Text part)) = false).
    { by destruct (audioFilename_names (ai.Text part)) as [-> | [-> | ->]]. }
    rewrite Hname. eexists. unfold bind, wrapErr, call, ret.
    split_and!.
    + by destruct (openai.Audio_Transcriptions_New _ _).
    + reflexivity.
    + reflexivity.
    + apply audioFilename_names.
    + intros err Herr. by rewrite Herr.
    + intros r Hr. by rewrite Hr.
Qed.

(** X11. Media parts that carry no "base64," marker, such as a plain URL
    to an audio file, are ignored by the transcription router: a request
    all of whose media parts are of that kind fails with "no audio data
    found in request" and issues no vendor call, although it does contain
    media. *)
Theorem transcribe_unmarked_media (a : AzureAIFoundry) (modelName : string)
    (input : ai.ModelRequest) :
  Forall (fun part =>
            ai.IsMedia part = true ->
            Strings.Contains (ai.Text part) "base64," = false)
         (allParts (ai.Messages input)) ->
  transcribeAudioFromRequest a modelName input =
    ([], Err (Errorf "no audio data found in request")).
Proof.
  intros Hall. unfold transcribeAudioFromRequest.
  rewrite scanAudio_allParts, scanAudio_no_payload; [done|].
  eapply Forall_impl; [exact Hall|]. intros part Hpart. cbn in Hpart.
  unfold audioPayload. destruct (ai.IsMedia part); [|done].
  apply Index_none in Hpart; [|done]. by rewrite Hpart.
Qed.


(** ** Model and tool messages *)

Lemma modelParts_split (content : list ai.Part) (text : string)
    (calls : list openai.ChatCompletionMessageFunctionToolCallParam) :
  fold_left appendModelPart content (text, calls) =
    (text +:+ textOf content, calls ++ flat_map toolCallOf content).
Proof.
  revert text calls. induction content as [|part content IH]; intros text calls.
  - cbn. by rewrite string_app_nil_r, app_nil_r.
  - cbn [fold_left flat_map]. rewrite textOf_cons.
    destruct part; cbn [appendModelPart ai.IsText ai.Text toolCallOf];
      try (rewrite IH; by rewrite ?string_app_assoc, ?app_nil_l).
    destruct (json_Marshal _); rewrite IH; by rewrite <- ?app_assoc.
Qed.

Lemma assistantFields_split (content : list ai.Part) :
  assistantFields content = (textOf content, flat_map toolCallOf content).
Proof. unfold assistantFields. by rewrite modelParts_split. Qed.

Lemma toolParts_messages (content : list ai.Part)
    (acc : list openai.ChatCompletionMessageParamUnion) :
  fold_left appendToolPart content acc = acc ++ flat_map toolMessageOf content.
Proof.
  revert acc. induction content as [|part content IH]; intros acc.
  - cbn. by rewrite app_nil_r.
  - cbn [fold_left flat_map]. rewrite IH.
    destruct part; cbn [appendToolPart toolMessageOf]; try done.
    destruct (json_Marshal _); by rewrite <- ?app_assoc.
Qed.

(** X12. The assistant message built from a model message with non-empty
    content carries the text of its text parts joined in order and one
    function call per tool request that encodes, in order. Nothing else
    matters: two model messages with the same text parts in the same order
    and the same tool requests in the same order translate alike, however
    text and requests are interleaved and whatever other parts they
    hold. *)
Theorem model_message_translation (content : list ai.Part) :
  content <> [] ->
  contribution (ai.mkMessage ai.RoleModel content) =
    [openai.OfAssistant (textOf content) (flat_map toolCallOf content)] /\
  forall content',
    content' <> [] ->
    filter (fun part => ai.IsText part = true) content' =
      filter (fun part => ai.IsText part = true) content ->
    filter (fun part => ai.IsToolRequest part = true) content' =
      filter (fun part => ai.IsToolRequest part = true) content ->
    contribution (ai.mkMessage ai.RoleModel content') =
      contribution (ai.mkMessage ai.RoleModel content).
Proof.
  intros Hne.
  assert (Hshape : forall c, c <> [] ->
            contribution (ai.mkMessage ai.RoleModel c) =
              [openai.OfAssistant (textOf c) (flat_map toolCallOf c)]).
  { intros c Hc. by rewrite contribution_model, assistantFields_split. }
  split; [by apply Hshape|].
  intros content' Hne' Htext Hreq. rewrite !Hshape by done.
  assert (Hcalls : forall c,
            flat_map toolCallOf c =
              flat_map toolCallOf
                (filter (fun part => ai.IsToolRequest part = true) c)).
  { induction c as [|part c IH]; [done|].
    rewrite filter_cons. destruct part; cbn [flat_map toolCallOf];
      (case_decide; [|try done]); cbn [flat_map toolCallOf app];
      try done; try (by rewrite IH). }
  unfold textOf. by rewrite Htext, (Hcalls content'), (Hcalls content), Hreq.
Qed.

(** X13. Call identifiers are made from tool names alone. Every function
    call of an assistant message has the id "call_" followed by its
    function name and the type "function", so two requests for the same
    tool in one turn get the same id; a tool request that encodes is sent
    under that id, and a tool response that encodes is sent as a tool
    message addressed to "call_" followed by the response's name, which is
    the id of the request of that name. *)
Theorem tool_call_identifiers :
  (forall content call,
     call ∈ (assistantFields content).2 ->
     openai.ToolCallParam_ID call = "call_" +:+ openai.ToolCallParam_Name call /\
     openai.ToolCallParam_Type call = "function") /\
  (forall content call1 call2,
     call1 ∈ (assistantFields content).2 ->
     call2 ∈ (assistantFields content).2 ->
     openai.ToolCallParam_Name call1 = openai.ToolCallParam_Name call2 ->
     openai.ToolCallParam_ID call1 = openai.ToolCallParam_ID call2) /\
  (forall content r argsJSON,
     ai.NewToolRequestPart r ∈ content ->
     json_Marshal (ai.ToolRequest_Input r) = Ok argsJSON ->
     openai.mkToolCallParam ("call_" +:+ ai.ToolRequest_Name r) "function"
       (ai.ToolRequest_Name r) argsJSON ∈ (assistantFields content).2) /\
  (forall content r outputJSON,
     ai.NewToolResponsePart r ∈ content ->
     json_Marshal (ai.ToolResponse_Output r) = Ok outputJSON ->
     openai.OfTool outputJSON ("call_" +:+ ai.ToolResponse_Name r)
       ∈ contribution (ai.mkMessage ai.RoleTool content)) /\
  (forall content,
     contribution (ai.mkMessage ai.RoleTool content) =
       flat_map toolMessageOf content).
Proof.
  assert (Hid : forall content call,
            call ∈ (assistantFields content).2 ->
            openai.ToolCallParam_ID call =
              "call_" +:+ openai.ToolCallParam_Name call /\
            openai.ToolCallParam_Type call = "function").
  { intros content call. rewrite assistantFields_split. cbn [snd].
    intros Hin. apply list_elem_of_In, in_flat_map in Hin as (part & _ & Hin).
    destruct part; cbn in Hin; try done.
    destruct (json_Marshal _); cbn in Hin; [|done].
    destruct Hin as [<-|[]]. done. }
  split_and!.
  - exact Hid.
  - intros content call1 call2 H1 H2 Hname.
    destruct (Hid _ _ H1) as [-> _], (Hid _ _ H2) as [-> _]. by rewrite Hname.
  - intros content r argsJSON Hin Hargs. rewrite assistantFields_split. cbn [snd].
    apply list_elem_of_In, in_flat_map. exists (ai.NewToolRequestPart r).
    split; [by apply list_elem_of_In|]. cbn. rewrite Hargs. by left.
  - intros content r outputJSON Hin Hout.
    rewrite contribution_tool, toolParts_messages, app_nil_l.
    apply list_elem_of_In, in_flat_map. exists (ai.NewToolResponsePart r).
    split; [by apply list_elem_of_In|]. cbn. rewrite Hout. by left.
  - intros content. by rewrite contribution_tool, toolParts_messages.
Qed.


(** ** Chat request builder *)

Lemma extractConfig_closed_form (input : ai.ModelRequest) :
  let cfg := ai.Config input in
  extractConfigFromRequest input =
    mkModelConfig (asInt (configLookup cfg "maxOutputTokens"))
                  (asFloat64 (configLookup cfg "temperature"))
                  (asFloat64 (configLookup cfg "topP"))
                  (default "" (asString (configLookup cfg "toolChoice"))).
Proof.
  intros cfg. subst cfg. unfold extractConfigFromRequest, configLookup, override.
  destruct (asConfigMap (ai.Config input)) as [configMap|]; [|reflexivity].
  repeat match goal with
         | |- context [asInt ?o] => destruct (asInt o)
         | |- context [asFloat64 ?o] => destruct (asFloat64 o)
         | |- context [asString ?o] => destruct (asString o)
         end; reflexivity.
Qed.

Lemma tools_translated (tools : list ai.ToolDefinition)
    (acc : list openai.FunctionDefinitionParam) :
  fold_left
    (fun tools tool =>
       tools ++
         [openai.mkFunctionDefinition (ai.ToolDefinition_Name tool)
            (optString (ai.ToolDefinition_Description tool))
            (ai.ToolDefinition_InputSchema tool)])
    tools acc = acc ++ map functionOf tools.
Proof.
  revert acc. induction tools as [|tool tools IH]; intros acc; cbn.
  - by rewrite app_nil_r.
  - rewrite IH. by rewrite <- app_assoc.
Qed.

Lemma toolChoiceParam_known (choice : string) :
  (knownToolChoice choice -> toolChoiceParam choice = Some choice) /\
  (~ knownToolChoice choice -> toolChoiceParam choice = None).
Proof.
  unfold knownToolChoice, toolChoiceParam.
  destruct (String.eqb_spec choice "auto") as [->|Hauto]; [by split; [|tauto]|].
  destruct (String.eqb_spec choice "required") as [->|Hreq];
    [split; [done | tauto]|].
  destruct (String.eqb_spec choice "none") as [->|Hnone]; [split; [done | tauto]|].
  split; [tauto | done].
Qed.

(** X14. The chat request names the requested model, carries the
    translated messages, and lists one function definition per declared
    tool, in order, with the tool's name and schema and with its
    description only when that is not empty. A tool-choice policy is sent
    only when at least one tool is declared and the bag maps "toolChoice"
    to one of the strings "auto", "required" and "none", which is then
    sent as given; with no tool declared the policy in the bag is dropped,
    and any other value leaves the vendor's default. *)
Theorem chat_params_tools (input : ai.ModelRequest) (modelName : string) :
  let p := buildChatCompletionParams input modelName in
  openai.Params_Model p = modelName /\
  openai.Params_Messages p = convertMessagesToOpenAI (ai.Messages input) /\
  openai.Params_Tools p = map functionOf (ai.Tools input) /\
  (ai.Tools input = [] -> openai.Params_ToolChoice p = None) /\
  (forall choice,
     ai.Tools input <> [] ->
     configLookup (ai.Config input) "toolChoice" = Some (AnyString choice) ->
     (knownToolChoice choice -> openai.Params_ToolChoice p = Some choice) /\
     (~ knownToolChoice choice -> openai.Params_ToolChoice p = None)) /\
  (asString (configLookup (ai.Config input) "toolChoice") = None ->
     openai.Params_ToolChoice p = None).
Proof.
  intros p. subst p. unfold buildChatCompletionParams.
  rewrite extractConfig_closed_form. cbn.
  destruct (ai.Tools input) as [|tool tools] eqn:Htools; cbn.
  - split_and!; try done.
  - rewrite (tools_translated tools [_]). cbn.
    split_and!; try done.
    + intros choice _ ->. cbn. apply toolChoiceParam_known.
    + by intros ->.
Qed.

(** X15. The scalar options of the chat request come from the bag by key
    and by Go type: the token limit is sent exactly when "maxOutputTokens"
    maps to an int, the temperature and top-p exactly when "temperature"
    and "topP" map to a float64. A value of another type is dropped
    without an error, so a token limit given as a float64 or a temperature
    given as an int never reaches the vendor, and a request without a bag
    sends none of the three. *)
Theorem chat_params_scalars (input : ai.ModelRequest) (modelName : string) :
  let p := buildChatCompletionParams input modelName in
  let cfg := ai.Config input in
  openai.Params_MaxTokens p = asInt (configLookup cfg "maxOutputTokens") /\
  openai.Params_Temperature p = asFloat64 (configLookup cfg "temperature") /\
  openai.Params_TopP p = asFloat64 (configLookup cfg "topP") /\
  (forall f, configLookup cfg "maxOutputTokens" = Some (AnyFloat64 f) ->
     openai.Params_MaxTokens p = None) /\
  (forall n, configLookup cfg "temperature" = Some (AnyInt n) ->
     openai.Params_Temperature p = None) /\
  (asConfigMap cfg = None ->
     openai.Params_MaxTokens p = None /\ openai.Params_Temperature p = None /\
     openai.Params_TopP p = None).
Proof.
  intros p cfg. subst p cfg. unfold buildChatCompletionParams.
  rewrite extractConfig_closed_form.
  destruct (ai.Tools input); cbn;
    (split_and!;
       [done | done | done | by intros f -> | by intros n ->
       | unfold configLookup; by intros ->]).
Qed.


(** ** Response converter *)

Lemma toolCalls_identified (calls : list openai.ChatCompletionMessageFunctionToolCall) :
  flat_map (appendToolCall []) calls =
    flat_map (appendToolCall []) (identified calls).
Proof.
  unfold identified. induction calls as [|call calls IH]; [done|].
  rewrite filter_cons. cbn [flat_map]. case_decide as Hid.
  - cbn [flat_map]. by rewrite IH.
  - rewrite IH. unfold appendToolCall at 1.
    destruct (openai.ToolCall_ID call); [done|]. by destruct Hid.
Qed.

(** X16. The non-streaming converter reads the first choice only: a
    completion without choices gives an empty model message with finish
    reason unknown and no usage record, and further choices, like the
    original request, change nothing. A tool call without an id is never
    converted, whether or not its arguments decode, so the content holds
    at most the text and one part per tool call that has an id. *)
Theorem convertResponse_choices :
  (forall resp originalInput,
     openai.Choices resp = [] ->
     convertResponse resp originalInput =
       ai.mkModelResponse (ai.mkMessage ai.RoleModel []) ai.FinishReasonUnknown None) /\
  (forall choice others usage originalInput otherInput,
     convertResponse (openai.mkChatCompletion (choice :: others) usage) originalInput =
       convertResponse (openai.mkChatCompletion [choice] usage) otherInput) /\
  (forall text calls reason others usage originalInput,
     let resp calls :=
       openai.mkChatCompletion
         (openai.mkChoice (openai.mkCompletionMessage text calls) reason :: others)
         usage in
     convertResponse (resp calls) originalInput =
       convertResponse (resp (identified calls)) originalInput /\
     (length (ai.Content (ai.Message_ (convertResponse (resp calls) originalInput)))
      <= 1 + length (identified calls))%nat).
Proof.
  split_and!.
  - intros resp originalInput Hnone. unfold convertResponse. by rewrite Hnone.
  - reflexivity.
  - intros text calls reason others usage originalInput resp. subst resp.
    unfold convertResponse. cbn.
    rewrite !(fold_left_appending appendToolCall appendToolCall_app).
    rewrite (toolCalls_identified calls). split; [done|].
    rewrite length_app.
    assert (Hcalls : (length (flat_map (appendToolCall []) (identified calls))
                      <= length (identified calls))%nat).
    { apply flat_map_length_le. intros call. unfold appendToolCall.
      destruct (negb _); [destruct (json_Unmarshal _)|]; cbn; lia. }
    destruct (negb (Strings.isEmpty text)); cbn; lia.
Qed.


(** ** Streamed text and the sink *)

Lemma deliveries_cons (chunk : openai.ChatCompletionChunk)
    (chunks : list openai.ChatCompletionChunk) :
  deliveries (chunk :: chunks) =
    map textChunk (filter nonEmpty (chunkText chunk)) ++ deliveries chunks.
Proof.
  unfold deliveries, streamTexts. cbn [flat_map].
  by rewrite filter_app, map_app.
Qed.

Lemma streamTexts_cons (chunk : openai.ChatCompletionChunk)
    (chunks : list openai.ChatCompletionChunk) :
  joined (streamTexts (chunk :: chunks)) =
    joined (chunkText chunk) +:+ joined (streamTexts chunks).
Proof. unfold streamTexts. cbn [flat_map]. by rewrite joined_app. Qed.

Lemma chunkText_empty (chunk : openai.ChatCompletionChunk)
    (choice : openai.ChatCompletionChunkChoice)
    (others : list openai.ChatCompletionChunkChoice) :
  openai.Chunk_Choices chunk = choice :: others ->
  Strings.isEmpty (openai.Delta_Content (openai.Delta choice)) = true ->
  joined (chunkText chunk) = "" /\ filter nonEmpty (chunkText chunk) = [].
Proof.
  intros Hchoices Hempty. unfold chunkText. rewrite Hchoices.
  apply isEmpty_true in Hempty. rewrite Hempty. split; [done|].
  rewrite filter_cons. by case_decide.
Qed.

Lemma chunkText_nonEmpty (chunk : openai.ChatCompletionChunk)
    (choice : openai.ChatCompletionChunkChoice)
    (others : list openai.ChatCompletionChunkChoice) :
  openai.Chunk_Choices chunk = choice :: others ->
  Strings.isEmpty (openai.Delta_Content (openai.Delta choice)) = false ->
  joined (chunkText chunk) = openai.Delta_Content (openai.Delta choice) /\
  filter nonEmpty (chunkText chunk) =
    [openai.Delta_Content (openai.Delta choice)].
Proof.
  intros Hchoices Hfull. unfold chunkText. rewrite Hchoices.
  apply isEmpty_false in Hfull. split.
  - cbn. by rewrite string_app_nil_r.
  - rewrite filter_cons. by case_decide.
Qed.

Lemma streamStep_text (cb : option Callback) (st st' : streamState)
    (chunk : openai.ChatCompletionChunk) :
  streamStep cb st chunk = Ok st' ->
  fullText st' = fullText st +:+ joined (chunkText chunk) /\
  delivered st' =
    delivered st ++
      match cb with
      | Some _ => map textChunk (filter nonEmpty (chunkText chunk))
      | None => []
      end.
Proof.
  unfold streamStep.
  destruct (openai.Chunk_Choices chunk) as [|choice others] eqn:Hchoices.
  - intros [= <-]. unfold chunkText. rewrite Hchoices. cbn.
    rewrite string_app_nil_r. by destruct cb; rewrite app_nil_r.
  - destruct (Strings.isEmpty (openai.Delta_Content (openai.Delta choice)))
      eqn:Hcontent; cbn [negb].
    + intros [= <-]. cbn.
      destruct (chunkText_empty _ _ _ Hchoices Hcontent) as [-> ->].
      rewrite string_app_nil_r. by destruct cb; rewrite app_nil_r.
    + destruct (chunkText_nonEmpty _ _ _ Hchoices Hcontent) as [-> ->].
      destruct cb as [sink|]; [destruct (sink _); [done|]|];
        intros [= <-]; cbn; by rewrite ?app_nil_r.
Qed.

Lemma streamLoop_text (cb : option Callback)
    (chunks : list openai.ChatCompletionChunk) (st st' : streamState) :
  streamLoop cb st chunks = Ok st' ->
  fullText st' = fullText st +:+ joined (streamTexts chunks) /\
  delivered st' =
    delivered st ++ match cb with Some _ => deliveries chunks | None => [] end.
Proof.
  revert st. induction chunks as [|chunk chunks IH]; intros st Hloop.
  - cbn in Hloop. injection Hloop as <-. cbn. rewrite string_app_nil_r.
    by destruct cb; rewrite app_nil_r.
  - cbn [streamLoop] in Hloop.
    destruct (streamStep cb st chunk) as [st1|e] eqn:Hstep; [|done].
    apply streamStep_text in Hstep as [Htext Hsent].
    apply IH in Hloop as [-> ->].
    rewrite Htext, Hsent, streamTexts_cons, deliveries_cons, string_app_assoc.
    split; [done|]. destruct cb; by rewrite <- ?app_assoc, ?app_nil_r.
Qed.

(** X17. While a stream is consumed, the text buffer is the text of the
    first choice of every chunk, joined in arrival order, and a supplied
    sink is handed one chunk per non-empty piece of text, holding that
    piece alone and not the text so far, in arrival order. A streaming
    call that succeeds returns the whole text as one leading text part,
    or none when the text is empty, followed by tool requests only. *)
Theorem streamed_text_and_deliveries :
  (forall cb chunks st,
     streamLoop cb (mkStreamState "" ∅ []) chunks = Ok st ->
     fullText st = joined (streamTexts chunks) /\
     delivered st = match cb with Some _ => deliveries chunks | None => [] end) /\
  (forall a params originalInput cb trace resp,
     generateTextStream a params originalInput cb = (trace, Ok resp) ->
     let text :=
       joined (streamTexts
                 (openai.Stream_Chunks
                    (openai.Chat_Completions_NewStreaming (client a) params))) in
     exists toolParts,
       ai.Content (ai.Message_ resp) =
         (if Strings.isEmpty text then [] else [ai.NewTextPart text]) ++ toolParts /\
       Forall (fun part => ai.IsToolRequest part = true) toolParts).
Proof.
  split.
  - intros cb chunks st Hloop. apply streamLoop_text in Hloop as [-> ->].
    by rewrite string_app_nil_l, app_nil_l.
  - intros a params originalInput cb trace resp.
    unfold generateTextStream, call, bind, throw, ret.
    destruct (streamLoop _ _ _) as [st|e] eqn:Hloop; [|intros [= _ ?]; done].
    destruct (openai.Stream_Err _); [intros [= _ ?]; done|].
    destruct (convertToolCallsToParts _) as [toolParts|e] eqn:Hparts;
      [|intros [= _ ?]; done].
    intros [= _ <-]. cbn.
    apply streamLoop_text in Hloop as [Htext _]. cbn in Htext.
    rewrite string_app_nil_l in Htext. rewrite Htext.
    exists toolParts. split; [by destruct (Strings.isEmpty _)|].
    unfold convertToolCallsToParts in Hparts.
    apply convertToolCallsLoop_names in Hparts as (added & -> & Hall & _).
    done.
Qed.

Lemma streamLoop_sink_failure (sink : Callback)
    (chunks : list openai.ChatCompletionChunk) (st : streamState) (e : error) :
  streamLoop (Some sink) st chunks = Err e ->
  exists n cause,
    (n < length (deliveries chunks))%nat /\
    sink (delivered st ++ take (S n) (deliveries chunks)) = Some cause /\
    (forall m, (m < n)%nat ->
       sink (delivered st ++ take (S m) (deliveries chunks)) = None) /\
    e = ErrWrap "streaming callback error" cause.
Proof.
  revert st. induction chunks as [|chunk chunks IH]; intros st Hloop; [done|].
  cbn [streamLoop] in Hloop. rewrite deliveries_cons.
  destruct (streamStep (Some sink) st chunk) as [st1|e1] eqn:Hstep.
  - pose proof (streamStep_text _ _ _ _ Hstep) as [_ Hsent].
    apply IH in Hloop as (n & cause & Hn & Hfail & Hearlier & ->).
    rewrite Hsent, <- app_assoc in Hfail.
    assert (Hone : (length (map textChunk (filter nonEmpty (chunkText chunk)))
                    <= 1)%nat).
    { unfold chunkText.
      destruct (openai.Chunk_Choices chunk) as [|choice others]; [cbn; lia|].
      rewrite filter_cons. case_decide; cbn; lia. }
    destruct (map textChunk (filter nonEmpty (chunkText chunk)))
      as [|d [|d' ds]] eqn:Hd; [| |cbn in Hone; lia].
    + exists n, cause. cbn [app]. split_and!; try done.
      intros m Hm. specialize (Hearlier m Hm).
      by rewrite Hsent, app_nil_r in Hearlier.
    + exists (S n), cause. cbn [app length take]. split_and!; try done.
      * lia.
      * intros [|m] Hm.
        -- cbn [take].
           unfold streamStep in Hstep.
           destruct (openai.Chunk_Choices chunk) as [|choice others] eqn:Hc;
             [unfold chunkText in Hd; rewrite Hc in Hd; done|].
           unfold chunkText in Hd. rewrite Hc in Hd.
           rewrite filter_cons in Hd. case_decide as Hne; [|done].
           injection Hd as <-.
           apply isEmpty_false in Hne. rewrite Hne in Hstep. cbn [negb] in Hstep.
           unfold textChunk. by destruct (sink _).
        -- assert (Hm' : (m < n)%nat) by lia. specialize (Hearlier m Hm').
           by rewrite Hsent, <- app_assoc in Hearlier.
  - injection Hloop as <-. unfold streamStep in Hstep.
    destruct (openai.Chunk_Choices chunk) as [|choice others] eqn:Hc; [done|].
    destruct (Strings.isEmpty (openai.Delta_Content (openai.Delta choice)))
      eqn:Hcontent; cbn [negb] in Hstep; [done|].
    destruct (chunkText_nonEmpty _ _ _ Hc Hcontent) as [_ ->].
    destruct (sink _) as [cause|] eqn:Hsink; [|done].
    injection Hstep as <-. exists 0%nat, cause. cbn [map app length take].
    split_and!; try done; [lia | intros m Hm; lia].
Qed.

Lemma streamLoop_no_sink (chunks : list openai.ChatCompletionChunk)
    (st : streamState) :
  exists st', streamLoop None st chunks = Ok st'.
Proof.
  revert st. induction chunks as [|chunk chunks IH]; intros st; [by eexists|].
  cbn [streamLoop]. unfold streamStep.
  destruct (openai.Chunk_Choices chunk) as [|choice others]; [apply IH|].
  destruct (negb _); apply IH.
Qed.

(** X18. A streaming call fails without a partial response in two ways
    besides undecodable tool arguments. The loop itself fails only through
    the sink: without a sink it always completes; with one, it hands over
    the deliveries one at a time and stops at the first one the sink
    rejects, returning the sink's error wrapped as "streaming callback
    error", so no later delivery is made. And when the loop completes but
    the stream reports an error, the call returns that error wrapped as
    "stream error", whatever text and tool calls had arrived. *)
Theorem streaming_failures :
  (forall chunks st, exists st', streamLoop None st chunks = Ok st') /\
  (forall sink chunks st e,
     streamLoop (Some sink) st chunks = Err e ->
     exists n cause,
       (n < length (deliveries chunks))%nat /\
       sink (delivered st ++ take (S n) (deliveries chunks)) = Some cause /\
       (forall m, (m < n)%nat ->
          sink (delivered st ++ take (S m) (deliveries chunks)) = None) /\
       e = ErrWrap "streaming callback error" cause) /\
  (forall a params originalInput cb,
     let stream := openai.Chat_Completions_NewStreaming (client a) params in
     (forall e,
        streamLoop cb (mkStreamState "" ∅ []) (openai.Stream_Chunks stream) = Err e ->
        (generateTextStream a params originalInput cb).2 = Err e) /\
     (forall st err,
        streamLoop cb (mkStreamState "" ∅ []) (openai.Stream_Chunks stream) = Ok st ->
        openai.Stream_Err stream = Some err ->
        (generateTextStream a params originalInput cb).2 =
          Err (ErrWrap "stream error" err))).
Proof.
  split_and!.
  - apply streamLoop_no_sink.
  - apply streamLoop_sink_failure.
  - intros a params originalInput cb stream. subst stream.
    unfold generateTextStream, call, bind, throw, ret. split.
    + by intros e ->.
    + by intros st err -> ->.
Qed.


(** ** Capabilities and exported model names *)

(** X19. Capability inference declares tool support exactly for the
    identifiers whose lower-cased form contains "gpt", and always declares
    multi-turn and system-role support, passing the media flag through.
    An identifier containing "gpt-image" is therefore declared
    tool-capable, yet [generateText] sends it to image generation; and the
    three modality routers never read the tools of a request, so for the
    models they serve the declared tool support has no effect. *)
Theorem capabilities_and_tools (modelName : string) (supportsMedia : bool) :
  let info := inferModelCapabilities modelName supportsMedia in
  Label info = modelName /\
  Multiturn (Supports info) = true /\ SystemRole (Supports info) = true /\
  Media (Supports info) = supportsMedia /\
  Tools_ (Supports info) = Strings.Contains (strings_ToLower modelName) "gpt" /\
  (Strings.Contains (strings_ToLower modelName) "gpt-image" = true ->
     Tools_ (Supports info) = true /\
     forall a input cb,
       generateText a modelName input cb = generateImages a modelName input) /\
  (forall a messages tools tools' config,
     let input := ai.mkModelRequest messages tools config in
     let input' := ai.mkModelRequest messages tools' config in
     generateImages a modelName input = generateImages a modelName input' /\
     generateSpeech a modelName input = generateSpeech a modelName input' /\
     transcribeAudioFromRequest a modelName input =
       transcribeAudioFromRequest a modelName input').
Proof.
  intros info. subst info. cbn. split_and!; try reflexivity.
  - intros Himage. split.
    + by apply (Contains_append_l _ "gpt" "-image").
    + intros a input cb. unfold generateText. rewrite Himage.
      by rewrite orb_true_r.
  - intros a messages tools tools' config. split_and!; reflexivity.
Qed.

(** X20. Every model name the plugin exports reaches the modality it is
    exported for, given that lower-casing leaves the name unchanged (the
    names are lower-case ASCII): the three image names go to image
    generation, the three text-to-speech names to speech synthesis, the
    four speech-to-text names to transcription, and the seven names
    [DefineCommonModels] registers go to chat completion and are inferred
    to support tools. *)
Theorem exported_names_route (a : AzureAIFoundry) (input : ai.ModelRequest)
    (cb : option Callback) (name : string) :
  strings_ToLower name = name ->
  (name ∈ imageModelNames ->
     generateText a name input cb = generateImages a name input) /\
  (name ∈ speechModelNames ->
     generateText a name input cb = generateSpeech a name input) /\
  (name ∈ transcriptionModelNames ->
     generateText a name input cb = transcribeAudioFromRequest a name input) /\
  (name ∈ commonModelNames ->
     generateText a name input cb =
       match cb with
       | Some _ =>
           generateTextStream a (buildChatCompletionParams input name) input cb
       | None => generateTextSync a (buildChatCompletionParams input name) input
       end /\
     forall supportsMedia,
       Tools_ (Supports (inferModelCapabilities name supportsMedia)) = true).
Proof.
  intros Hlower.
  unfold imageModelNames, speechModelNames, transcriptionModelNames,
    commonModelNames.
  split_and!; intros Hin;
    repeat (apply elem_of_cons in Hin as [-> | Hin]);
    try (by apply elem_of_nil in Hin);
    unfold generateText, inferModelCapabilities; rewrite Hlower;
    try reflexivity; (split; [reflexivity | intros; reflexivity]).
Qed.

(** ** Embeddings *)

Lemma embedLoop_success {float32 : Type} (toFloat32 : float -> float32)
    (Embeddings_New : EmbeddingNewParams -> result CreateEmbeddingResponse)
    (modelName : string) (docs : list Document)
    (embeddings vectors : list (list float32)) (calls : list EmbeddingNewParams) :
  embedLoop float32 toFloat32 Embeddings_New modelName docs embeddings =
    (calls, Ok vectors) ->
  calls = flat_map (embeddingCall modelName) docs /\
  vectors = embeddings ++
            flat_map (embeddingOf toFloat32 Embeddings_New modelName) docs.
Proof.
  revert embeddings calls.
  induction docs as [|doc docs IH]; intros embeddings calls Hloop.
  - cbn in Hloop. injection Hloop as <- <-. by rewrite app_nil_r.
  - cbn [embedLoop] in Hloop. cbn [flat_map].
    unfold embeddingCall at 1, embeddingOf at 1.
    destruct (Strings.isEmpty (documentText doc)); [by apply IH|].
    destruct (Embeddings_New _) as [resp|e]; [|done].
    destruct (embedLoop _ _ _ _ _ _) as [calls' r] eqn:Hrest.
    injection Hloop as <- ->. apply IH in Hrest as [-> ->].
    split; [done|]. destruct (Embedding_Data resp); by rewrite <- ?app_assoc.
Qed.

Lemma embedLoop_failure {float32 : Type} (toFloat32 : float -> float32)
    (Embeddings_New : EmbeddingNewParams -> result CreateEmbeddingResponse)
    (modelName : string) (before after : list Document) (doc : Document)
    (e : error) (embeddings : list (list float32)) :
  Forall (embeds Embeddings_New modelName) before ->
  documentText doc <> "" ->
  Embeddings_New (mkEmbeddingParams modelName (documentText doc)) = Err e ->
  embedLoop float32 toFloat32 Embeddings_New modelName (before ++ doc :: after)
            embeddings =
    (flat_map (embeddingCall modelName) before ++
       [mkEmbeddingParams modelName (documentText doc)],
     Err (ErrWrap ("embedding generation failed for model '" +:+ modelName +:+ "'")
                  e)).
Proof.
  intros Hbefore Hdoc Hfail. revert embeddings.
  induction Hbefore as [|d before Hd _ IH]; intros embeddings.
  - cbn [app embedLoop flat_map]. apply isEmpty_false in Hdoc.
    by rewrite Hdoc, Hfail.
  - cbn [app embedLoop flat_map]. unfold embeddingCall at 1.
    destruct Hd as [Hempty | Hok].
    + apply isEmpty_true in Hempty. rewrite Hempty. apply IH.
    + destruct (Strings.isEmpty (documentText d)); [apply IH|].
      destruct (Embeddings_New _) as [resp|]; [|done].
      by rewrite IH.
Qed.




(** ** Streaming success *)

Lemma convertToolCallsLoop_success (toolCalls : list toolCallAccumulator)
    (parts : list ai.Part) :
  Forall decodes toolCalls ->
  exists added,
    convertToolCallsLoop toolCalls parts = Ok (parts ++ added) /\
    forall acc, acc ∈ toolCalls -> acc_name acc <> "" ->
      exists args,
        ai.NewToolRequestPart (ai.mkToolRequest (acc_name acc) (AnyMap args))
          ∈ added /\
        inputOf acc args.
Proof.
  intros Hall. revert parts.
  induction Hall as [|toolCall toolCalls Hcall _ IH]; intros parts.
  - exists []. split; [by rewrite app_nil_r|]. intros acc Hin.
    by apply elem_of_nil in Hin.
  - cbn [convertToolCallsLoop].
    destruct (Strings.isEmpty (acc_name toolCall)) eqn:Hname.
    + destruct (IH parts) as (added & -> & Hadded). exists added.
      split; [done|]. intros acc Hin Hacc.
      apply elem_of_cons in Hin as [-> | Hin]; [|by apply Hadded].
      apply isEmpty_true in Hname. done.
    + apply isEmpty_false in Hname.
      assert (Hargs : exists args,
                (if negb (Strings.isEmpty (acc_arguments toolCall)) then
                   match json_Unmarshal (acc_arguments toolCall) with
                   | Err err =>
                       Err (ErrWrap ("failed to unmarshal tool arguments for '"
                                       +:+ acc_name toolCall +:+ "'") err)
                   | Ok args => Ok args
                   end
                 else Ok ∅) = Ok args /\ inputOf toolCall args).
      { unfold inputOf.
        destruct (Strings.isEmpty (acc_arguments toolCall)) eqn:Hempty; cbn [negb].
        - apply isEmpty_true in Hempty. exists ∅. by split_and!.
        - apply isEmpty_false in Hempty. specialize (Hcall Hname Hempty).
          destruct (json_Unmarshal (acc_arguments toolCall)) as [args|];
            [|done].
          exists args. by split_and!. }
      destruct Hargs as (args & -> & Hinput).
      destruct (IH (parts ++ [ai.NewToolRequestPart
                                (ai.mkToolRequest (acc_name toolCall) (AnyMap args))]))
        as (added & -> & Hadded).
      eexists (_ :: added). split; [by rewrite <- app_assoc|].
      intros acc Hin Hacc. apply elem_of_cons in Hin as [-> | Hin].
      * exists args. split; [apply list_elem_of_here | done].
      * destruct (Hadded acc Hin Hacc) as (args' & Hin' & Hinput').
        exists args'. split; [by apply list_elem_of_further | done].
Qed.

(** X23. A streaming call whose loop completes and whose stream reports
    no error succeeds as soon as every named accumulator with arguments
    decodes. Its response then holds a tool request for every named
    accumulator, with or without a call id: with the empty map as input
    when no argument fragment arrived, the decoder not being consulted,
    and with the decoded arguments otherwise. *)
Theorem streaming_success (a : AzureAIFoundry)
    (params : openai.ChatCompletionNewParams) (originalInput : ai.ModelRequest)
    (cb : option Callback) (st : streamState) :
  let stream := openai.Chat_Completions_NewStreaming (client a) params in
  let accumulators := accumulated (streamDeltas (openai.Stream_Chunks stream)) in
  streamLoop cb (mkStreamState "" ∅ []) (openai.Stream_Chunks stream) = Ok st ->
  openai.Stream_Err stream = None ->
  (forall idx acc, accumulators !! idx = Some acc -> decodes acc) ->
  exists resp,
    (generateTextStream a params originalInput cb).2 = Ok resp /\
    forall idx acc,
      accumulators !! idx = Some acc -> acc_name acc <> "" ->
      exists args,
        ai.NewToolRequestPart (ai.mkToolRequest (acc_name acc) (AnyMap args))
          ∈ ai.Content (ai.Message_ resp) /\
        inputOf acc args.
Proof.
  intros stream accumulators Hloop Hnone Hall. subst stream accumulators.
  unfold generateTextStream, call, bind, throw, ret.
  rewrite Hloop, Hnone.
  apply streamLoop_toolCalls in Hloop. cbn in Hloop.
  fold (accumulated
          (streamDeltas
             (openai.Stream_Chunks
                (openai.Chat_Completions_NewStreaming (client a) params))))
    in Hloop.
  rewrite Hloop. unfold convertToolCallsToParts.
  set (m := accumulated _) in *.
  assert (Hmember : forall acc, acc ∈ map snd (mapRange m) <->
                                exists idx, m !! idx = Some acc).
  { intros acc. rewrite list_elem_of_In, in_map_iff. split.
    - intros ([idx acc'] & <- & Hin). exists idx.
      apply list_elem_of_In in Hin. rewrite mapRange_perm in Hin.
      by apply elem_of_map_to_list.
    - intros [idx Hidx]. exists (idx, acc). split; [done|].
      apply list_elem_of_In. rewrite mapRange_perm.
      by apply elem_of_map_to_list. }
  destruct (convertToolCallsLoop_success (map snd (mapRange m)) [])
    as (added & -> & Hadded).
  { apply Forall_forall. intros acc Hin. apply Hmember in Hin as [idx Hidx].
    by apply (Hall idx). }
  eexists. split; [reflexivity|]. cbn.
  intros idx acc Hidx Hname.
  destruct (Hadded acc) as (args & Hin & Hinput); [apply Hmember; by exists idx | done |].
  exists args. split; [|done]. apply elem_of_app. by right.
Qed.


(** ** Initialisation and registration *)

(** X24. [Init] returns only for a plugin not yet initialised whose
    endpoint is not empty; the plugin is then initialised, with a client
    built from exactly two options, the endpoint with the configured API
    version ("2025-03-01-preview" when none is configured) and one way to
    authenticate: the API key when there is one, else the supplied
    credential, else the default credential. A second [Init] always
    panics, an empty endpoint panics before any credential is looked for,
    and [DefineModel] panics before [Init] and, after it, registers under
    the label "azureaifoundry-" followed by the deployment name a function
    that is [generateText] for that name, with inferred capabilities when
    none are supplied. *)
Theorem plugin_lifecycle (TokenCredential : Type)
    (NewClient : list (RequestOption TokenCredential) -> openai.Client)
    (NewDefaultAzureCredential : result TokenCredential)
    (errorText : error -> string) :
  let init := Init TokenCredential NewClient NewDefaultAzureCredential errorText in
  (forall s a a',
     init s a = Returns a' ->
     initted a = false /\ Endpoint _ s <> "" /\ initted a' = true /\
     exists auth,
       client a' = NewClient [WithEndpoint _ (Endpoint _ s) (effectiveVersion s); auth] /\
       (APIKey _ s <> "" -> auth = WithAPIKey _ (APIKey _ s)) /\
       (APIKey _ s = "" -> forall credential,
          Credential _ s = Some credential ->
          auth = WithTokenCredential _ credential) /\
       (APIKey _ s = "" -> Credential _ s = None ->
          exists cred,
            NewDefaultAzureCredential = Ok cred /\
            auth = WithTokenCredential _ cred)) /\
  (forall s s' a a', init s a = Returns a' -> exists msg, init s' a' = Panics msg) /\
  (forall s a,
     Endpoint _ s = "" ->
     init s a = Panics (if initted a then "azureaifoundry: Init already called"
                        else "azureaifoundry: Endpoint is required")) /\
  (forall a model info,
     initted a = false ->
     DefineModel a model info = Panics "azureaifoundry: Init not called") /\
  (forall s a a' model info,
     init s a = Returns a' ->
     exists meta fn,
       DefineModel a' model info = Returns (meta, fn) /\
       Options_Label meta = "azureaifoundry-" +:+ Name model /\
       (forall input cb, fn input cb = generateText a' (Name model) input cb) /\
       (info = None ->
          Options_Supports meta =
            Supports (inferModelCapabilities (Name model) (SupportsMedia model)))).
Proof.
  intros init. subst init.
  assert (Hinit : forall s a a',
            Init TokenCredential NewClient NewDefaultAzureCredential errorText s a
              = Returns a' ->
            initted a = false /\ Endpoint _ s <> "" /\ initted a' = true /\
            exists auth,
              client a' =
                NewClient [WithEndpoint _ (Endpoint _ s) (effectiveVersion s); auth] /\
              (APIKey _ s <> "" -> auth = WithAPIKey _ (APIKey _ s)) /\
              (APIKey _ s = "" -> forall credential,
                 Credential _ s = Some credential ->
                 auth = WithTokenCredential _ credential) /\
              (APIKey _ s = "" -> Credential _ s = None ->
                 exists cred,
                   NewDefaultAzureCredential = Ok cred /\
                   auth = WithTokenCredential _ cred)).
  { intros s a a'. unfold Init, effectiveVersion.
    destruct (initted a); [done|].
    destruct (Strings.isEmpty (Endpoint _ s)) eqn:Hendpoint; [done|].
    apply isEmpty_false in Hendpoint.
    destruct (Strings.isEmpty (APIKey _ s)) eqn:Hkey; cbn [negb].
    - apply isEmpty_true in Hkey.
      destruct (Credential _ s) as [credential|] eqn:Hcred.
      + intros [= <-]. split_and!; try done. eexists. cbn.
        split_and!; try done.
        intros _ c [= <-]. done.
      + destruct NewDefaultAzureCredential as [cred|err]; [|done].
        intros [= <-]. split_and!; try done. eexists. cbn.
        split_and!; try done. intros _ _. by eexists.
    - apply isEmpty_false in Hkey. intros [= <-]. split_and!; try done.
      eexists. cbn. split_and!; try done. }
  split_and!.
  - exact Hinit.
  - intros s s' a a' Hreturned. apply Hinit in Hreturned as (_ & _ & Htrue & _).
    unfold Init. rewrite Htrue. by eexists.
  - intros s a Hendpoint. unfold Init. rewrite Hendpoint. by destruct (initted a).
  - intros a model info Hnot. unfold DefineModel. by rewrite Hnot.
  - intros s a a' model info Hreturned.
    apply Hinit in Hreturned as (_ & _ & Htrue & _).
    unfold DefineModel. rewrite Htrue. cbn [negb]. eexists _, _.
    split_and!; try reflexivity. by intros ->.
Qed.


End Properties.

(** * The properties on concrete inputs

    Each statement below instantiates a theorem above at the inputs of
    [Example], run on [Example.exampleRuntime]. *)

Import Example.

(** A completion whose second tool call carries "not valid json" converts
    as if that call were absent; the garbled stream fails as a whole; a
    tool response that does not encode is skipped. *)
Lemma translation_failure_policy_witness :
  convertResponse (completion [searchCall; garbledCall] (openai.mkCompletionUsage 3 5 8))
                  (request [] AnyNil) =
    convertResponse (completion [searchCall] (openai.mkCompletionUsage 3 5 8))
                    (request [] AnyNil) /\
  (exists err,
     (generateTextStream (plugin garbledStream) params (request [] AnyNil) sink).2 =
       Err err) /\
  convertMessagesToOpenAI
    [ai.mkMessage ai.RoleTool
       [ai.NewToolResponsePart searchResponse; ai.NewToolResponsePart brokenResponse]] =
    convertMessagesToOpenAI
      [ai.mkMessage ai.RoleTool [ai.NewToolResponsePart searchResponse]].
Proof.
  destruct (@translation_failure_policy exampleRuntime)
    as (Hskip & _ & Hfatal & _ & Htool).
  split; [|split].
  - apply (Hskip "Let me check." [searchCall] garbledCall [] "tool_calls" []
             (openai.mkCompletionUsage 3 5 8) (request [] AnyNil)
             (ErrExternal "invalid character looking for beginning of value")).
    reflexivity.
  - apply (Hfatal (plugin garbledStream) params (request [] AnyNil) sink 0
             (mkAccumulator "call_x" "lookup" "not valid json")
             (ErrExternal "invalid character looking for beginning of value")).
    + vm_compute. reflexivity.
    + simpl. discriminate.
    + simpl. discriminate.
    + reflexivity.
  - apply (Htool [] [] [ai.NewToolResponsePart searchResponse] [] brokenResponse
             (ErrExternal "json: unsupported type: chan int")).
    reflexivity.
Defined.

(** The call split over three chunks: id and name of the first chunk, the
    three fragments joined. *)
Lemma tool_call_accumulation_witness :
  exists acc,
    accumulated (streamDeltas (openai.Stream_Chunks queryStream)) !! 0 = Some acc /\
    acc_id acc = "call_abc" /\ acc_name acc = "search" /\
    acc_arguments acc = queryJSON.
Proof.
  destruct (@tool_call_accumulation exampleRuntime) as (_ & Hacc & _).
  destruct (Hacc (streamDeltas (openai.Stream_Chunks queryStream)) 0) as [_ Hsome].
  destruct (Hsome delta1 [delta2; delta3]) as (acc & Hlookup & Hid & Hname & Hargs).
  - vm_compute. reflexivity.
  - exists acc. split; [exact Hlookup|]. split; [exact Hid|].
    split; [exact Hname | exact Hargs].
Defined.



(** An empty message and a tool message whose only response does not
    encode contribute nothing; a model message holding only a picture
    still contributes one vendor message. *)
Lemma message_contributions_witness :
  contribution (ai.mkMessage ai.RoleUser []) = [] /\
  contribution (ai.mkMessage ai.RoleTool [ai.NewToolResponsePart brokenResponse]) = [] /\
  length (contribution pictureAnswer) = 1%nat.
Proof.
  destruct (@message_contributions exampleRuntime) as [_ Hmsg].
  split; [|split].
  - destruct (Hmsg (ai.mkMessage ai.RoleUser [])) as (Hempty & _).
    apply Hempty. reflexivity.
  - destruct (Hmsg (ai.mkMessage ai.RoleTool [ai.NewToolResponsePart brokenResponse]))
      as (_ & _ & Htool & _).
    destruct Htool as [_ Homitted]; [reflexivity|].
    apply Homitted. vm_compute. reflexivity.
  - destruct (Hmsg pictureAnswer) as (_ & _ & _ & Hone).
    apply Hone; [simpl; discriminate | right; right; reflexivity].
Defined.

(** The model branch keeps nothing of a picture, nor of a tool request
    that does not encode, and still emits an assistant message with empty
    text for each. *)
Lemma kept_nothing_counterexample :
  ~ omittedWhenNothingKept pictureAnswer /\ ~ omittedWhenNothingKept brokenTurn.
Proof.
  split; intros Homitted.
  - assert (Hnone : keptParts pictureAnswer = []) by (vm_compute; reflexivity).
    specialize (Homitted Hnone). vm_compute in Homitted. discriminate Homitted.
  - assert (Hnone : keptParts brokenTurn = []) by (vm_compute; reflexivity).
    specialize (Homitted Hnone). vm_compute in Homitted. discriminate Homitted.
Qed.

(** One identifier per route. *)
Lemma generateText_routing_witness :
  let a := plugin textStream in
  let input := request [question] AnyNil in
  generateText a "DALL-E-3" input None = generateImages a "DALL-E-3" input /\
  generateText a "gpt-4o-mini-TTS" input None =
    generateSpeech a "gpt-4o-mini-TTS" input /\
  generateText a "Whisper-1" input None =
    transcribeAudioFromRequest a "Whisper-1" input /\
  generateText a "gpt-4o" input sink =
    generateTextStream a (buildChatCompletionParams input "gpt-4o") input sink.
Proof.
  intros a input. split; [|split; [|split]].
  - destruct (generateText_routing a "DALL-E-3" input None) as (Himage & _).
    apply Himage. left. vm_compute. reflexivity.
  - destruct (generateText_routing a "gpt-4o-mini-TTS" input None)
      as (_ & Hspeech & _).
    apply Hspeech; vm_compute; reflexivity.
  - destruct (generateText_routing a "Whisper-1" input None)
      as (_ & _ & Htranscribe & _).
    apply Htranscribe; try (vm_compute; reflexivity).
    left. vm_compute. reflexivity.
  - destruct (generateText_routing a "gpt-4o" input sink) as (_ & _ & _ & Hchat).
    apply Hchat; vm_compute; reflexivity.
Defined.

(** A reason outside the table. *)
Lemma convertFinishReason_table_witness :
  convertFinishReason "max_tokens" = ai.FinishReasonOther.
Proof.
  destruct convertFinishReason_table as (_ & _ & _ & _ & _ & Hother).
  apply Hother; discriminate.
Defined.

(** A text-only transcription request. *)
Lemma transcribe_without_media_witness :
  transcribeAudioFromRequest (plugin textStream) "whisper-1"
                             (request [question] AnyNil) =
    ([], Err (Errorf "no audio data found in request")).
Proof.
  apply transcribe_without_media.
  intros msg part Hmsg Hpart. simpl in Hmsg.
  apply list_elem_of_singleton in Hmsg. subst msg. simpl in Hpart.
  apply list_elem_of_singleton in Hpart. subst part. reflexivity.
Defined.

(** Quality absent, "hd", and 42. *)
Lemma imageRequest_overrides_witness :
  Image_Quality (imageRequest (request [question] (AnyMap ∅))) = "standard" /\
  Image_Quality
    (imageRequest (request [question] (AnyMap {[ "quality" := AnyString "hd" ]}))) =
    "hd" /\
  Image_Quality
    (imageRequest (request [question] (AnyMap {[ "quality" := AnyInt 42 ]}))) =
    "standard".
Proof.
  split; [|split].
  - destruct (imageRequest_overrides (request [question] (AnyMap ∅)))
      as ((_ & Habsent & _) & _).
    apply (Habsent ∅); [reflexivity | vm_compute; reflexivity].
  - destruct (imageRequest_overrides
                (request [question] (AnyMap {[ "quality" := AnyString "hd" ]})))
      as ((_ & _ & Htyped & _) & _).
    apply (Htyped {[ "quality" := AnyString "hd" ]} (AnyString "hd"));
      [reflexivity | vm_compute; reflexivity | reflexivity].
  - destruct (imageRequest_overrides
                (request [question] (AnyMap {[ "quality" := AnyInt 42 ]})))
      as ((_ & _ & _ & Hwrong) & _).
    apply (Hwrong {[ "quality" := AnyInt 42 ]} (AnyInt 42));
      [reflexivity | vm_compute; reflexivity | reflexivity].
Defined.

(** No prompt tokens reported, seven completion tokens: all counters zero. *)
Lemma convertResponse_usage_witness :
  ai.Usage (convertResponse (completion [] (openai.mkCompletionUsage 0 7 7))
                            (request [] AnyNil)) =
    Some (ai.mkUsage 0 0 0).
Proof.
  destruct (convertResponse_usage (completion [] (openai.mkCompletionUsage 0 7 7))
                                  (request [] AnyNil)) as [Hzero _].
  destruct Hzero as [_ Hrecord]; [simpl; lia|].
  apply Hrecord. simpl. discriminate.
Defined.

(** A stream that ends with "length" and reports usage: the response says
    stop and carries no usage. *)
Lemma streaming_finish_and_usage_witness :
  exists trace resp,
    generateTextStream (plugin textStream) params (request [] AnyNil) sink =
      (trace, Ok resp) /\
    ai.Content (ai.Message_ resp) = [ai.NewTextPart "Hello"] /\
    ai.FinishReason_ resp = ai.FinishReasonStop /\ ai.Usage resp = None.
Proof.
  destruct (@streaming_finish_and_usage exampleRuntime) as [Hshape _].
  exists [CallChatCompletionsNewStreaming params],
    (ai.mkModelResponse (ai.mkMessage ai.RoleModel [ai.NewTextPart "Hello"])
                        ai.FinishReasonStop None).
  split; [vm_compute; reflexivity|].
  split; [reflexivity|].
  apply (Hshape (plugin textStream) params (request [] AnyNil) sink
                [CallChatCompletionsNewStreaming params]).
  vm_compute. reflexivity.
Defined.

(** * The further properties on concrete inputs *)

(** A message holding only a picture adds no prompt text. *)
Lemma collectText_joined_witness :
  collectText [question; pictureAnswer] = "What is in this picture?" /\
  collectText [pictureAnswer] = "".
Proof.
  destruct collectText_joined as (_ & Happ & Hnone).
  assert (Hpicture : collectText [pictureAnswer] = "").
  { apply Hnone. unfold allParts. cbn. repeat constructor. }
  split; [|exact Hpicture].
  change [question; pictureAnswer] with ([question] ++ [pictureAnswer]).
  rewrite (Happ [question] [pictureAnswer]), Hpicture. reflexivity.
Defined.

(** An image request to an initialised plugin. *)
Lemma generateImages_outcome_witness :
  exists p,
    (generateImages (plugin textStream) "dall-e-3" (request [question] AnyNil)).1 =
      [CallImagesGenerate p] /\
    openai.Image_Model p = "dall-e-3" /\
    (generateImages (plugin textStream) "dall-e-3" (request [question] AnyNil)).2 =
      Ok (textResponse [ai.NewTextPart "https://images.example/cat.png"]).
Proof.
  destruct (generateImages_outcome (plugin textStream) "dall-e-3"
              (request [question] AnyNil))
    as (p & Hcall & _ & Hmodel & _ & Hok); [reflexivity|].
  exists p. split; [exact Hcall|]. split; [exact Hmodel|].
  destruct (Hok (openai.mkImagesResponse
                   [openai.mkImage "https://images.example/cat.png" "" ""]))
    as [Hresult _]; [reflexivity|].
  exact Hresult.
Defined.

(** The same request to a plugin that was never initialised. *)
Lemma uninitialised_routers_witness :
  generateImages offline "dall-e-3" (request [question] AnyNil) =
    ([], Err notInitializedError).
Proof.
  destruct (uninitialised_routers offline "dall-e-3" (request [question] AnyNil))
    as (Himages & _); [reflexivity|].
  exact Himages.
Defined.

(** A count of zero: no count is sent. *)
Lemma image_params_edges_witness :
  exists p,
    issuedImageParams
      (generateImages (plugin textStream) "dall-e-3" (request [question] zeroImages)) =
      Some p /\
    openai.Image_N p = None.
Proof.
  assert (Hissued :
    issuedImageParams
      (generateImages (plugin textStream) "dall-e-3" (request [question] zeroImages)) =
    Some (openai.mkImageParams "What is in this picture?" "dall-e-3" None
            (Some "1024x1024") (Some "standard") (Some "vivid") (Some "url")))
    by (vm_compute; reflexivity).
  eexists. split; [exact Hissued|].
  destruct (image_params_edges _ _ _ _ Hissued) as (_ & Hn & _).
  apply (Hn {[ "n" := AnyInt 0 ]} 0); [reflexivity | vm_compute; reflexivity].
Defined.

(** Speech for an initialised plugin: the audio comes back in base64. *)
Lemma generateSpeech_outcome_witness :
  (generateSpeech (plugin textStream) "tts-1" (request [question] AnyNil)).2 =
    Ok (textResponse [ai.NewTextPart "UklGRg=="]).
Proof.
  destruct (generateSpeech_outcome (plugin textStream) "tts-1"
              (request [question] AnyNil))
    as (p & _ & _ & _ & _ & Hbody); [reflexivity|].
  destruct (Hbody (openai.mkBody [x52; x49; x46; x46] None None))
    as (_ & _ & Hok); [reflexivity|].
  apply Hok; reflexivity.
Defined.

(** A speed given as an int leaves the default speed. *)
Lemma speech_transcription_overrides_witness :
  TTS_Speed (speechRequest (request [question] (AnyMap {[ "speed" := AnyInt 2 ]}))) =
    1%float.
Proof.
  destruct (speech_transcription_overrides
              (request [question] (AnyMap {[ "speed" := AnyInt 2 ]})) [] "")
    as (_ & _ & (_ & _ & _ & Hwrong) & _).
  apply (Hwrong {[ "speed" := AnyInt 2 ]} (AnyInt 2));
    [reflexivity | vm_compute; reflexivity | reflexivity].
Defined.

(** The payload of a data URI. *)
Lemma audio_payload_after_marker_witness :
  exists pre, ai.Text wavClip = pre +:+ "base64," +:+ "UklGRg==".
Proof.
  destruct (audio_payload_after_marker wavClip) as [Hpayload _].
  destruct (Hpayload "UklGRg==") as (pre & Hsplit & _);
    [vm_compute; reflexivity|].
  exists pre. exact Hsplit.
Defined.

(** A clip that does not decode, between two that do. *)
Lemma transcribe_decode_failure_witness :
  transcribeAudioFromRequest (plugin textStream) "whisper-1"
                             (clips [wavClip; brokenClip; oldClip]) =
    ([], Err (ErrWrap "failed to decode audio" (ErrExternal "illegal base64 data"))).
Proof.
  apply (transcribe_decode_failure (plugin textStream) "whisper-1"
           (clips [wavClip; brokenClip; oldClip]) [wavClip] [oldClip] brokenClip "@@@").
  - reflexivity.
  - constructor; [|constructor]. intros b Hb. vm_compute in Hb.
    injection Hb as <-. vm_compute. reflexivity.
  - vm_compute. reflexivity.
  - vm_compute. reflexivity.
Defined.

(** Two clips and a link: the second clip is the one transcribed. *)
Lemma transcribe_last_audio_witness :
  exists p,
    issuedTranscription
      (transcribeAudioFromRequest (plugin textStream) "whisper-1"
                                  (clips [oldClip; wavClip; linkedClip])) = Some p /\
    openai.Transcription_File p = mkFileReader [x52; x49; x46; x46] "audio.wav".
Proof.
  destruct (transcribe_last_audio (plugin textStream) "whisper-1"
              (clips [oldClip; wavClip; linkedClip]) [oldClip] [linkedClip] wavClip
              "UklGRg==" [x52; x49; x46; x46]) as [_ Hcall].
  - reflexivity.
  - constructor; [|constructor]. intros b Hb. vm_compute in Hb.
    injection Hb as <-. vm_compute. reflexivity.
  - vm_compute. reflexivity.
  - vm_compute. reflexivity.
  - constructor; [|constructor]. vm_compute. reflexivity.
  - destruct Hcall as (p & Hissued & _ & Hfile & _); [discriminate | reflexivity|].
    exists p. split; [exact Hissued | exact Hfile].
Defined.

(** A link to an audio file is not audio. *)
Lemma transcribe_unmarked_media_witness :
  transcribeAudioFromRequest (plugin textStream) "whisper-1"
                             (clips [linkedClip; ai.NewTextPart "Transcribe this."]) =
    ([], Err (Errorf "no audio data found in request")).
Proof.
  apply transcribe_unmarked_media. unfold allParts. cbn.
  constructor; [|constructor; [|constructor]].
  - intros _. vm_compute. reflexivity.
  - intros Hmedia. discriminate Hmedia.
Defined.

(** Text around a tool request: one text, one call. *)
Lemma model_message_translation_witness :
  exists argsJSON,
    contribution (ai.mkMessage ai.RoleModel searchTurn) =
      [openai.OfAssistant "Let me check."
         [openai.mkToolCallParam "call_search" "function" "search" argsJSON]].
Proof.
  destruct (model_message_translation searchTurn) as [Hshape _];
    [discriminate|].
  eexists. rewrite Hshape. vm_compute. reflexivity.
Defined.

(** A tool response is addressed to the call of its name. *)
Lemma tool_call_identifiers_witness :
  openai.OfTool (quote +:+ "sunny" +:+ quote) "call_search"
    ∈ contribution (ai.mkMessage ai.RoleTool [ai.NewToolResponsePart searchResponse]).
Proof.
  destruct tool_call_identifiers as (_ & _ & _ & Hresponse & _).
  apply (Hresponse [ai.NewToolResponsePart searchResponse] searchResponse).
  - apply list_elem_of_here.
  - reflexivity.
Defined.

(** With or without a sink, a chat request is one vendor call. *)
Lemma generateText_one_call_witness :
  (generateTextStream (plugin textStream) params (request [question] AnyNil) sink).1 =
    [CallChatCompletionsNewStreaming params].
Proof.
  destruct (generateText_one_call (plugin textStream) "gpt-4o"
              (request [question] AnyNil) sink) as [_ Hcalls].
  destruct (Hcalls params) as [_ Hstream]. exact Hstream.
Defined.

(** A known tool choice is passed on, an unknown one is not. *)
Lemma chat_params_tools_witness :
  openai.Params_ToolChoice
    (buildChatCompletionParams
       (toolRequest [searchTool] (AnyMap {[ "toolChoice" := AnyString "required" ]}))
       "gpt-4o") = Some "required" /\
  openai.Params_ToolChoice
    (buildChatCompletionParams
       (toolRequest [searchTool] (AnyMap {[ "toolChoice" := AnyString "always" ]}))
       "gpt-4o") = None.
Proof.
  split.
  - pose proof (chat_params_tools
                  (toolRequest [searchTool]
                     (AnyMap {[ "toolChoice" := AnyString "required" ]})) "gpt-4o")
      as Hparams.
    cbv zeta in Hparams. destruct Hparams as (_ & _ & _ & _ & Hchoice & _).
    destruct (Hchoice "required") as [Hknown _];
      [discriminate | vm_compute; reflexivity|].
    apply Hknown. right. left. reflexivity.
  - pose proof (chat_params_tools
                  (toolRequest [searchTool]
                     (AnyMap {[ "toolChoice" := AnyString "always" ]})) "gpt-4o")
      as Hparams.
    cbv zeta in Hparams. destruct Hparams as (_ & _ & _ & _ & Hchoice & _).
    destruct (Hchoice "always") as [_ Hunknown];
      [discriminate | vm_compute; reflexivity|].
    apply Hunknown. intros [Hchosen | [Hchosen | Hchosen]]; discriminate Hchosen.
Defined.

(** A token limit given as a float is not passed on. *)
Lemma chat_params_scalars_witness :
  openai.Params_MaxTokens
    (buildChatCompletionParams
       (request [question] (AnyMap {[ "maxOutputTokens" := AnyFloat64 0.5%float ]}))
       "gpt-4o") = None.
Proof.
  pose proof (chat_params_scalars
                (request [question]
                   (AnyMap {[ "maxOutputTokens" := AnyFloat64 0.5%float ]})) "gpt-4o")
    as Hparams.
  cbv zeta in Hparams. destruct Hparams as (_ & _ & _ & Hfloat & _).
  apply (Hfloat 0.5%float). vm_compute. reflexivity.
Defined.

(** A tool call without an id is as good as none. *)
Lemma convertResponse_choices_witness :
  convertResponse
    (completion [openai.mkToolCall "" "search" "{}"] (openai.mkCompletionUsage 3 5 8))
    (request [question] AnyNil) =
  convertResponse (completion [] (openai.mkCompletionUsage 3 5 8))
                  (request [question] AnyNil).
Proof.
  destruct convertResponse_choices as (_ & _ & Hcalls).
  pose proof (Hcalls "Let me check." [openai.mkToolCall "" "search" "{}"] "tool_calls"
                [] (openai.mkCompletionUsage 3 5 8) (request [question] AnyNil))
    as Hdropped.
  cbv zeta in Hdropped. destruct Hdropped as [Hsame _]. exact Hsame.
Defined.

(** The two chunks of the text stream, as the sink receives them. *)
Lemma streamed_text_and_deliveries_witness :
  exists st,
    streamLoop sink (mkStreamState "" ∅ []) (openai.Stream_Chunks textStream) = Ok st /\
    fullText st = "Hello" /\
    delivered st = [textChunk "Hel"; textChunk "lo"].
Proof.
  destruct streamed_text_and_deliveries as [Hloop _].
  destruct (streamLoop sink (mkStreamState "" ∅ []) (openai.Stream_Chunks textStream))
    as [st | e] eqn:Hst; [|vm_compute in Hst; discriminate Hst].
  exists st. split; [reflexivity|].
  destruct (Hloop sink (openai.Stream_Chunks textStream) st Hst) as [Htext Hsent].
  rewrite Htext, Hsent. split; vm_compute; reflexivity.
Defined.

(** A sink that gives up, and a stream that breaks. *)
Lemma streaming_failures_witness :
  (generateTextStream (plugin textStream) params (request [question] AnyNil)
                      (Some impatient)).2 =
    Err (ErrWrap "streaming callback error" (ErrExternal "enough")) /\
  (generateTextStream (plugin failingStream) params (request [question] AnyNil) sink).2 =
    Err (ErrWrap "stream error" (ErrExternal "connection reset")).
Proof.
  destruct streaming_failures as (_ & _ & Hgenerate). split.
  - pose proof (Hgenerate (plugin textStream) params (request [question] AnyNil)
                  (Some impatient)) as Hrun.
    cbv zeta in Hrun. destruct Hrun as [Hsink _].
    apply Hsink. vm_compute. reflexivity.
  - pose proof (Hgenerate (plugin failingStream) params (request [question] AnyNil)
                  sink) as Hrun.
    cbv zeta in Hrun. destruct Hrun as [_ Hstream].
    destruct (streamLoop sink (mkStreamState "" ∅ [])
                (openai.Stream_Chunks failingStream))
      as [st | e] eqn:Hst; [|vm_compute in Hst; discriminate Hst].
    apply (Hstream st); [exact Hst | reflexivity].
Defined.

(** An image model of the gpt family is declared with tool support and
    routed to image generation. *)
Lemma capabilities_and_tools_witness :
  Tools_ (Supports (inferModelCapabilities "gpt-image-1" false)) = true /\
  generateText (plugin textStream) "gpt-image-1" (request [question] AnyNil) sink =
    generateImages (plugin textStream) "gpt-image-1" (request [question] AnyNil).
Proof.
  pose proof (capabilities_and_tools "gpt-image-1" false) as Hinfo.
  cbv zeta in Hinfo. destruct Hinfo as (_ & _ & _ & _ & _ & Himage & _).
  destruct Himage as [Htools Hroute]; [vm_compute; reflexivity|].
  split; [exact Htools | apply Hroute].
Defined.

(** The exported transcription name reaches the transcription path. *)
Lemma exported_names_route_witness :
  generateText (plugin textStream) ModelWhisper1 (clips [wavClip]) sink =
    transcribeAudioFromRequest (plugin textStream) ModelWhisper1 (clips [wavClip]).
Proof.
  destruct (exported_names_route (plugin textStream) (clips [wavClip]) sink
              ModelWhisper1) as (_ & _ & Htranscribe & _);
    [vm_compute; reflexivity|].
  apply Htranscribe. apply list_elem_of_here.
Defined.



(** A call streamed without arguments becomes a request with an empty input. *)
Lemma streaming_success_witness :
  exists resp,
    (generateTextStream (plugin bareStream) params (request [question] AnyNil) None).2 =
      Ok resp /\
    ai.NewToolRequestPart (ai.mkToolRequest "ping" (AnyMap ∅))
      ∈ ai.Content (ai.Message_ resp).
Proof.
  assert (Hmap : accumulated (streamDeltas (openai.Stream_Chunks bareStream)) =
                 {[ 1 := mkAccumulator "" "ping" "" ]})
    by (vm_compute; reflexivity).
  destruct (streamLoop None (mkStreamState "" ∅ []) (openai.Stream_Chunks bareStream))
    as [st | e] eqn:Hst; [|vm_compute in Hst; discriminate Hst].
  pose proof (streaming_success (plugin bareStream) params (request [question] AnyNil)
                None st) as Hrun.
  cbv zeta in Hrun.
  change (openai.Stream_Chunks
            (openai.Chat_Completions_NewStreaming (client (plugin bareStream)) params))
    with (openai.Stream_Chunks bareStream) in Hrun.
  rewrite Hmap in Hrun.
  destruct Hrun as (resp & Hresp & Hparts).
  - exact Hst.
  - reflexivity.
  - intros idx acc [_ <-]%lookup_singleton_Some _ Harguments.
    contradiction Harguments. reflexivity.
  - exists resp. split; [exact Hresp|].
    destruct (Hparts 1 (mkAccumulator "" "ping" "")) as (args & Hpart & Hempty & _).
    + apply lookup_singleton_Some. split; reflexivity.
    + discriminate.
    + rewrite <- (Hempty eq_refl). exact Hpart.
Defined.

(** A plugin is initialised once. *)
Lemma plugin_lifecycle_witness :
  Init string newClient (Ok "default") (fun _ => "") keySettings offline =
    Returns (plugin textStream) /\
  exists msg,
    Init string newClient (Ok "default") (fun _ => "") keySettings (plugin textStream) =
      Panics msg.
Proof.
  assert (Hfirst :
    Init string newClient (Ok "default") (fun _ => "") keySettings offline =
      Returns (plugin textStream)) by (vm_compute; reflexivity).
  split; [exact Hfirst|].
  pose proof (plugin_lifecycle string newClient (Ok "default") (fun _ => "")) as Hlife.
  cbv zeta in Hlife. destruct Hlife as (_ & Honce & _).
  exact (Honce keySettings keySettings offline (plugin textStream) Hfirst).
Defined.
